(** * Library Book Usage Analytics System: a shallow embedding of [main.py]

    The Python classes [Book], [Member] and [LibraryAnalytics] are embedded
    as Rocq modules of the same names.  Objects live in a store and are
    referred to by location, as Python references are: the registry's two
    dictionaries map identifiers to locations, so that a checkout mutates
    the very object the caller registered.  Methods are written in a small
    state-and-exception monad over that store. *)

From Stdlib Require Import ZArith String Ascii List Bool Lia Sorted.
From Stdlib Require Import DecimalString DecimalN.
From Stdlib Require Import Floats.SpecFloat.
From stdpp Require Import base option list strings.

Set Warnings "-register-all".

Local Open Scope string_scope.
Local Open Scope Z_scope.

(** ** Python values *)

(** Binary64 floats, with the operations of [SpecFloat] at precision 53 and
    maximal exponent 1024. *)
Definition float : Type := spec_float.

(** The dynamically typed values the program builds: [None], [int], [float],
    [str], [list] and [dict] with string keys (in insertion order). *)
Inductive pyval : Type :=
| PyNone
| PyInt (z : Z)
| PyFloat (f : float)
| PyStr (s : string)
| PyList (l : list pyval)
| PyDict (d : list (string * pyval)).

(** An insertion-ordered dictionary with string keys, as Python's [dict]. *)
Definition dict (V : Type) : Type := list (string * V).

Module Dict.
Section Ops.
Context {V : Type}.

(** [d.get(k)] *)
Fixpoint get (k : string) (d : dict V) : option V :=
  match d with
  | [] => None
  | (k', v) :: d' => if String.eqb k k' then Some v else get k d'
  end.

(** [k in d] *)
Definition contains (k : string) (d : dict V) : bool :=
  match get k d with Some _ => true | None => false end.

(** [d[k] = v]: a present key keeps its position, a new key goes last. *)
Fixpoint set (k : string) (v : V) (d : dict V) : dict V :=
  match d with
  | [] => [(k, v)]
  | (k', v') :: d' =>
      if String.eqb k k' then (k', v) :: d' else (k', v') :: set k v d'
  end.

(** [d.keys()], [d.values()] and [len(d)] *)
Definition keys (d : dict V) : list string := map fst d.
Definition values (d : dict V) : list V := map snd d.
Definition len (d : dict V) : Z := Z.of_nat (length d).
End Ops.
End Dict.

(** [x in l] and [l.remove(x)] on a list of strings; [remove] deletes the
    first element equal to [x]. *)
Fixpoint list_contains (x : string) (l : list string) : bool :=
  match l with
  | [] => false
  | y :: l' => if String.eqb y x then true else list_contains x l'
  end.

Fixpoint list_remove (x : string) (l : list string) : list string :=
  match l with
  | [] => []
  | y :: l' => if String.eqb y x then l' else y :: list_remove x l'
  end.

(** [l[:stop]] for an [int] stop: a negative stop counts from the end. *)
Definition slice_to {A : Type} (l : list A) (stop : Z) : list A :=
  if stop <? 0
  then take (Z.to_nat (Z.of_nat (length l) + stop)) l
  else take (Z.to_nat stop) l.

(** [sorted(l, key=key, reverse=reverse)].  The builtin is a stable sort,
    and stays stable under [reverse=True]; a stable sort has one possible
    result, which insertion from the right computes. *)
Section Sorted.
Context {A : Type} (key : A -> Z) (reverse : bool).

Definition goes_before (x y : A) : bool :=
  if reverse then key y <=? key x else key x <=? key y.

Fixpoint insert_sorted (x : A) (l : list A) : list A :=
  match l with
  | [] => [x]
  | y :: l' => if goes_before x y then x :: y :: l' else y :: insert_sorted x l'
  end.

Definition sorted (l : list A) : list A := foldr insert_sorted [] l.
End Sorted.

(** ** [datetime] *)

(** A naive [datetime] (no time zone), by its fields. *)
Record datetime : Type := mk_datetime {
  year : Z; month : Z; day : Z;
  hour : Z; minute : Z; second : Z; microsecond : Z
}.

Definition decimal (n : Z) : string :=
  NilZero.string_of_uint (N.to_uint (Z.to_N n)).

Fixpoint zeros (n : nat) : string :=
  match n with O => "" | S n' => String "0" (zeros n') end.

(** [%0<width>d] for a non-negative number *)
Definition zero_padded (width : nat) (n : Z) : string :=
  let s := decimal n in zeros (width - String.length s) ++ s.

(** [d.isoformat()]: [YYYY-MM-DDTHH:MM:SS], with [.ffffff] when the
    microseconds are not zero. *)
Definition isoformat (d : datetime) : string :=
  zero_padded 4 (year d) ++ "-" ++ zero_padded 2 (month d) ++ "-" ++
  zero_padded 2 (day d) ++ "T" ++ zero_padded 2 (hour d) ++ ":" ++
  zero_padded 2 (minute d) ++ ":" ++ zero_padded 2 (second d) ++
  (if microsecond d =? 0 then "" else "." ++ zero_padded 6 (microsecond d)).

(** ** [int / int] and [round(x, ndigits)] *)

Definition float_of_int (z : Z) : float :=
  match z with
  | Z0 => S754_zero false
  | Zpos p => S754_finite false p 0
  | Zneg p => S754_finite true p 0
  end.

Inductive exn : Type :=
| ZeroDivisionError
| OverflowError
| KeyError
| OSError
| ValueError
| InvalidReference.

Inductive result (A : Type) : Type :=
| Ok (a : A)
| Raise (e : exn).
Arguments Ok {A} a.
Arguments Raise {A} e.

(** True division of two [int]s: the quotient correctly rounded to a
    binary64, [OverflowError] when it is too large for one. *)
Definition int_truediv (a b : Z) : result float :=
  if b =? 0 then Raise ZeroDivisionError
  else match SFdiv 53 1024 (float_of_int a) (float_of_int b) with
       | S754_infinity _ => Raise OverflowError
       | q => Ok q
       end.

(** The integer nearest to [n / d] for [d > 0], ties to the even one. *)
Definition div_nearest_even (n d : Z) : Z :=
  let q := n / d in
  let r := n mod d in
  match 2 * r ?= d with
  | Lt => q
  | Gt => q + 1
  | Eq => if Z.even q then q else q + 1
  end.

(** [round(x, ndigits)] on a float, for [0 <= ndigits]: the exact binary
    value of [x] is rounded half-to-even to [ndigits] decimals, and the
    decimal obtained is converted back to the nearest binary64. *)
Definition float_round (x : float) (ndigits : Z) : float :=
  match x with
  | S754_finite s m e =>
      let p := 10 ^ ndigits in
      let h := if 0 <=? e
               then Zpos m * 2 ^ e * p
               else div_nearest_even (Zpos m * p) (2 ^ (- e)) in
      match h with
      | Z0 => S754_zero s
      | _ => SFdiv 53 1024 (float_of_int (if s then - h else h)) (float_of_int p)
      end
  | _ => x
  end.

(** [round(v, ndigits)] on a number: an [int] is returned as it is when
    [0 <= ndigits]. *)
Definition py_round (v : pyval) (ndigits : Z) : pyval :=
  match v with
  | PyFloat f => PyFloat (float_round f ndigits)
  | _ => v
  end.

(** ** How accurate the division and the rounding are *)

(** [f] is a binary64 within half a unit in the last place of the rational
    [num / den], for [0 <= num] and [0 < den]: the zero when [num] is 0,
    else a normal number [m * 2 ^ e] with
    [|num / den - m * 2 ^ e| <= 2 ^ (e - 1)].  The inequality is scaled by
    [2 ^ 1075 * den], which keeps it in the integers. *)
Definition within_half_ulp (num den : Z) (f : float) : Prop :=
  match f with
  | S754_zero false => num = 0
  | S754_finite false m e =>
      2 ^ 52 <= Zpos m < 2 ^ 53 /\ -1074 <= e <= 971 /\
      Z.abs (num * 2 ^ 1075 - Zpos m * 2 ^ (e + 1075) * den)
      <= 2 ^ (e + 1074) * den
  | _ => False
  end.

(** The place of [N / D] between [m] and [m + 1], as [SpecFloat] records it
    while it divides and shifts: on [m], below the middle, on the middle,
    or above it. *)
Definition located (N D m : Z) (l : location) : Prop :=
  match l with
  | loc_Exact => N = m * D
  | loc_Inexact Lt => m * D < N /\ 2 * N < (2 * m + 1) * D
  | loc_Inexact Eq => 2 * N = (2 * m + 1) * D
  | loc_Inexact Gt => (2 * m + 1) * D < 2 * N /\ N < (m + 1) * D
  end.

(** The last two steps of [binary_round_aux]: the rounded mantissa is
    normalised once more and packed. *)
Definition pack (sx : bool) (m e : Z) : float :=
  let '(mrs, e') := shr_fexp 53 1024 m e loc_Exact in
  match shr_m mrs with
  | Z0 => S754_zero sx
  | Zpos m => if e' <=? 1024 - 53 then S754_finite sx m e' else S754_infinity sx
  | _ => S754_nan
  end.

(** ** [repr] of numbers *)

(** [repr(z)] for an [int], written in full: the limit an interpreter may
    put on the number of digits of such a conversion is not modelled. *)
Definition int_repr (z : Z) : string :=
  if z <? 0 then String "-" (decimal (- z)) else decimal z.

(** The binary64 nearest to [d * 10 ^ k], as [float(s)] finds it for the
    decimal literal [s]. *)
Definition float_of_decimal (d k : Z) : float :=
  if 0 <=? k
  then SFdiv 53 1024 (float_of_int (d * 10 ^ k)) (float_of_int 1)
  else SFdiv 53 1024 (float_of_int d) (float_of_int (10 ^ (- k))).

(** The position of the decimal point of [num / den > 0]: the [k] with
    [10 ^ (k - 1) <= num / den < 10 ^ k]. *)
Fixpoint leading_zeros (fuel : nat) (num den : Z) : Z :=
  match fuel with
  | O => 0
  | S fuel' =>
      if den <=? num * 10 then 0 else 1 + leading_zeros fuel' (num * 10) den
  end.

Definition decimal_point (num den : Z) : Z :=
  if den <=? num
  then Z.of_nat (String.length (decimal (num / den)))
  else - leading_zeros 400 num den.

(** The [p]-digit decimal that [repr] may print for [x = num / den]: of the
    two [p]-digit decimals around [x], the one that converts back to [x],
    the nearer one (the even one on a tie) when both do.  The result is the
    integer [d] of the decimal [d * 10 ^ (point - p)]. *)
Definition digits_candidate (x : float) (num den point : Z) (p : Z)
    : option Z :=
  let k := point - p in
  let n := if 0 <=? k then num else num * 10 ^ (- k) in
  let d := if 0 <=? k then den * 10 ^ k else den in
  let lo := n / d in
  let r := n mod d in
  let hi := lo + 1 in
  let back c := match x, float_of_decimal c k with
                | S754_finite _ m e, S754_finite _ m' e' =>
                    Pos.eqb m m' && (e =? e')
                | _, _ => false
                end in
  if r =? 0 then (if back lo then Some lo else None)
  else
    match back lo, back hi with
    | true, true =>
        match 2 * r ?= d with
        | Lt => Some lo
        | Gt => Some hi
        | Eq => Some (if Z.even lo then lo else hi)
        end
    | true, false => Some lo
    | false, true => Some hi
    | false, false => None
    end.

(** The shortest decimal that converts back to [x]: [p] is tried upwards
    from [17 - fuel]; seventeen digits always suffice. *)
Fixpoint shortest_digits (fuel : nat) (x : float) (num den point : Z)
    : Z * Z :=
  let p := 17 - Z.of_nat fuel in
  match fuel with
  | O => (div_nearest_even (if 0 <=? point - p then num else num * 10 ^ (p - point))
                           (if 0 <=? point - p then den * 10 ^ (point - p) else den), p)
  | S fuel' =>
      match digits_candidate x num den point p with
      | Some d => (d, p)
      | None => shortest_digits fuel' x num den point
      end
  end.

Fixpoint strip_zeros (fuel : nat) (d : Z) : Z :=
  match fuel with
  | O => d
  | S fuel' => if (d mod 10 =? 0) && negb (d =? 0)
               then strip_zeros fuel' (d / 10) else d
  end.

(** [s[:n]] and [s[n:]] on a string *)
Definition str_take (n : nat) (s : string) : string := String.substring 0 n s.
Definition str_drop (n : nat) (s : string) : string :=
  String.substring n (String.length s - n) s.

(** [repr(x)] of a positive finite float given by its digits and the
    position of its decimal point: scientific notation when the point is
    further left than [0.0001] or further right than sixteen digits. *)
Definition format_repr (digits : string) (point : Z) : string :=
  let n := Z.of_nat (String.length digits) in
  if (point <=? -4) || (16 <? point)
  then
    let exponent := point - 1 in
    str_take 1 digits ++
    (if 1 <? n then "." ++ str_drop 1 digits else "") ++
    "e" ++ (if exponent <? 0 then "-" else "+") ++
    zero_padded 2 (Z.abs exponent)
  else if point <=? 0
  then "0." ++ zeros (Z.to_nat (- point)) ++ digits
  else if n <=? point
  then digits ++ zeros (Z.to_nat (point - n)) ++ ".0"
  else str_take (Z.to_nat point) digits ++ "." ++
       str_drop (Z.to_nat point) digits.

(** [float.__repr__], with the spellings [json] uses for the values that
    are not numbers. *)
Definition float_repr (x : float) : string :=
  match x with
  | S754_zero s => if s then "-0.0" else "0.0"
  | S754_infinity s => if s then "-Infinity" else "Infinity"
  | S754_nan => "NaN"
  | S754_finite s m e =>
      let num := if 0 <=? e then Zpos m * 2 ^ e else Zpos m in
      let den := if 0 <=? e then 1 else 2 ^ (- e) in
      let point := decimal_point num den in
      let '(d, p) := shortest_digits 16 x num den point in
      let digits := decimal (strip_zeros 17 d) in
      let point' := point - p + Z.of_nat (String.length (decimal d)) in
      (if s then "-" else "") ++ format_repr digits point'
  end.

(** ** [json.dumps(v, indent=2)] *)

Definition quote : ascii := "034"%char.
Definition newline : ascii := "010"%char.

(** A hexadecimal digit, in lower case *)
Definition hex_digit (n : N) : ascii :=
  ascii_of_N (if (n <? 10)%N then 48 + n else 87 + n)%N.

(** How the encoder writes one character of a [str] (with [ensure_ascii],
    the default): the printable ASCII characters stand for themselves, but
    the quote and the backslash; every other character is escaped. *)
Definition escape_char (c : ascii) : string :=
  let n := N_of_ascii c in
  if (n =? 34)%N then String "\" (String quote "")
  else if (n =? 92)%N then "\\"
  else if (n =? 10)%N then "\n"
  else if (n =? 13)%N then "\r"
  else if (n =? 9)%N then "\t"
  else if (n =? 8)%N then "\b"
  else if (n =? 12)%N then "\f"
  else if (32 <=? n)%N && (n <=? 126)%N then String c ""
  else "\u00" ++ String (hex_digit (n / 16)) (String (hex_digit (n mod 16)) "").

Fixpoint escape (s : string) : string :=
  match s with
  | EmptyString => ""
  | String c s' => escape_char c ++ escape s'
  end.

Definition encode_str (s : string) : string :=
  String quote (escape s ++ String quote "").

(** A line break followed by the indentation of a nesting level *)
Fixpoint indentation (level : nat) : string :=
  match level with O => "" | S l => "  " ++ indentation l end.

Definition newline_indent (level : nat) : string :=
  String newline (indentation level).

(** The text of a value nested [level] deep.  An empty container is written
    [[]] or [{}]; otherwise each item is on a line of its own, one level
    deeper, with [,] after each item but the last and [: ] after a key. *)
Fixpoint encode (level : nat) (v : pyval) : string :=
  match v with
  | PyNone => "null"
  | PyInt z => int_repr z
  | PyFloat f => float_repr f
  | PyStr s => encode_str s
  | PyList [] => "[]"
  | PyList (x :: xs) =>
      "[" ++ newline_indent (S level) ++ encode (S level) x ++
      (fix items (l : list pyval) : string :=
         match l with
         | [] => ""
         | y :: l' =>
             "," ++ newline_indent (S level) ++ encode (S level) y ++ items l'
         end) xs ++
      newline_indent level ++ "]"
  | PyDict [] => "{}"
  | PyDict ((k, x) :: xs) =>
      "{" ++ newline_indent (S level) ++ encode_str k ++ ": " ++
      encode (S level) x ++
      (fix items (l : list (string * pyval)) : string :=
         match l with
         | [] => ""
         | (k', y) :: l' =>
             "," ++ newline_indent (S level) ++ encode_str k' ++ ": " ++
             encode (S level) y ++ items l'
         end) xs ++
      newline_indent level ++ "}"
  end.

Definition json_dumps (v : pyval) : string := encode 0 v.

(** [s.lower()].  A character of a Rocq string stands for the code point of
    its number, so a [str] of this model holds code points below 256 only;
    among those the letters [A]-[Z] and the accented capitals
    [U+00C0]-[U+00DE] (but the multiplication sign [U+00D7]) have a small
    form, 32 further on.  Text with other characters has no counterpart
    here. *)
Definition char_lower (c : ascii) : ascii :=
  let n := N_of_ascii c in
  if ((65 <=? n) && (n <=? 90) ||
      (192 <=? n) && (n <=? 222) && negb (n =? 215))%N
  then ascii_of_N (n + 32)
  else c.

Fixpoint str_lower (s : string) : string :=
  match s with
  | EmptyString => EmptyString
  | String c s' => String (char_lower c) (str_lower s')
  end.

(** [sum(l)] on a list of [int]s *)
Definition py_sum (l : list Z) : Z := foldr Z.add 0 l.

(** ** The two entity classes

    A method that mutates [self] is a function from the object's fields
    before the call to its fields after it. *)

Module Book.
Record t : Type := mk {
  book_id : string;
  title : string;
  author : string;
  isbn : string;
  total_checkouts : Z;
  checkout_history : list pyval;
  last_checkout : option datetime
}.

(** [Book.__init__] *)
Definition init (book_id title author isbn : string) : t :=
  {| book_id := book_id; title := title; author := author; isbn := isbn;
     total_checkouts := 0; checkout_history := []; last_checkout := None |}.

(** [Book.record_checkout] *)
Definition record_checkout (self : t) (member_id : string)
    (checkout_date : datetime) : t :=
  {| book_id := book_id self; title := title self; author := author self;
     isbn := isbn self;
     total_checkouts := total_checkouts self + 1;
     checkout_history :=
       checkout_history self ++
       [PyDict [("member_id", PyStr member_id);
                ("checkout_date", PyStr (isoformat checkout_date))]];
     last_checkout := Some checkout_date |}.

(** [Book.to_dict] *)
Definition to_dict (self : t) : pyval :=
  PyDict [("book_id", PyStr (book_id self));
          ("title", PyStr (title self));
          ("author", PyStr (author self));
          ("isbn", PyStr (isbn self));
          ("total_checkouts", PyInt (total_checkouts self));
          ("last_checkout",
            match last_checkout self with
            | Some d => PyStr (isoformat d)
            | None => PyNone
            end)].
End Book.

Module Member.
Record t : Type := mk {
  member_id : string;
  name : string;
  email : string;
  books_checked_out : list string;
  checkout_history : list pyval
}.

(** [Member.__init__] *)
Definition init (member_id name email : string) : t :=
  {| member_id := member_id; name := name; email := email;
     books_checked_out := []; checkout_history := [] |}.

(** [Member.checkout_book]: the member and the book after the call. *)
Definition checkout_book (self : t) (book : Book.t)
    (checkout_date : datetime) : t * Book.t :=
  let self' :=
    {| member_id := member_id self; name := name self; email := email self;
       books_checked_out := books_checked_out self ++ [Book.book_id book];
       checkout_history :=
         checkout_history self ++
         [PyDict [("book_id", PyStr (Book.book_id book));
                  ("checkout_date", PyStr (isoformat checkout_date))]] |} in
  (self', Book.record_checkout book (member_id self') checkout_date).

(** [Member.return_book]: the member after the call and the flag
    returned. *)
Definition return_book (self : t) (book_id : string) : t * bool :=
  if list_contains book_id (books_checked_out self)
  then ({| member_id := member_id self; name := name self;
           email := email self;
           books_checked_out := list_remove book_id (books_checked_out self);
           checkout_history := checkout_history self |}, true)
  else (self, false).

(** [Member.to_dict] *)
Definition to_dict (self : t) : pyval :=
  PyDict [("member_id", PyStr (member_id self));
          ("name", PyStr (name self));
          ("email", PyStr (email self));
          ("books_currently_checked_out",
            PyInt (Z.of_nat (length (books_checked_out self))));
          ("total_checkouts",
            PyInt (Z.of_nat (length (checkout_history self))))].
End Member.

(** ** The object store and the registry *)

(** A reference to an object: its index in the store of its class. *)
Abbreviation loc := nat.

(** The fields of a [LibraryAnalytics] instance.  [books] and [members] hold
    references; [analytics_data] is created empty and never used. *)
Record registry : Type := mk_registry {
  books : dict loc;
  members : dict loc;
  analytics_data : dict (list pyval)
}.

(** What a run of the program acts on: the [Book] and [Member] objects
    created so far, the registry instance, the system clock (the readings
    [utcnow] will return, and how many were taken) and the files written. *)
Record World : Type := mk_world {
  book_objs : list Book.t;
  member_objs : list Member.t;
  self : registry;
  clock : nat -> datetime;
  ticks : nat;
  writable : string -> bool;
  files : dict string
}.

Definition with_book_objs (w : World) (bs : list Book.t) : World :=
  {| book_objs := bs; member_objs := member_objs w; self := self w;
     clock := clock w; ticks := ticks w; writable := writable w;
     files := files w |}.

Definition with_member_objs (w : World) (ms : list Member.t) : World :=
  {| book_objs := book_objs w; member_objs := ms; self := self w;
     clock := clock w; ticks := ticks w; writable := writable w;
     files := files w |}.

Definition with_self (w : World) (r : registry) : World :=
  {| book_objs := book_objs w; member_objs := member_objs w; self := r;
     clock := clock w; ticks := ticks w; writable := writable w;
     files := files w |}.

Definition with_ticks (w : World) (n : nat) : World :=
  {| book_objs := book_objs w; member_objs := member_objs w; self := self w;
     clock := clock w; ticks := n; writable := writable w;
     files := files w |}.

Definition with_files (w : World) (fs : dict string) : World :=
  {| book_objs := book_objs w; member_objs := member_objs w; self := self w;
     clock := clock w; ticks := ticks w; writable := writable w;
     files := fs |}.

(** Computations that read and update the world and may raise. *)
Definition M (A : Type) : Type := World -> result A * World.

Definition ret {A : Type} (a : A) : M A := fun w => (Ok a, w).

Definition raise {A : Type} (e : exn) : M A := fun w => (Raise e, w).

Definition bind {A B : Type} (m : M A) (k : A -> M B) : M B :=
  fun w =>
    match m w with
    | (Ok a, w') => k a w'
    | (Raise e, w') => (Raise e, w')
    end.

Notation "x <- m ;; k" := (bind m (fun x => k))
  (at level 100, m at next level, right associativity).
Notation "m ;;; k" := (bind m (fun _ => k))
  (at level 100, right associativity).

Definition get_world : M World := fun w => (Ok w, w).
Definition put_world (w : World) : M unit := fun _ => (Ok tt, w).

(** Reading and writing an object through a reference.  A reference that
    some constructor returned is always valid; [InvalidReference] stands
    for the others, which no Python program can form. *)
Definition read_book (l : loc) : M Book.t :=
  fun w => match book_objs w !! l with
           | Some b => (Ok b, w)
           | None => (Raise InvalidReference, w)
           end.

Definition write_book (l : loc) (b : Book.t) : M unit :=
  fun w => (Ok tt, with_book_objs w (<[l := b]> (book_objs w))).

Definition read_member (l : loc) : M Member.t :=
  fun w => match member_objs w !! l with
           | Some m => (Ok m, w)
           | None => (Raise InvalidReference, w)
           end.

Definition write_member (l : loc) (m : Member.t) : M unit :=
  fun w => (Ok tt, with_member_objs w (<[l := m]> (member_objs w))).

(** [Book(book_id, title, author, isbn)]: a new object, and its reference. *)
Definition new_book (book_id title author isbn : string) : M loc :=
  fun w => (Ok (length (book_objs w)),
            with_book_objs w (book_objs w ++ [Book.init book_id title author isbn])).

(** [Member(member_id, name, email)] *)
Definition new_member (member_id name email : string) : M loc :=
  fun w => (Ok (length (member_objs w)),
            with_member_objs w (member_objs w ++ [Member.init member_id name email])).

(** [datetime.utcnow()] *)
Definition utcnow : M datetime :=
  fun w => (Ok (clock w (ticks w)), with_ticks w (S (ticks w))).

(** [for x in l: body(x)] and [[f(x) for x in l]] *)
Fixpoint for_each {A : Type} (l : list A) (body : A -> M unit) : M unit :=
  match l with
  | [] => ret tt
  | x :: l' => body x ;;; for_each l' body
  end.

Fixpoint map_m {A B : Type} (f : A -> M B) (l : list A) : M (list B) :=
  match l with
  | [] => ret []
  | x :: l' => y <- f x ;; ys <- map_m f l' ;; ret (y :: ys)
  end.

(** [m.return_book(book_id)] on the member object [m] refers to. *)
Definition return_book (m : loc) (book_id : string) : M bool :=
  member <- read_member m ;;
  let '(member', flag) := Member.return_book member book_id in
  write_member m member' ;;;
  ret flag.

(** [member.checkout_book(book, checkout_date)] on two references. *)
Definition checkout_book (m b : loc) (checkout_date : datetime) : M unit :=
  member <- read_member m ;;
  book <- read_book b ;;
  let '(member', book') := Member.checkout_book member book checkout_date in
  write_member m member' ;;;
  write_book b book'.

(** ** [LibraryAnalytics] *)

Definition get_self : M registry := fun w => (Ok (self w), w).
Definition put_self (r : registry) : M unit := fun w => (Ok tt, with_self w r).

(** [d[k]] *)
Definition subscript {V : Type} (d : dict V) (k : string) : M V :=
  match Dict.get k d with
  | Some v => ret v
  | None => raise KeyError
  end.

(** The result of an operation that can raise, inside a computation *)
Definition lift {A : Type} (r : result A) : M A := fun w => (r, w).

(** A file name with a null character in it *)
Fixpoint has_nul (s : string) : bool :=
  match s with
  | EmptyString => false
  | String c s' => Ascii.eqb c Ascii.zero || has_nul s'
  end.

(** [with open(filename, 'w') as f: f.write(text)].  [open] raises
    [ValueError] for a name with a null character, before it looks at the
    path, and [OSError] when the path cannot be opened for writing;
    otherwise it truncates the file, and the text is written. *)
Definition write_file (filename text : string) : M unit :=
  fun w =>
    if has_nul filename then (Raise ValueError, w)
    else if writable w filename
    then (Ok tt, with_files w (Dict.set filename text (files w)))
    else (Raise OSError, w).

Module LibraryAnalytics.

(** [LibraryAnalytics.__init__] *)
Definition init : registry :=
  {| books := []; members := []; analytics_data := [] |}.

(** [add_book] *)
Definition add_book (book : loc) : M bool :=
  b <- read_book book ;;
  r <- get_self ;;
  if negb (Dict.contains (Book.book_id b) (books r))
  then
    put_self {| books := Dict.set (Book.book_id b) book (books r);
                members := members r;
                analytics_data := analytics_data r |} ;;;
    ret true
  else ret false.

(** [add_member] *)
Definition add_member (member : loc) : M bool :=
  m <- read_member member ;;
  r <- get_self ;;
  if negb (Dict.contains (Member.member_id m) (members r))
  then
    put_self {| books := books r;
                members := Dict.set (Member.member_id m) member (members r);
                analytics_data := analytics_data r |} ;;;
    ret true
  else ret false.

(** [process_checkout] *)
Definition process_checkout (member_id book_id : string)
    (checkout_date : datetime) : M bool :=
  r <- get_self ;;
  if negb (Dict.contains member_id (members r)) ||
     negb (Dict.contains book_id (books r))
  then ret false
  else
    member <- subscript (members r) member_id ;;
    book <- subscript (books r) book_id ;;
    checkout_book member book checkout_date ;;;
    ret true.

(** [get_most_popular_books] *)
Definition get_most_popular_books (limit : Z) : M (list pyval) :=
  r <- get_self ;;
  objs <- map_m read_book (Dict.values (books r)) ;;
  let sorted_books := sorted Book.total_checkouts true objs in
  ret (map Book.to_dict (slice_to sorted_books limit)).

(** [get_most_active_members] *)
Definition get_most_active_members (limit : Z) : M (list pyval) :=
  r <- get_self ;;
  objs <- map_m read_member (Dict.values (members r)) ;;
  let sorted_members :=
    sorted (fun m => Z.of_nat (length (Member.checkout_history m))) true objs in
  ret (map Member.to_dict (slice_to sorted_members limit)).

(** [get_books_by_author] *)
Definition get_books_by_author (author : string) : M (list pyval) :=
  r <- get_self ;;
  objs <- map_m read_book (Dict.values (books r)) ;;
  ret (map Book.to_dict
         (List.filter
            (fun book =>
               String.eqb (str_lower (Book.author book)) (str_lower author))
            objs)).

(** [get_member_checkout_history] *)
Definition get_member_checkout_history (member_id : string) : M (list pyval) :=
  r <- get_self ;;
  if negb (Dict.contains member_id (members r))
  then ret []
  else
    member <- subscript (members r) member_id ;;
    m <- read_member member ;;
    ret (Member.checkout_history m).

(** [get_usage_statistics] *)
Definition get_usage_statistics : M pyval :=
  r <- get_self ;;
  let total_books := Dict.len (books r) in
  let total_members := Dict.len (members r) in
  objs <- map_m read_book (Dict.values (books r)) ;;
  let total_checkouts := py_sum (map Book.total_checkouts objs) in
  avg_checkouts_per_book <-
    (if 0 <? total_books
     then q <- lift (int_truediv total_checkouts total_books) ;; ret (PyFloat q)
     else ret (PyInt 0)) ;;
  now <- utcnow ;;
  ret (PyDict [("total_books", PyInt total_books);
               ("total_members", PyInt total_members);
               ("total_checkouts", PyInt total_checkouts);
               ("average_checkouts_per_book", py_round avg_checkouts_per_book 2);
               ("generated_at", PyStr (isoformat now))]).

(** [export_analytics_to_json] *)
Definition export_analytics_to_json (filename : string) : M string :=
  now <- utcnow ;;
  statistics <- get_usage_statistics ;;
  most_popular_books <- get_most_popular_books 10 ;;
  most_active_members <- get_most_active_members 10 ;;
  let report :=
    PyDict [("timestamp", PyStr (isoformat now));
            ("statistics", statistics);
            ("most_popular_books", PyList most_popular_books);
            ("most_active_members", PyList most_active_members)] in
  write_file filename (json_dumps report) ;;;
  ret filename.

End LibraryAnalytics.

(** ** The demonstration script *)

(** The world a program starts in: no object yet, an empty registry. *)
Definition initial_world (clock : nat -> datetime) (writable : string -> bool)
    : World :=
  {| book_objs := []; member_objs := []; self := LibraryAnalytics.init;
     clock := clock; ticks := 0; writable := writable; files := [] |}.

Definition books_data : list (string * string * string * string) :=
  [("B001", "The Great Gatsby", "F. Scott Fitzgerald", "978-0-7432-7356-5");
   ("B002", "1984", "George Orwell", "978-0-452-28423-4");
   ("B003", "To Kill a Mockingbird", "Harper Lee", "978-0-06-112008-4");
   ("B004", "Pride and Prejudice", "Jane Austen", "978-0-14-143951-8");
   ("B005", "The Catcher in the Rye", "J.D. Salinger", "978-0-316-76948-0")].

Definition members_data : list (string * string * string) :=
  [("M001", "Alice Johnson", "alice@example.com");
   ("M002", "Bob Smith", "bob@example.com");
   ("M003", "Carol Davis", "carol@example.com")].

(** [datetime(year, month, day)] *)
Definition date (year month day : Z) : datetime :=
  mk_datetime year month day 0 0 0 0.

Definition checkouts : list (string * string * datetime) :=
  [("M001", "B001", date 2025 12 5);
   ("M001", "B002", date 2025 12 10);
   ("M002", "B001", date 2025 12 6);
   ("M002", "B003", date 2025 12 12);
   ("M003", "B004", date 2025 12 8);
   ("M001", "B004", date 2025 12 15)].

(** [main], without what it prints: the registrations, the checkouts, the
    three queries whose results are printed, and the export. *)
Definition main : M string :=
  put_self LibraryAnalytics.init ;;;
  for_each books_data
    (fun '(book_id, title, author, isbn) =>
       book <- new_book book_id title author isbn ;;
       LibraryAnalytics.add_book book ;;;
       ret tt) ;;;
  for_each members_data
    (fun '(member_id, name, email) =>
       member <- new_member member_id name email ;;
       LibraryAnalytics.add_member member ;;;
       ret tt) ;;;
  for_each checkouts
    (fun '(member_id, book_id, checkout_date) =>
       LibraryAnalytics.process_checkout member_id book_id checkout_date ;;;
       ret tt) ;;;
  LibraryAnalytics.get_usage_statistics ;;;
  LibraryAnalytics.get_most_popular_books 5 ;;;
  LibraryAnalytics.get_most_active_members 5 ;;;
  LibraryAnalytics.export_analytics_to_json "library_analytics_report.json".

(** ** Runs of the interface *)

(** A call of a constructor or of a public method. *)
Inductive call : Type :=
| NewBook (book_id title author isbn : string)
| NewMember (member_id name email : string)
| AddBook (book : loc)
| AddMember (member : loc)
| ProcessCheckout (member_id book_id : string) (checkout_date : datetime)
| ReturnBook (member : loc) (book_id : string)
| GetMostPopularBooks (limit : Z)
| GetMostActiveMembers (limit : Z)
| GetBooksByAuthor (author : string)
| GetMemberCheckoutHistory (member_id : string)
| GetUsageStatistics
| ExportAnalyticsToJson (filename : string).

(** What a call returns. *)
Inductive value : Type :=
| VRef (l : loc)
| VBool (b : bool)
| VList (l : list pyval)
| VDict (d : pyval)
| VStr (s : string).

Definition fmap_m {A B : Type} (f : A -> B) (m : M A) : M B :=
  x <- m ;; ret (f x).

Definition perform (c : call) : M value :=
  match c with
  | NewBook book_id title author isbn =>
      fmap_m VRef (new_book book_id title author isbn)
  | NewMember member_id name email =>
      fmap_m VRef (new_member member_id name email)
  | AddBook book => fmap_m VBool (LibraryAnalytics.add_book book)
  | AddMember member => fmap_m VBool (LibraryAnalytics.add_member member)
  | ProcessCheckout member_id book_id checkout_date =>
      fmap_m VBool
        (LibraryAnalytics.process_checkout member_id book_id checkout_date)
  | ReturnBook member book_id => fmap_m VBool (return_book member book_id)
  | GetMostPopularBooks limit =>
      fmap_m VList (LibraryAnalytics.get_most_popular_books limit)
  | GetMostActiveMembers limit =>
      fmap_m VList (LibraryAnalytics.get_most_active_members limit)
  | GetBooksByAuthor author =>
      fmap_m VList (LibraryAnalytics.get_books_by_author author)
  | GetMemberCheckoutHistory member_id =>
      fmap_m VList (LibraryAnalytics.get_member_checkout_history member_id)
  | GetUsageStatistics => fmap_m VDict LibraryAnalytics.get_usage_statistics
  | ExportAnalyticsToJson filename =>
      fmap_m VStr (LibraryAnalytics.export_analytics_to_json filename)
  end.

(** A run performs calls one after the other; a call that raises leaves the
    world as it was when the exception left it, and the run goes on.  The
    log pairs each call with its outcome. *)
Fixpoint run (calls : list call) (w : World)
    : list (call * result value) * World :=
  match calls with
  | [] => ([], w)
  | c :: calls' =>
      let '(r, w') := perform c w in
      let '(log, w'') := run calls' w' in
      ((c, r) :: log, w'')
  end.

(** The successful checkouts of the entry [book_id] in a log. *)
Definition successful_checkout (book_id : string)
    (entry : call * result value) : bool :=
  match entry with
  | (ProcessCheckout _ b _, Ok (VBool true)) => String.eqb b book_id
  | _ => false
  end.

Definition successful_checkouts (book_id : string)
    (log : list (call * result value)) : Z :=
  Z.of_nat (length (List.filter (successful_checkout book_id) log)).

(** ** Well-formed worlds *)

(** The keys of a dictionary are distinct, and every reference the registry
    holds points to an object whose identifier is the key it is filed
    under. *)
Definition book_entry_valid (w : World) (entry : string * loc) : Prop :=
  Book.book_id <$> (book_objs w !! entry.2) = Some entry.1.

Definition member_entry_valid (w : World) (entry : string * loc) : Prop :=
  Member.member_id <$> (member_objs w !! entry.2) = Some entry.1.

Definition valid_world (w : World) : Prop :=
  NoDup (Dict.keys (books (self w))) /\
  NoDup (Dict.keys (members (self w))) /\
  Forall (book_entry_valid w) (books (self w)) /\
  Forall (member_entry_valid w) (members (self w)).

(** The counter of a book is the length of its history. *)
Definition counter_matches_history (b : Book.t) : Prop :=
  Book.total_checkouts b = Z.of_nat (length (Book.checkout_history b)).

(** The world [main] leaves, with a clock that stands still at the given
    instant and every path writable. *)
Definition demo_clock (n : nat) : datetime := mk_datetime 2025 12 20 9 30 0 0.

Definition demo_world : World :=
  snd (main (initial_world demo_clock (fun _ => true))).

(** A registry of three books, two of which have been checked out once. *)
Definition three_book_world : World :=
  snd (run [NewBook "B1" "Dune" "Frank Herbert" "978-0441013593";
            NewBook "B2" "Emma" "Jane Austen" "978-0141439587";
            NewBook "B3" "Ulysses" "James Joyce" "978-0199535675";
            AddBook 0%nat; AddBook 1%nat; AddBook 2%nat;
            NewMember "M1" "Ada" "ada@example.org";
            AddMember 0%nat;
            ProcessCheckout "M1" "B1" (mk_datetime 2025 12 20 9 30 0 0);
            ProcessCheckout "M1" "B2" (mk_datetime 2025 12 21 9 30 0 0)]
         (initial_world demo_clock (fun _ => true))).

(** A registry of eight books, one of which has been checked out once: the
    average, one eighth, is half way between two decimals. *)
Definition eight_book_world : World :=
  snd (run [NewBook "B1" "Dune" "Frank Herbert" "978-0441013593";
            NewBook "B2" "Emma" "Jane Austen" "978-0141439587";
            NewBook "B3" "Ulysses" "James Joyce" "978-0199535675";
            NewBook "B4" "Walden" "Henry David Thoreau" "978-0691096124";
            NewBook "B5" "Persuasion" "Jane Austen" "978-0141439686";
            NewBook "B6" "Dubliners" "James Joyce" "978-0199536436";
            NewBook "B7" "Kim" "Rudyard Kipling" "978-0141442372";
            NewBook "B8" "Villette" "Charlotte Bronte" "978-0140434798";
            AddBook 0%nat; AddBook 1%nat; AddBook 2%nat; AddBook 3%nat;
            AddBook 4%nat; AddBook 5%nat; AddBook 6%nat; AddBook 7%nat;
            NewMember "M1" "Ada" "ada@example.org";
            AddMember 0%nat;
            ProcessCheckout "M1" "B1" (mk_datetime 2025 12 20 9 30 0 0)]
         (initial_world demo_clock (fun _ => true))).

(** A field of a dictionary value. *)
Definition field (k : string) (v : pyval) : option pyval :=
  match v with
  | PyDict d => Dict.get k d
  | _ => None
  end.

(** ** What a call does to the objects and the registry *)

(** A checkout that went through. *)
Definition checkout_succeeded (c : call) (r : result value) : bool :=
  match c, r with
  | ProcessCheckout _ _ _, Ok (VBool true) => true
  | _, _ => false
  end.

Definition same_objects (w w' : World) : Prop :=
  book_objs w' = book_objs w /\ member_objs w' = member_objs w /\
  self w' = self w.

(** The steps of the interface, as a relation between the world before, the
    call, its outcome and the world after.  Six kinds of step change an
    object or a dictionary; every other call, and every call that returns
    [False] or raises, leaves objects and registry alone. *)
Inductive step (w : World) : call -> result value -> World -> Prop :=
| step_new_book book_id title author isbn :
    step w (NewBook book_id title author isbn)
      (Ok (VRef (length (book_objs w))))
      (with_book_objs w (book_objs w ++ [Book.init book_id title author isbn]))
| step_new_member member_id name email :
    step w (NewMember member_id name email)
      (Ok (VRef (length (member_objs w))))
      (with_member_objs w
         (member_objs w ++ [Member.init member_id name email]))
| step_add_book book b :
    book_objs w !! book = Some b ->
    Dict.get (Book.book_id b) (books (self w)) = None ->
    step w (AddBook book) (Ok (VBool true))
      (with_self w
         {| books := (books (self w) ++ [(Book.book_id b, book)])%list;
            members := members (self w);
            analytics_data := analytics_data (self w) |})
| step_add_member member m :
    member_objs w !! member = Some m ->
    Dict.get (Member.member_id m) (members (self w)) = None ->
    step w (AddMember member) (Ok (VBool true))
      (with_self w
         {| books := books (self w);
            members := (members (self w) ++ [(Member.member_id m, member)])%list;
            analytics_data := analytics_data (self w) |})
| step_checkout member_id book_id checkout_date member book m b :
    Dict.get member_id (members (self w)) = Some member ->
    Dict.get book_id (books (self w)) = Some book ->
    member_objs w !! member = Some m ->
    book_objs w !! book = Some b ->
    step w (ProcessCheckout member_id book_id checkout_date) (Ok (VBool true))
      (with_book_objs
         (with_member_objs w
            (<[member := (Member.checkout_book m b checkout_date).1]>
               (member_objs w)))
         (<[book := (Member.checkout_book m b checkout_date).2]> (book_objs w)))
| step_return member book_id m :
    member_objs w !! member = Some m ->
    step w (ReturnBook member book_id)
      (Ok (VBool (Member.return_book m book_id).2))
      (with_member_objs w
         (<[member := (Member.return_book m book_id).1]> (member_objs w)))
| step_idle c r w' :
    same_objects w w' ->
    checkout_succeeded c r = false ->
    step w c r w'.

(** The counter of every book object is accounted for by a log: a book that
    is filed in the registry has been checked out as often as the log says,
    a book that is not has never been. *)
Definition counters_explained (w : World) (log : list (call * result value))
    : Prop :=
  forall (l : loc) (b : Book.t),
    book_objs w !! l = Some b ->
    Book.total_checkouts b
    = if decide (Dict.get (Book.book_id b) (books (self w)) = Some l)
      then successful_checkouts (Book.book_id b) log
      else 0.

(** [x] stands at an earlier position of [l] than [y]. *)
Definition appears_before {A : Type} (x y : A) (l : list A) : Prop :=
  exists i j : nat, (i < j)%nat /\ l !! i = Some x /\ l !! j = Some y.

(** The sum of the counters of all the entries of the registry. *)
Definition entry_checkouts (w : World) (entry : string * loc) : Z :=
  from_option Book.total_checkouts 0 (book_objs w !! entry.2).

Definition checkouts_of_all_entries (w : World) : Z :=
  py_sum (map (entry_checkouts w) (books (self w))).

(** ** Further vocabulary for the properties below *)

(** An identifier that is not registered has no successful checkout in the
    log. *)
Definition unregistered_unused (w : World)
    (log : list (call * result value)) : Prop :=
  forall book_id : string,
    Dict.get book_id (books (self w)) = None ->
    successful_checkouts book_id log = 0.

(** The successful checkouts by the member [member_id], and the successful
    returns through the reference [member], in a log. *)
Definition successful_checkout_by (member_id : string)
    (entry : call * result value) : bool :=
  match entry with
  | (ProcessCheckout m _ _, Ok (VBool true)) => String.eqb m member_id
  | _ => false
  end.

Definition successful_return (member : loc)
    (entry : call * result value) : bool :=
  match entry with
  | (ReturnBook m _, Ok (VBool true)) => Nat.eqb m member
  | _ => false
  end.

Definition count_entries (p : call * result value -> bool)
    (log : list (call * result value)) : Z :=
  Z.of_nat (length (List.filter p log)).

(** The record a checkout leaves in the history of a book and of a
    member. *)
Definition book_record (member_id : string) (d : datetime) : pyval :=
  PyDict [("member_id", PyStr member_id);
          ("checkout_date", PyStr (isoformat d))].

Definition member_record (book_id : string) (d : datetime) : pyval :=
  PyDict [("book_id", PyStr book_id);
          ("checkout_date", PyStr (isoformat d))].

(** [last_checkout] is the date of the last record of the history, and is
    [None] when there is no record. *)
Definition last_checkout_consistent (b : Book.t) : Prop :=
  match Book.last_checkout b with
  | None => Book.checkout_history b = []
  | Some d =>
      exists (earlier : list pyval) (member_id : string),
        Book.checkout_history b = (earlier ++ [book_record member_id d])%list
  end.

(** Every identifier a member holds, and every identifier in a history, is
    registered. *)
Definition holds_registered (w : World) (m : Member.t) : Prop :=
  Forall (fun book_id => Dict.contains book_id (books (self w)) = true)
    (Member.books_checked_out m) /\
  Forall (fun record =>
            exists book_id date,
              record = PyDict [("book_id", PyStr book_id);
                               ("checkout_date", PyStr date)] /\
              Dict.contains book_id (books (self w)) = true)
    (Member.checkout_history m).

Definition borrowers_registered (w : World) (b : Book.t) : Prop :=
  Forall (fun record =>
            exists member_id date,
              record = PyDict [("member_id", PyStr member_id);
                               ("checkout_date", PyStr date)] /\
              Dict.contains member_id (members (self w)) = true)
    (Book.checkout_history b).

(** Nothing is taken away between two worlds: every key stays filed at its
    reference, every object keeps its identity fields, and histories and
    counters only grow. *)
Definition book_grows (b b' : Book.t) : Prop :=
  Book.book_id b' = Book.book_id b /\ Book.title b' = Book.title b /\
  Book.author b' = Book.author b /\ Book.isbn b' = Book.isbn b /\
  Book.total_checkouts b <= Book.total_checkouts b' /\
  Book.checkout_history b `prefix_of` Book.checkout_history b'.

Definition member_grows (m m' : Member.t) : Prop :=
  Member.member_id m' = Member.member_id m /\
  Member.name m' = Member.name m /\ Member.email m' = Member.email m /\
  Member.checkout_history m `prefix_of` Member.checkout_history m'.

Definition world_grows (w w' : World) : Prop :=
  Dict.keys (books (self w)) `prefix_of` Dict.keys (books (self w')) /\
  Dict.keys (members (self w)) `prefix_of` Dict.keys (members (self w')) /\
  (forall k l, Dict.get k (books (self w)) = Some l ->
               Dict.get k (books (self w')) = Some l) /\
  (forall k l, Dict.get k (members (self w)) = Some l ->
               Dict.get k (members (self w')) = Some l) /\
  (forall l b, book_objs w !! l = Some b ->
               exists b', book_objs w' !! l = Some b' /\ book_grows b b') /\
  (forall l m, member_objs w !! l = Some m ->
               exists m', member_objs w' !! l = Some m' /\ member_grows m m').

(** The average of the statistics can be computed: there is no entry, or
    the quotient fits a float. *)
Definition average_defined (w : World) : Prop :=
  books (self w) = [] \/
  exists q,
    int_truediv (checkouts_of_all_entries w)
      (Z.of_nat (length (books (self w)))) = Ok q.

(** The report [export_analytics_to_json] assembles. *)
Definition report_of (timestamp : string) (statistics : pyval)
    (most_popular_books most_active_members : list pyval) : pyval :=
  PyDict [("timestamp", PyStr timestamp);
          ("statistics", statistics);
          ("most_popular_books", PyList most_popular_books);
          ("most_active_members", PyList most_active_members)].

(** All the successful checkouts of a log. *)
Definition all_successful_checkouts (log : list (call * result value)) : Z :=
  count_entries (fun entry => checkout_succeeded entry.1 entry.2) log.

(** A [str] of ASCII characters only. *)
Definition is_ascii_char (c : ascii) : bool := (N_of_ascii c <? 128)%N.

Fixpoint is_ascii (s : string) : bool :=
  match s with
  | EmptyString => true
  | String c s' => is_ascii_char c && is_ascii s'
  end.

(** Two characters that are the same, or the capital and the small form of
    one of the letters [A]-[Z]. *)
Definition same_letter (c c' : ascii) : bool :=
  let n := N_of_ascii c in
  let n' := N_of_ascii c' in
  ((n =? n') || (65 <=? n) && (n <=? 90) && (n' =? n + 32)
   || (65 <=? n') && (n' <=? 90) && (n =? n' + 32))%N.

(** Two strings of the same length that agree, character by character, up
    to the case of the letters. *)
Fixpoint equal_ignoring_case (s t : string) : bool :=
  match s, t with
  | EmptyString, EmptyString => true
  | String c s', String c' t' => same_letter c c' && equal_ignoring_case s' t'
  | _, _ => false
  end.

(** The authors of the registered books are written in ASCII. *)
Definition authors_ascii (w : World) : bool :=
  forallb (fun entry : string * loc =>
             match book_objs w !! entry.2 with
             | Some b => is_ascii (Book.author b)
             | None => true
             end)
    (books (self w)).

(** * Properties *)

Local Open Scope list_scope.

(** ** Dictionaries and lists *)

Lemma contains_false_get {V : Type} (k : string) (d : dict V) :
  Dict.contains k d = false <-> Dict.get k d = None.
Proof. unfold Dict.contains. destruct (Dict.get k d); split; congruence. Qed.

Lemma contains_true_get {V : Type} (k : string) (d : dict V) :
  Dict.contains k d = true <-> exists v, Dict.get k d = Some v.
Proof.
  unfold Dict.contains. destruct (Dict.get k d) as [v|]; split;
    try congruence; eauto. intros [v' ?]. congruence.
Qed.

Lemma get_elem_of {V : Type} (k : string) (v : V) (d : dict V) :
  Dict.get k d = Some v -> (k, v) ∈ d.
Proof.
  induction d as [|[k' v'] d IH]; simpl; [discriminate|].
  destruct (String.eqb_spec k k') as [->|Hne].
  - intros [= ->]. apply list_elem_of_here.
  - intros H. apply list_elem_of_further. auto.
Qed.

Lemma get_none_keys {V : Type} (k : string) (d : dict V) :
  Dict.get k d = None <-> k ∉ Dict.keys d.
Proof.
  unfold Dict.keys. induction d as [|[k' v'] d IH]; simpl.
  - split; [intros _; apply not_elem_of_nil | done].
  - rewrite not_elem_of_cons. destruct (String.eqb_spec k k') as [->|Hne].
    + split; [discriminate | intros [? _]; done].
    + rewrite IH. tauto.
Qed.

Lemma elem_of_get {V : Type} (k : string) (v : V) (d : dict V) :
  NoDup (Dict.keys d) -> (k, v) ∈ d -> Dict.get k d = Some v.
Proof.
  unfold Dict.keys. induction d as [|[k' v'] d IH]; simpl.
  - intros _ H. by apply elem_of_nil in H.
  - rewrite NoDup_cons. intros [Hk Hnd] [Heq|Hin]%elem_of_cons.
    + injection Heq as -> ->. by rewrite String.eqb_refl.
    + destruct (String.eqb_spec k k') as [->|Hne]; [|auto].
      exfalso. apply Hk. apply (list_elem_of_fmap_2 fst) in Hin. exact Hin.
Qed.

(** Setting a key that is absent appends the pair. *)
Lemma set_absent {V : Type} (k : string) (v : V) (d : dict V) :
  Dict.get k d = None -> Dict.set k v d = d ++ [(k, v)].
Proof.
  induction d as [|[k' v'] d IH]; simpl; [done|].
  destruct (String.eqb k k'); [discriminate|].
  intros H. by rewrite IH.
Qed.

(** ** Unregistered identifiers *)

(** C3: [process_checkout] with a member identifier that is not a key of
    [members], or a book identifier that is not a key of [books], returns
    [False] and leaves the whole world (every object, both dictionaries) as
    it was. *)
Theorem process_checkout_unregistered (w : World) (member_id book_id : string)
    (checkout_date : datetime) :
  Dict.contains member_id (members (self w)) = false \/
  Dict.contains book_id (books (self w)) = false ->
  LibraryAnalytics.process_checkout member_id book_id checkout_date w
  = (Ok false, w).
Proof.
  intros H. unfold LibraryAnalytics.process_checkout, bind, get_self. simpl.
  destruct H as [-> | ->]; simpl; [done|].
  by rewrite orb_true_r.
Qed.

(** ** Duplicate registrations *)

(** C4: [add_book] with a book whose identifier is already a key of [books],
    and [add_member] with a member whose identifier is already a key of
    [members], return [False] and leave the whole world as it was; the
    object filed under the identifier is the one that was there. *)
Theorem add_existing_rejected (w : World) :
  (forall (book : loc) (b : Book.t),
     book_objs w !! book = Some b ->
     Dict.contains (Book.book_id b) (books (self w)) = true ->
     LibraryAnalytics.add_book book w = (Ok false, w)) /\
  (forall (member : loc) (m : Member.t),
     member_objs w !! member = Some m ->
     Dict.contains (Member.member_id m) (members (self w)) = true ->
     LibraryAnalytics.add_member member w = (Ok false, w)).
Proof.
  split.
  - intros book b Hb Hin.
    unfold LibraryAnalytics.add_book, bind, read_book, get_self.
    rewrite Hb. simpl. by rewrite Hin.
  - intros member m Hm Hin.
    unfold LibraryAnalytics.add_member, bind, read_member, get_self.
    rewrite Hm. simpl. by rewrite Hin.
Qed.

Lemma process_checkout_unregistered_witness :
  Dict.contains "M404" (members (self demo_world)) = false /\
  LibraryAnalytics.process_checkout "M404" "B001" (date 2026 1 7) demo_world
  = (Ok false, demo_world).
Proof.
  split; [reflexivity|].
  apply (process_checkout_unregistered demo_world "M404" "B001").
  left. reflexivity.
Defined.

Lemma add_existing_rejected_witness :
  LibraryAnalytics.add_book 1%nat demo_world = (Ok false, demo_world) /\
  LibraryAnalytics.add_member 2%nat demo_world = (Ok false, demo_world).
Proof.
  destruct (add_existing_rejected demo_world) as [Hbook Hmember]. split.
  - eapply Hbook; [vm_compute; reflexivity | reflexivity].
  - eapply Hmember; [vm_compute; reflexivity | reflexivity].
Defined.

(** ** Returning a book *)

Lemma list_contains_elem_of (x : string) (l : list string) :
  list_contains x l = true <-> x ∈ l.
Proof.
  induction l as [|y l IH]; simpl.
  - split; [discriminate | intros H; by apply elem_of_nil in H].
  - rewrite elem_of_cons. destruct (String.eqb_spec y x) as [->|Hne].
    + tauto.
    + rewrite IH. split; [tauto | intros [->|H]; [done | exact H]].
Qed.

Lemma list_contains_not_elem_of (x : string) (l : list string) :
  list_contains x l = false <-> x ∉ l.
Proof.
  rewrite <- list_contains_elem_of. destruct (list_contains x l); split;
    congruence.
Qed.

(** [remove] takes out the first element equal to its argument: what comes
    before it holds no such element, and the rest keeps its order. *)
Lemma list_remove_first (x : string) (l : list string) :
  x ∈ l ->
  exists front back,
    l = front ++ (x :: back) /\ (x ∉ front) /\ list_remove x l = front ++ back.
Proof.
  induction l as [|y l IH]; simpl.
  - intros H. by apply elem_of_nil in H.
  - intros Hin. destruct (String.eqb_spec y x) as [->|Hne].
    + exists [], l. split; [done|]. split; [apply not_elem_of_nil | done].
    + apply elem_of_cons in Hin as [->|Hin]; [done|].
      destruct (IH Hin) as (front & back & -> & Hfront & ->).
      exists (y :: front), back. split; [done|]. split; [|done].
      rewrite not_elem_of_cons. split; [congruence | exact Hfront].
Qed.

Lemma count_occ_remove_same (x : string) (l : list string) :
  x ∈ l ->
  S (count_occ string_dec (list_remove x l) x) = count_occ string_dec l x.
Proof.
  intros (front & back & -> & Hfront & ->)%list_remove_first.
  rewrite !count_occ_app. simpl. destruct (string_dec x x); [lia | done].
Qed.

Lemma count_occ_remove_other (x y : string) (l : list string) :
  y <> x ->
  count_occ string_dec (list_remove x l) y = count_occ string_dec l y.
Proof.
  intros Hne. induction l as [|z l IH]; simpl; [done|].
  destruct (String.eqb_spec z x) as [->|Hzx].
  - destruct (string_dec x y); [congruence | done].
  - simpl. destruct (string_dec z y); by rewrite IH.
Qed.

Lemma with_member_objs_id (w : World) : with_member_objs w (member_objs w) = w.
Proof. by destruct w. Qed.

Lemma with_book_objs_id (w : World) : with_book_objs w (book_objs w) = w.
Proof. by destruct w. Qed.

(** What [return_book] does through a reference to a member. *)
Lemma return_book_run (w : World) (m : loc) (member : Member.t)
    (book_id : string) :
  member_objs w !! m = Some member ->
  return_book m book_id w
  = (Ok (Member.return_book member book_id).2,
     with_member_objs w
       (<[m := (Member.return_book member book_id).1]> (member_objs w))).
Proof.
  intros Hm. unfold return_book, bind, read_member. rewrite Hm.
  by destruct (Member.return_book member book_id).
Qed.

(** C5: [return_book(book_id)] on a member that holds [book_id] returns
    [True] and takes exactly one occurrence of it out of
    [books_checked_out] (every other identifier is held as often as
    before); on a member that does not hold it, it returns [False] and
    changes nothing.  Either way the member's [checkout_history] and
    identity fields, every [Book] object, the registry and every other
    member are as before. *)
Theorem return_book_effect (w : World) (m : loc) (member : Member.t)
    (book_id : string) :
  member_objs w !! m = Some member ->
  exists (flag : bool) (member' : Member.t) (w' : World),
    return_book m book_id w = (Ok flag, w') /\
    member_objs w' !! m = Some member' /\
    (book_id ∈ Member.books_checked_out member ->
       flag = true /\
       S (count_occ string_dec (Member.books_checked_out member') book_id)
       = count_occ string_dec (Member.books_checked_out member) book_id /\
       S (length (Member.books_checked_out member'))
       = length (Member.books_checked_out member) /\
       forall other, other <> book_id ->
         count_occ string_dec (Member.books_checked_out member') other
         = count_occ string_dec (Member.books_checked_out member) other) /\
    (book_id ∉ Member.books_checked_out member -> flag = false /\ w' = w) /\
    Member.checkout_history member' = Member.checkout_history member /\
    Member.member_id member' = Member.member_id member /\
    Member.name member' = Member.name member /\
    Member.email member' = Member.email member /\
    book_objs w' = book_objs w /\
    self w' = self w /\
    files w' = files w /\
    (forall other, other <> m -> member_objs w' !! other = member_objs w !! other).
Proof.
  intros Hm. pose proof (lookup_lt_Some _ _ _ Hm) as Hlt.
  rewrite (return_book_run _ _ _ _ Hm). unfold Member.return_book.
  destruct (list_contains book_id (Member.books_checked_out member)) eqn:Hheld;
    cbn [fst snd].
  - apply list_contains_elem_of in Hheld.
    eexists _, _, _. split; [reflexivity|].
    split; [by apply list_lookup_insert_eq|].
    split.
    { intros _. split; [done|]. cbn [Member.books_checked_out].
      split; [by apply count_occ_remove_same|].
      split; [|intros other Hne; by apply count_occ_remove_other].
      destruct (list_remove_first _ _ Hheld) as (front & back & -> & _ & ->).
      rewrite !length_app. simpl. lia. }
    split; [done|].
    repeat (split; [done|]).
    intros other Hne. by apply list_lookup_insert_ne.
  - apply list_contains_not_elem_of in Hheld.
    rewrite (list_insert_id _ _ _ Hm), with_member_objs_id.
    exists false, member, w. split; [done|]. split; [done|]. split; [done|].
    repeat (split; [done|]). done.
Qed.

Lemma return_book_effect_witness :
  exists (flag : bool) (member' : Member.t) (w' : World),
    return_book 0%nat "B002" demo_world = (Ok flag, w') /\
    member_objs w' !! 0%nat = Some member' /\
    flag = true /\
    Member.books_checked_out member' = ["B001"; "B004"].
Proof.
  destruct (return_book_effect demo_world 0%nat
              (Member.mk "M001" "Alice Johnson" "alice@example.com"
                 ["B001"; "B002"; "B004"]
                 (Member.checkout_history
                    (default (Member.init "" "" "") (member_objs demo_world !! 0%nat))))
              "B002")
    as (flag & member' & w' & Hrun & Hm & Hheld & _); [reflexivity|].
  exists flag, member', w'. split; [exact Hrun|]. split; [exact Hm|].
  split; [apply Hheld; vm_compute; repeat constructor|].
  assert (Hrun' := Hrun). vm_compute in Hrun'.
  injection Hrun' as <- <-. vm_compute in Hm. by injection Hm as <-.
Defined.

(** C10: when [book_id] is held, possibly several times, [return_book]
    removes its first occurrence: the identifiers before it and after it
    stay, in their order. *)
Theorem return_book_removes_first (member : Member.t) (book_id : string) :
  book_id ∈ Member.books_checked_out member ->
  exists front back,
    Member.books_checked_out member = front ++ (book_id :: back) /\
    (book_id ∉ front) /\
    Member.return_book member book_id
    = ({| Member.member_id := Member.member_id member;
          Member.name := Member.name member;
          Member.email := Member.email member;
          Member.books_checked_out := front ++ back;
          Member.checkout_history := Member.checkout_history member |}, true).
Proof.
  intros Hin. destruct (list_remove_first _ _ Hin) as (front & back & Hl & Hf & Hr).
  exists front, back. split; [exact Hl|]. split; [exact Hf|].
  unfold Member.return_book.
  apply list_contains_elem_of in Hin. rewrite Hin. by rewrite Hr.
Qed.

Lemma return_book_removes_first_witness :
  exists front back,
    ["B002"; "B001"; "B003"; "B001"] = front ++ ("B001" :: back) /\
    ("B001" ∉ front) /\
    (Member.return_book
       (Member.mk "M001" "Alice Johnson" "alice@example.com"
          ["B002"; "B001"; "B003"; "B001"] []) "B001").1
    = Member.mk "M001" "Alice Johnson" "alice@example.com"
        ["B002"; "B003"; "B001"] [].
Proof.
  destruct (return_book_removes_first
              (Member.mk "M001" "Alice Johnson" "alice@example.com"
                 ["B002"; "B001"; "B003"; "B001"] []) "B001")
    as (front & back & Hl & Hf & Hr).
  - simpl. apply list_elem_of_further, list_elem_of_here.
  - exists front, back. split; [exact Hl|]. split; [exact Hf|]. reflexivity.
Defined.

(** ** The steps of the interface *)

Lemma same_objects_refl (w : World) : same_objects w w.
Proof. by repeat split. Qed.

Lemma same_objects_trans (w1 w2 w3 : World) :
  same_objects w1 w2 -> same_objects w2 w3 -> same_objects w1 w3.
Proof. unfold same_objects. intros (-> & -> & ->) (-> & -> & ->). done. Qed.

(** Reading objects changes nothing. *)
Lemma map_m_read_book (ls : list loc) (w : World) :
  (map_m read_book ls w).2 = w.
Proof.
  induction ls as [|l ls IH]; simpl; [done|].
  unfold bind, read_book at 1. destruct (book_objs w !! l); [|done].
  destruct (map_m read_book ls w) as [[bs|e] w'] eqn:E; simpl in *; by subst.
Qed.

Lemma map_m_read_member (ls : list loc) (w : World) :
  (map_m read_member ls w).2 = w.
Proof.
  induction ls as [|l ls IH]; simpl; [done|].
  unfold bind, read_member at 1. destruct (member_objs w !! l); [|done].
  destruct (map_m read_member ls w) as [[bs|e] w'] eqn:E; simpl in *; by subst.
Qed.

Lemma get_most_popular_books_world (limit : Z) (w : World) :
  (LibraryAnalytics.get_most_popular_books limit w).2 = w.
Proof.
  unfold LibraryAnalytics.get_most_popular_books, bind, get_self.
  pose proof (map_m_read_book (Dict.values (books (self w))) w) as H.
  by destruct (map_m read_book _ w) as [[bs|e] w']; simpl in *; subst.
Qed.

Lemma get_most_active_members_world (limit : Z) (w : World) :
  (LibraryAnalytics.get_most_active_members limit w).2 = w.
Proof.
  unfold LibraryAnalytics.get_most_active_members, bind, get_self.
  pose proof (map_m_read_member (Dict.values (members (self w))) w) as H.
  by destruct (map_m read_member _ w) as [[bs|e] w']; simpl in *; subst.
Qed.

Lemma get_books_by_author_world (author : string) (w : World) :
  (LibraryAnalytics.get_books_by_author author w).2 = w.
Proof.
  unfold LibraryAnalytics.get_books_by_author, bind, get_self.
  pose proof (map_m_read_book (Dict.values (books (self w))) w) as H.
  by destruct (map_m read_book _ w) as [[bs|e] w']; simpl in *; subst.
Qed.

Lemma get_member_checkout_history_world (member_id : string) (w : World) :
  (LibraryAnalytics.get_member_checkout_history member_id w).2 = w.
Proof.
  unfold LibraryAnalytics.get_member_checkout_history, bind, get_self,
    subscript, read_member, ret, raise.
  destruct (negb _); [done|].
  destruct (Dict.get _ _); [|done]. by destruct (member_objs w !! _).
Qed.

(** The statistics only read the clock. *)
Lemma get_usage_statistics_world (w : World) :
  (LibraryAnalytics.get_usage_statistics w).2 = w \/
  (LibraryAnalytics.get_usage_statistics w).2 = with_ticks w (S (ticks w)).
Proof.
  unfold LibraryAnalytics.get_usage_statistics, bind, get_self.
  pose proof (map_m_read_book (Dict.values (books (self w))) w) as H.
  destruct (map_m read_book _ w) as [[bs|e] w']; simpl in *; subst; [|by left].
  destruct (0 <? _).
  - unfold lift, utcnow, ret. destruct (int_truediv _ _); [by right | by left].
  - by right.
Qed.

Lemma with_ticks_same_objects (w : World) (n : nat) :
  same_objects w (with_ticks w n).
Proof. by repeat split. Qed.

Lemma get_usage_statistics_same_objects (w : World) :
  same_objects w (LibraryAnalytics.get_usage_statistics w).2.
Proof.
  destruct (get_usage_statistics_world w) as [-> | ->];
    [apply same_objects_refl | apply with_ticks_same_objects].
Qed.

Lemma export_same_objects (filename : string) (w : World) :
  same_objects w (LibraryAnalytics.export_analytics_to_json filename w).2.
Proof.
  unfold LibraryAnalytics.export_analytics_to_json, bind, utcnow.
  set (w1 := with_ticks w (S (ticks w))).
  pose proof (get_usage_statistics_same_objects w1) as H1.
  destruct (LibraryAnalytics.get_usage_statistics w1) as [[stats|e] w2];
    simpl in H1; [|exact H1].
  pose proof (get_most_popular_books_world 10 w2) as H2.
  destruct (LibraryAnalytics.get_most_popular_books 10 w2) as [[pop|e] w3];
    simpl in H2; subst; [|exact H1].
  pose proof (get_most_active_members_world 10 w2) as H3.
  destruct (LibraryAnalytics.get_most_active_members 10 w2) as [[act|e] w3];
    simpl in H3; subst; [|exact H1].
  unfold write_file, ret.
  destruct (has_nul filename); [exact H1|].
  destruct (writable w2 filename); exact H1.
Qed.

Lemma fmap_m_run {A B : Type} (f : A -> B) (m : M A) (w : World) :
  fmap_m f m w
  = match m w with
    | (Ok a, w') => (Ok (f a), w')
    | (Raise e, w') => (Raise e, w')
    end.
Proof. reflexivity. Qed.

Lemma bind_ok {A B : Type} (m : M A) (k : A -> M B) (w w' : World) (a : A) :
  m w = (Ok a, w') -> bind m k w = k a w'.
Proof. unfold bind. by intros ->. Qed.

Lemma bind_raise {A B : Type} (m : M A) (k : A -> M B) (w w' : World)
    (e : exn) :
  m w = (Raise e, w') -> bind m k w = (Raise e, w').
Proof. unfold bind. by intros ->. Qed.

Lemma checkout_book_run (w : World) (m b : loc) (d : datetime)
    (member : Member.t) (book : Book.t) :
  member_objs w !! m = Some member ->
  book_objs w !! b = Some book ->
  checkout_book m b d w
  = (Ok tt,
     with_book_objs
       (with_member_objs w
          (<[m := (Member.checkout_book member book d).1]> (member_objs w)))
       (<[b := (Member.checkout_book member book d).2]> (book_objs w))).
Proof.
  intros Hm Hb. unfold checkout_book.
  rewrite (bind_ok _ _ w w member); [|by unfold read_member; rewrite Hm].
  rewrite (bind_ok _ _ w w book); [|by unfold read_book; rewrite Hb].
  reflexivity.
Qed.

Lemma checkout_book_invalid (w : World) (m b : loc) (d : datetime) :
  member_objs w !! m = None \/ book_objs w !! b = None ->
  checkout_book m b d w = (Raise InvalidReference, w).
Proof.
  intros H. unfold checkout_book.
  destruct (member_objs w !! m) as [member|] eqn:Hm.
  - destruct H as [H|H]; [done|].
    rewrite (bind_ok _ _ w w member); [|by unfold read_member; rewrite Hm].
    apply bind_raise. unfold read_book. by rewrite H.
  - apply bind_raise. unfold read_member. by rewrite Hm.
Qed.

(** [process_checkout] on two registered identifiers hands over to
    [checkout_book]. *)
Lemma process_checkout_registered (w : World) (member_id book_id : string)
    (d : datetime) (m b : loc) :
  Dict.get member_id (members (self w)) = Some m ->
  Dict.get book_id (books (self w)) = Some b ->
  LibraryAnalytics.process_checkout member_id book_id d w
  = bind (checkout_book m b d) (fun _ => ret true) w.
Proof.
  intros Hm Hb. unfold LibraryAnalytics.process_checkout.
  rewrite (bind_ok _ _ w w (self w)); [|done].
  unfold Dict.contains. rewrite Hm, Hb. simpl.
  rewrite (bind_ok _ _ w w m); [|by unfold subscript; rewrite Hm].
  rewrite (bind_ok _ _ w w b); [|by unfold subscript; rewrite Hb].
  reflexivity.
Qed.

(** The two ways a checkout is turned down. *)
Lemma process_checkout_no_member (w : World) (member_id book_id : string)
    (d : datetime) :
  Dict.contains member_id (members (self w)) = false ->
  LibraryAnalytics.process_checkout member_id book_id d w = (Ok false, w).
Proof.
  intros H. unfold LibraryAnalytics.process_checkout.
  rewrite (bind_ok _ _ w w (self w)) by done. by rewrite H.
Qed.

Lemma process_checkout_no_book (w : World) (member_id book_id : string)
    (d : datetime) :
  Dict.contains book_id (books (self w)) = false ->
  LibraryAnalytics.process_checkout member_id book_id d w = (Ok false, w).
Proof.
  intros H. unfold LibraryAnalytics.process_checkout.
  rewrite (bind_ok _ _ w w (self w)) by done. rewrite H.
  by rewrite orb_true_r.
Qed.

(** Every call of the interface is a step. *)
Lemma perform_step (c : call) (w : World) :
  step w c (perform c w).1 (perform c w).2.
Proof.
  destruct c as [id t a i | id n e | book | member | mid bid d | member bid
                | limit | limit | author | mid | | filename];
    unfold perform; rewrite !fmap_m_run.
  - apply step_new_book.
  - apply step_new_member.
  - unfold LibraryAnalytics.add_book, bind, read_book, get_self, put_self, ret.
    destruct (book_objs w !! book) as [b|] eqn:Hb;
      [|by apply step_idle; [apply same_objects_refl|]].
    destruct (Dict.contains (Book.book_id b) (books (self w))) eqn:Hin; simpl.
    + by apply step_idle; [apply same_objects_refl|].
    + apply contains_false_get in Hin. rewrite (set_absent _ _ _ Hin).
      by apply step_add_book.
  - unfold LibraryAnalytics.add_member, bind, read_member, get_self, put_self,
      ret.
    destruct (member_objs w !! member) as [m|] eqn:Hm;
      [|by apply step_idle; [apply same_objects_refl|]].
    destruct (Dict.contains (Member.member_id m) (members (self w))) eqn:Hin;
      simpl.
    + by apply step_idle; [apply same_objects_refl|].
    + apply contains_false_get in Hin. rewrite (set_absent _ _ _ Hin).
      by apply step_add_member.
  - destruct (Dict.contains mid (members (self w))) eqn:Hm.
    2:{ rewrite process_checkout_no_member by done.
        by apply step_idle; [apply same_objects_refl|]. }
    destruct (Dict.contains bid (books (self w))) eqn:Hb.
    2:{ rewrite process_checkout_no_book by done.
        by apply step_idle; [apply same_objects_refl|]. }
    apply contains_true_get in Hm as [member Hm].
    apply contains_true_get in Hb as [book Hb].
    rewrite (process_checkout_registered _ _ _ _ _ _ Hm Hb).
    destruct (member_objs w !! member) as [m|] eqn:Hmo.
    2:{ rewrite (bind_raise _ _ w w InvalidReference)
          by (apply checkout_book_invalid; by left).
        by apply step_idle; [apply same_objects_refl|]. }
    destruct (book_objs w !! book) as [b|] eqn:Hbo.
    2:{ rewrite (bind_raise _ _ w w InvalidReference)
          by (apply checkout_book_invalid; by right).
        by apply step_idle; [apply same_objects_refl|]. }
    erewrite bind_ok; [|by apply checkout_book_run].
    by apply (step_checkout w mid bid d member book m b).
  - destruct (member_objs w !! member) as [m|] eqn:Hm.
    + rewrite (return_book_run _ _ _ _ Hm). simpl. by apply step_return.
    + unfold return_book, bind, read_member. rewrite Hm. simpl.
      by apply step_idle; [apply same_objects_refl|].
  - unfold bind. pose proof (get_most_popular_books_world limit w) as H.
    destruct (LibraryAnalytics.get_most_popular_books limit w) as [[x|e] w'];
      simpl in *; subst; by apply step_idle; [apply same_objects_refl|].
  - unfold bind. pose proof (get_most_active_members_world limit w) as H.
    destruct (LibraryAnalytics.get_most_active_members limit w) as [[x|e] w'];
      simpl in *; subst; by apply step_idle; [apply same_objects_refl|].
  - unfold bind. pose proof (get_books_by_author_world author w) as H.
    destruct (LibraryAnalytics.get_books_by_author author w) as [[x|e] w'];
      simpl in *; subst; by apply step_idle; [apply same_objects_refl|].
  - unfold bind. pose proof (get_member_checkout_history_world mid w) as H.
    destruct (LibraryAnalytics.get_member_checkout_history mid w)
      as [[x|e] w']; simpl in *; subst;
      by apply step_idle; [apply same_objects_refl|].
  - unfold bind. pose proof (get_usage_statistics_same_objects w) as H.
    destruct (LibraryAnalytics.get_usage_statistics w) as [[x|e] w'];
      simpl in *; by apply step_idle.
  - unfold bind. pose proof (export_same_objects filename w) as H.
    destruct (LibraryAnalytics.export_analytics_to_json filename w)
      as [[x|e] w']; simpl in *; by apply step_idle.
Qed.

(** ** Well-formed worlds stay well-formed *)

#[global] Instance valid_world_dec (w : World) : Decision (valid_world w).
Proof. unfold valid_world, book_entry_valid, member_entry_valid. apply _. Defined.

Lemma demo_world_valid : valid_world demo_world.
Proof. apply (bool_decide_unpack _). vm_compute. exact I. Qed.

Lemma three_book_world_valid : valid_world three_book_world.
Proof. apply (bool_decide_unpack _). vm_compute. exact I. Qed.

Lemma eight_book_world_valid : valid_world eight_book_world.
Proof. apply (bool_decide_unpack _). vm_compute. exact I. Qed.

Lemma initial_world_valid (clock : nat -> datetime) (writable : string -> bool) :
  valid_world (initial_world clock writable).
Proof. repeat split; constructor. Qed.

(** Replacing an object by one with the same identifier keeps what is filed
    under every reference. *)
Lemma lookup_insert_same_key {A K : Type} (key : A -> K) (objs : list A)
    (l l0 : loc) (x x' : A) :
  objs !! l = Some x -> key x' = key x ->
  key <$> (<[l := x']> objs !! l0) = key <$> (objs !! l0).
Proof.
  intros Hl Hk. destruct (decide (l = l0)) as [<-|Hne].
  - rewrite list_lookup_insert_eq by (by eapply lookup_lt_Some).
    rewrite Hl. simpl. by rewrite Hk.
  - by rewrite list_lookup_insert_ne.
Qed.

Lemma lookup_app_same_key {A K : Type} (key : A -> K) (objs : list A)
    (l0 : loc) (x : A) (k : K) :
  key <$> (objs !! l0) = Some k -> key <$> ((objs ++ [x]) !! l0) = Some k.
Proof.
  destruct (objs !! l0) as [y|] eqn:Hy; [|discriminate].
  intros H. by rewrite (lookup_app_l_Some _ _ _ _ Hy).
Qed.

Lemma keys_app {V : Type} (d : dict V) (k : string) (v : V) :
  Dict.keys (d ++ [(k, v)]) = Dict.keys d ++ [k].
Proof. unfold Dict.keys. by rewrite map_app. Qed.

Lemma NoDup_keys_app {V : Type} (d : dict V) (k : string) (v : V) :
  NoDup (Dict.keys d) -> Dict.get k d = None ->
  NoDup (Dict.keys (d ++ [(k, v)])).
Proof.
  intros Hnd Hk. rewrite keys_app. apply NoDup_app. split; [exact Hnd|].
  split; [|apply NoDup_singleton].
  intros x Hx ->%list_elem_of_singleton. by apply get_none_keys in Hk.
Qed.

Lemma get_app_some {V : Type} (d d' : dict V) (k : string) (v : V) :
  Dict.get k d = Some v -> Dict.get k (d ++ d') = Some v.
Proof.
  induction d as [|[k0 v0] d IH]; simpl; [discriminate|].
  destruct (String.eqb k k0); [done | exact IH].
Qed.

Lemma step_valid (w w' : World) (c : call) (r : result value) :
  valid_world w -> step w c r w' -> valid_world w'.
Proof.
  intros (Hkb & Hkm & Hb & Hm) Hstep.
  destruct Hstep as [id t a i | id n e | book b Hbo Hget | member m Hmo Hget
                    | mid bid d member book m b Hgm Hgb Hmo Hbo
                    | member bid m Hmo | c r w' (Hbs & Hms & Hself) _];
    unfold valid_world; simpl.
  - repeat split; [done | done | | done].
    eapply Forall_impl; [exact Hb|]. intros [k l] Hkl.
    by apply lookup_app_same_key.
  - repeat split; [done | done | done |].
    eapply Forall_impl; [exact Hm|]. intros [k l] Hkl.
    by apply lookup_app_same_key.
  - repeat split; [by apply NoDup_keys_app | done | | done].
    apply Forall_app. split; [done|].
    apply Forall_singleton. unfold book_entry_valid. simpl. by rewrite Hbo.
  - repeat split; [done | by apply NoDup_keys_app | done |].
    apply Forall_app. split; [done|].
    apply Forall_singleton. unfold member_entry_valid. simpl. by rewrite Hmo.
  - repeat split; [done | done | |].
    + eapply Forall_impl; [exact Hb|]. intros [k l] Hkl.
      unfold book_entry_valid in *. simpl in *.
      by rewrite (lookup_insert_same_key Book.book_id _ _ _ b).
    + eapply Forall_impl; [exact Hm|]. intros [k l] Hkl.
      unfold member_entry_valid in *. simpl in *.
      by rewrite (lookup_insert_same_key Member.member_id _ _ _ m).
  - repeat split; [done | done | done |].
    eapply Forall_impl; [exact Hm|]. intros [k l] Hkl.
    unfold member_entry_valid in *. simpl in *.
    rewrite (lookup_insert_same_key Member.member_id _ _ _ m); [done | done |].
    unfold Member.return_book. by destruct (list_contains _ _).
  - rewrite Hself. repeat split; [done | done | |].
    + eapply Forall_impl; [exact Hb|]. intros [k l] Hkl.
      unfold book_entry_valid. by rewrite Hbs.
    + eapply Forall_impl; [exact Hm|]. intros [k l] Hkl.
      unfold member_entry_valid. by rewrite Hms.
Qed.

Lemma perform_valid (c : call) (w : World) :
  valid_world w -> valid_world (perform c w).2.
Proof. intros H. eapply step_valid; [exact H | apply perform_step]. Qed.

Lemma run_cons (c : call) (calls : list call) (w : World) :
  run (c :: calls) w
  = ((c, (perform c w).1) :: (run calls (perform c w).2).1,
     (run calls (perform c w).2).2).
Proof.
  simpl. destruct (perform c w) as [r w1]. simpl.
  by destruct (run calls w1) as [log w2].
Qed.

(** Whatever the calls, a run from a well-formed world ends in one. *)
Lemma run_valid (calls : list call) (w : World) :
  valid_world w -> valid_world (run calls w).2.
Proof.
  revert w. induction calls as [|c calls IH]; intros w Hw; [done|].
  rewrite run_cons. simpl. by apply IH, perform_valid.
Qed.

(** In a well-formed world the object filed under a key carries that key. *)
Lemma valid_world_book_id (w : World) (k : string) (l : loc) (b : Book.t) :
  valid_world w ->
  Dict.get k (books (self w)) = Some l -> book_objs w !! l = Some b ->
  Book.book_id b = k.
Proof.
  intros (_ & _ & Hb & _) Hget Hl. apply get_elem_of in Hget.
  rewrite Forall_forall in Hb. specialize (Hb _ Hget).
  unfold book_entry_valid in Hb. simpl in Hb. rewrite Hl in Hb. by injection Hb.
Qed.

Lemma valid_world_member_id (w : World) (k : string) (l : loc) (m : Member.t) :
  valid_world w ->
  Dict.get k (members (self w)) = Some l -> member_objs w !! l = Some m ->
  Member.member_id m = k.
Proof.
  intros (_ & _ & _ & Hm) Hget Hl. apply get_elem_of in Hget.
  rewrite Forall_forall in Hm. specialize (Hm _ Hget).
  unfold member_entry_valid in Hm. simpl in Hm. rewrite Hl in Hm.
  by injection Hm.
Qed.

Lemma valid_world_book_ref (w : World) (k : string) (l : loc) :
  valid_world w ->
  Dict.get k (books (self w)) = Some l ->
  exists b, book_objs w !! l = Some b /\ Book.book_id b = k.
Proof.
  intros (_ & _ & Hb & _) Hget. apply get_elem_of in Hget.
  rewrite Forall_forall in Hb. specialize (Hb _ Hget).
  unfold book_entry_valid in Hb. simpl in Hb.
  destruct (book_objs w !! l) as [b|]; [|discriminate].
  exists b. split; [done|]. by injection Hb.
Qed.

Lemma valid_world_member_ref (w : World) (k : string) (l : loc) :
  valid_world w ->
  Dict.get k (members (self w)) = Some l ->
  exists m, member_objs w !! l = Some m /\ Member.member_id m = k.
Proof.
  intros (_ & _ & _ & Hm) Hget. apply get_elem_of in Hget.
  rewrite Forall_forall in Hm. specialize (Hm _ Hget).
  unfold member_entry_valid in Hm. simpl in Hm.
  destruct (member_objs w !! l) as [m|]; [|discriminate].
  exists m. split; [done|]. by injection Hm.
Qed.

(** ** Counting checkouts *)

Lemma successful_checkout_succeeded (book_id : string) (c : call)
    (r : result value) :
  checkout_succeeded c r = false -> successful_checkout book_id (c, r) = false.
Proof.
  destruct c; try done. destruct r as [[| [|] | | |]|]; simpl; done.
Qed.

(** One step adds one to the counter of an entry when it is a successful
    checkout of that entry, and leaves the counter alone otherwise.  The
    entry stays filed under its identifier, at the same reference. *)
Lemma step_counter (w w' : World) (c : call) (r : result value)
    (book_id : string) (book : loc) (b : Book.t) :
  valid_world w -> step w c r w' ->
  Dict.get book_id (books (self w)) = Some book ->
  book_objs w !! book = Some b ->
  Dict.get book_id (books (self w')) = Some book /\
  exists b',
    book_objs w' !! book = Some b' /\
    Book.total_checkouts b'
    = Book.total_checkouts b
      + (if successful_checkout book_id (c, r) then 1 else 0).
Proof.
  intros Hw Hstep Hget Hb.
  destruct Hstep as [id t a i | id n e | book0 b0 Hbo Hget0 | member m Hmo Hget0
                    | mid bid d member book0 m b0 Hgm Hgb Hmo Hbo
                    | member bid m Hmo | c r w' (Hbs & Hms & Hself) Hc].
  1-6: simpl.
  - split; [done|]. exists b. split; [by apply lookup_app_l_Some | lia].
  - split; [done|]. exists b. split; [done | lia].
  - split; [by apply get_app_some|]. exists b. split; [done | lia].
  - split; [done|]. exists b. split; [done | lia].
  - split; [done|]. destruct (String.eqb_spec bid book_id) as [->|Hne].
    + assert (book0 = book) as -> by congruence.
      assert (b0 = b) as -> by congruence.
      eexists. split; [apply list_lookup_insert_eq; by eapply lookup_lt_Some|].
      reflexivity.
    + assert (book0 <> book) as Hl.
      { intros ->. apply Hne.
        rewrite <- (valid_world_book_id w bid book b Hw Hgb Hb).
        by rewrite <- (valid_world_book_id w book_id book b Hw Hget Hb). }
      exists b. split; [by rewrite list_lookup_insert_ne | lia].
  - split; [done|]. exists b. split; [done | lia].
  - rewrite Hself, Hbs. split; [done|]. exists b. split; [done|].
    rewrite (successful_checkout_succeeded _ _ _ Hc). lia.
Qed.

Lemma successful_checkouts_cons (book_id : string)
    (entry : call * result value) (log : list (call * result value)) :
  successful_checkouts book_id (entry :: log)
  = (if successful_checkout book_id entry then 1 else 0)
    + successful_checkouts book_id log.
Proof.
  unfold successful_checkouts. simpl.
  destruct (successful_checkout book_id entry); simpl; lia.
Qed.

Lemma run_counter (calls : list call) (w : World) (book_id : string)
    (book : loc) (b : Book.t) :
  valid_world w ->
  Dict.get book_id (books (self w)) = Some book ->
  book_objs w !! book = Some b ->
  exists b',
    Dict.get book_id (books (self (run calls w).2)) = Some book /\
    book_objs (run calls w).2 !! book = Some b' /\
    Book.total_checkouts b'
    = Book.total_checkouts b + successful_checkouts book_id (run calls w).1.
Proof.
  revert w b. induction calls as [|c calls IH]; intros w b Hw Hget Hb.
  - exists b. simpl. repeat split; [done | done |].
    unfold successful_checkouts. simpl. lia.
  - rewrite run_cons. simpl.
    destruct (step_counter w _ c _ book_id book b Hw (perform_step c w) Hget Hb)
      as (Hget1 & b1 & Hb1 & Hcount1).
    destruct (IH _ b1 (perform_valid c w Hw) Hget1 Hb1)
      as (b' & Hget' & Hb' & Hcount').
    exists b'. repeat split; [done | done |].
    rewrite successful_checkouts_cons. lia.
Qed.

(** C1: take an entry filed under [book_id] whose counter is 0, as it is
    when a new book has just been registered.  After any sequence of calls
    of the interface, its [total_checkouts] is the number of calls of
    [process_checkout] for [book_id] in that sequence that returned [True],
    whichever members they named. *)
Theorem total_checkouts_counts_successes (w : World) (book_id : string)
    (book : loc) (b : Book.t) (calls : list call) :
  valid_world w ->
  Dict.get book_id (books (self w)) = Some book ->
  book_objs w !! book = Some b ->
  Book.total_checkouts b = 0 ->
  exists b',
    Dict.get book_id (books (self (run calls w).2)) = Some book /\
    book_objs (run calls w).2 !! book = Some b' /\
    Book.total_checkouts b' = successful_checkouts book_id (run calls w).1.
Proof.
  intros Hw Hget Hb H0.
  destruct (run_counter calls w book_id book b Hw Hget Hb)
    as (b' & Hget' & Hb' & Hcount).
  exists b'. repeat split; [done | done | lia].
Qed.

Lemma total_checkouts_counts_successes_witness :
  exists b',
    book_objs
      (run [ProcessCheckout "M001" "B005" (date 2026 1 7);
            ProcessCheckout "M404" "B005" (date 2026 1 8);
            ProcessCheckout "M003" "B001" (date 2026 1 8);
            ReturnBook 0%nat "B005";
            ProcessCheckout "M002" "B005" (date 2026 1 9)] demo_world).2
      !! 4%nat = Some b' /\
    Book.total_checkouts b' = 2.
Proof.
  destruct (total_checkouts_counts_successes demo_world "B005" 4%nat
              (Book.init "B005" "The Catcher in the Rye" "J.D. Salinger"
                 "978-0-316-76948-0")
              [ProcessCheckout "M001" "B005" (date 2026 1 7);
               ProcessCheckout "M404" "B005" (date 2026 1 8);
               ProcessCheckout "M003" "B001" (date 2026 1 8);
               ReturnBook 0%nat "B005";
               ProcessCheckout "M002" "B005" (date 2026 1 9)])
    as (b' & _ & Hb' & Hcount).
  - exact demo_world_valid.
  - reflexivity.
  - reflexivity.
  - reflexivity.
  - exists b'. split; [exact Hb'|]. rewrite Hcount. reflexivity.
Defined.


(** ** The frame of a checkout *)

(** A successful [process_checkout] is the checkout step. *)
Lemma process_checkout_true (w w' : World) (member_id book_id : string)
    (d : datetime) :
  LibraryAnalytics.process_checkout member_id book_id d w = (Ok true, w') ->
  exists member book m b,
    Dict.get member_id (members (self w)) = Some member /\
    Dict.get book_id (books (self w)) = Some book /\
    member_objs w !! member = Some m /\
    book_objs w !! book = Some b /\
    w' = with_book_objs
           (with_member_objs w
              (<[member := (Member.checkout_book m b d).1]> (member_objs w)))
           (<[book := (Member.checkout_book m b d).2]> (book_objs w)).
Proof.
  intros Hrun.
  pose proof (perform_step (ProcessCheckout member_id book_id d) w) as Hstep.
  unfold perform in Hstep. rewrite fmap_m_run, Hrun in Hstep. simpl in Hstep.
  inversion Hstep as [| | | | ? ? ? member book m b Hgm Hgb Hmo Hbo | |
                      ? ? ? _ Hc]; subst.
  - by exists member, book, m, b.
  - discriminate Hc.
Qed.

(** C9: a [process_checkout] that returns [True] changes two objects, the
    member filed under [member_id] and the book filed under [book_id].  Of
    the member it changes [books_checked_out] and [checkout_history], of
    the book [total_checkouts], [checkout_history] and [last_checkout].
    Both dictionaries are as before, no object is created, and every other
    object, in particular the one filed under any other key, is as
    before. *)
Theorem process_checkout_frame (w w' : World) (member_id book_id : string)
    (d : datetime) :
  valid_world w ->
  LibraryAnalytics.process_checkout member_id book_id d w = (Ok true, w') ->
  exists member book m b m' b',
    Dict.get member_id (members (self w)) = Some member /\
    Dict.get book_id (books (self w)) = Some book /\
    member_objs w !! member = Some m /\ member_objs w' !! member = Some m' /\
    book_objs w !! book = Some b /\ book_objs w' !! book = Some b' /\
    (Member.member_id m' = Member.member_id m /\
     Member.name m' = Member.name m /\ Member.email m' = Member.email m) /\
    (Book.book_id b' = Book.book_id b /\ Book.title b' = Book.title b /\
     Book.author b' = Book.author b /\ Book.isbn b' = Book.isbn b) /\
    self w' = self w /\
    files w' = files w /\
    length (book_objs w') = length (book_objs w) /\
    length (member_objs w') = length (member_objs w) /\
    (forall l, l <> book -> book_objs w' !! l = book_objs w !! l) /\
    (forall l, l <> member -> member_objs w' !! l = member_objs w !! l) /\
    (forall k l, k <> book_id -> Dict.get k (books (self w)) = Some l ->
       Dict.get k (books (self w')) = Some l /\
       book_objs w' !! l = book_objs w !! l) /\
    (forall k l, k <> member_id -> Dict.get k (members (self w)) = Some l ->
       Dict.get k (members (self w')) = Some l /\
       member_objs w' !! l = member_objs w !! l).
Proof.
  intros Hw Hrun.
  destruct (process_checkout_true _ _ _ _ _ Hrun)
    as (member & book & m & b & Hgm & Hgb & Hmo & Hbo & ->).
  exists member, book, m, b, (Member.checkout_book m b d).1,
    (Member.checkout_book m b d).2. simpl.
  split; [done|]. split; [done|]. split; [done|].
  split; [apply list_lookup_insert_eq; by eapply lookup_lt_Some|].
  split; [done|].
  split; [apply list_lookup_insert_eq; by eapply lookup_lt_Some|].
  split; [done|]. split; [done|]. split; [done|]. split; [done|].
  split; [by rewrite length_insert|]. split; [by rewrite length_insert|].
  split; [intros l Hl; by apply list_lookup_insert_ne|].
  split; [intros l Hl; by apply list_lookup_insert_ne|].
  split.
  - intros k l Hk Hget. split; [done|]. apply list_lookup_insert_ne.
    intros <-. destruct (valid_world_book_ref w k book Hw Hget) as (b0 & Hb0 & <-).
    apply Hk. rewrite Hbo in Hb0. injection Hb0 as <-.
    by apply (valid_world_book_id w book_id book b Hw).
  - intros k l Hk Hget. split; [done|]. apply list_lookup_insert_ne.
    intros <-.
    destruct (valid_world_member_ref w k member Hw Hget) as (m0 & Hm0 & <-).
    apply Hk. rewrite Hmo in Hm0. injection Hm0 as <-.
    by apply (valid_world_member_id w member_id member m Hw).
Qed.

Lemma process_checkout_frame_witness :
  let w' :=
    (LibraryAnalytics.process_checkout "M003" "B002" (date 2026 1 7)
       demo_world).2 in
  self w' = self demo_world /\
  (forall l, l <> 1%nat -> book_objs w' !! l = book_objs demo_world !! l) /\
  (forall l, l <> 2%nat -> member_objs w' !! l = member_objs demo_world !! l).
Proof.
  intros w'.
  assert (LibraryAnalytics.process_checkout "M003" "B002" (date 2026 1 7)
            demo_world = (Ok true, w')) as Hrun.
  { subst w'. by vm_compute. }
  destruct (process_checkout_frame demo_world w' "M003" "B002" (date 2026 1 7)
              demo_world_valid Hrun)
    as (member & book & m & b & m' & b' & Hgm & Hgb & _ & _ & _ & _ & _ & _ &
        Hself & _ & _ & _ & Hbooks & Hmembers & _).
  vm_compute in Hgm. injection Hgm as <-.
  vm_compute in Hgb. injection Hgb as <-.
  split; [exact Hself|]. split; [exact Hbooks | exact Hmembers].
Defined.

(** ** Counter and history *)

Lemma record_checkout_matches (b : Book.t) (member_id : string)
    (d : datetime) :
  counter_matches_history b ->
  counter_matches_history (Book.record_checkout b member_id d).
Proof.
  unfold counter_matches_history. simpl. intros ->.
  rewrite length_app. simpl. lia.
Qed.

Lemma step_counters_match (w w' : World) (c : call) (r : result value) :
  Forall counter_matches_history (book_objs w) -> step w c r w' ->
  Forall counter_matches_history (book_objs w').
Proof.
  intros H Hstep.
  destruct Hstep as [id t a i | id n e | book b Hbo Hget | member m Hmo Hget
                    | mid bid d member book m b Hgm Hgb Hmo Hbo
                    | member bid m Hmo | c r w' (Hbs & Hms & Hself) _];
    simpl; try done.
  - apply Forall_app. split; [done|]. by apply Forall_singleton.
  - apply Forall_insert; [done|]. apply record_checkout_matches.
    by eapply Forall_lookup_1.
  - by rewrite Hbs.
Qed.

Lemma run_counters_match (calls : list call) (w : World) :
  Forall counter_matches_history (book_objs w) ->
  Forall counter_matches_history (book_objs (run calls w).2).
Proof.
  revert w. induction calls as [|c calls IH]; intros w Hw; [done|].
  rewrite run_cons. simpl. apply IH.
  eapply step_counters_match; [exact Hw | apply perform_step].
Qed.

(** C8: the counter of a book is the length of its history.  This holds of
    every entry of the registry after any sequence of calls from the start
    of a program, and every call of the interface (a constructor, a
    registration, a checkout, a return, a query, the export) keeps it true
    of every book object. *)
Theorem counter_is_history_length :
  (forall clock writable (calls : list call) (k : string) (l : loc)
          (b : Book.t),
     let w := (run calls (initial_world clock writable)).2 in
     Dict.get k (books (self w)) = Some l ->
     book_objs w !! l = Some b ->
     Book.total_checkouts b = Z.of_nat (length (Book.checkout_history b))) /\
  (forall (w : World) (c : call),
     Forall counter_matches_history (book_objs w) ->
     Forall counter_matches_history (book_objs (perform c w).2)).
Proof.
  split.
  - intros clock writable calls k l b w _ Hb.
    assert (Forall counter_matches_history (book_objs w)) as H.
    { apply run_counters_match. constructor. }
    by apply (Forall_lookup_1 _ _ _ _ H Hb).
  - intros w c H. eapply step_counters_match; [exact H | apply perform_step].
Qed.

Lemma counter_is_history_length_witness :
  Forall counter_matches_history
    (book_objs
       (perform (ProcessCheckout "M002" "B005" (date 2026 1 9)) demo_world).2)
  /\
  Book.total_checkouts <$>
    (book_objs
       (perform (ProcessCheckout "M002" "B005" (date 2026 1 9)) demo_world).2
     !! 4%nat) = Some 1.
Proof.
  split; [|reflexivity].
  apply (proj2 counter_is_history_length demo_world).
  unfold counter_matches_history. vm_compute. repeat constructor.
Defined.

(** ** The stable sort *)

Section SortedFacts.
Context {A : Type} (key : A -> Z) (reverse : bool).

Lemma goes_before_total (x y : A) :
  goes_before key reverse x y = false -> goes_before key reverse y x = true.
Proof. unfold goes_before. destruct reverse; lia. Qed.

Lemma goes_before_trans (x y z : A) :
  goes_before key reverse x y = true -> goes_before key reverse y z = true ->
  goes_before key reverse x z = true.
Proof. unfold goes_before. destruct reverse; lia. Qed.

Lemma goes_before_equal (x y : A) :
  key x = key y -> goes_before key reverse x y = true.
Proof. unfold goes_before. destruct reverse; lia. Qed.

Lemma insert_sorted_perm (x : A) (l : list A) :
  insert_sorted key reverse x l ≡ₚ x :: l.
Proof.
  induction l as [|y l IH]; simpl; [done|].
  destruct (goes_before key reverse x y); [done|].
  rewrite IH. apply perm_swap.
Qed.

Lemma sorted_perm (l : list A) : sorted key reverse l ≡ₚ l.
Proof.
  induction l as [|x l IH]; simpl; [done|].
  by rewrite insert_sorted_perm, IH.
Qed.

Lemma insert_sorted_ordered (x : A) (l : list A) :
  StronglySorted (fun a b => goes_before key reverse a b = true) l ->
  StronglySorted (fun a b => goes_before key reverse a b = true)
    (insert_sorted key reverse x l).
Proof.
  induction 1 as [|y l Hl IH Hy]; simpl.
  - repeat constructor.
  - destruct (goes_before key reverse x y) eqn:Hxy.
    + constructor; [by constructor|]. constructor; [done|].
      eapply Forall_impl; [exact Hy|]. intros z Hz.
      by eapply goes_before_trans.
    + constructor; [done|]. rewrite insert_sorted_perm.
      constructor; [by apply goes_before_total | done].
Qed.

Lemma sorted_ordered (l : list A) :
  StronglySorted (fun a b => goes_before key reverse a b = true)
    (sorted key reverse l).
Proof.
  induction l as [|x l IH]; simpl; [constructor|].
  by apply insert_sorted_ordered.
Qed.

Lemma appears_before_cons (x y a : A) (l : list A) :
  appears_before x y (a :: l) <->
  (x = a /\ y ∈ l) \/ appears_before x y l.
Proof.
  split.
  - intros (i & j & Hij & Hi & Hj). destruct j as [|j]; [lia|].
    simpl in Hj. destruct i as [|i]; simpl in Hi.
    + left. split; [congruence|]. by eapply list_elem_of_lookup_2.
    + right. exists i, j. split; [lia | done].
  - intros [[-> [j Hj]%list_elem_of_lookup_1] | (i & j & Hij & Hi & Hj)].
    + exists 0%nat, (S j). split; [lia | done].
    + exists (S i), (S j). split; [lia | done].
Qed.

Lemma appears_before_elem_of (x y : A) (l : list A) :
  appears_before x y l -> x ∈ l /\ y ∈ l.
Proof.
  intros (i & j & _ & Hi & Hj).
  split; by eapply list_elem_of_lookup_2.
Qed.

(** Where two elements of the list stood before an insertion. *)
Lemma insert_sorted_before (x y a : A) (l : list A) :
  appears_before x y (insert_sorted key reverse a l) ->
  (x = a /\ y ∈ l) \/
  (y = a /\ x ∈ l /\ goes_before key reverse a x = false) \/
  appears_before x y l.
Proof.
  induction l as [|z l IH]; simpl.
  - intros (i & j & Hij & Hi & Hj). destruct j as [|[|j]]; [lia | | done].
    destruct i as [|[|i]]; [done | lia | done].
  - destruct (goes_before key reverse a z) eqn:Haz.
    + rewrite appears_before_cons. tauto.
    + rewrite appears_before_cons. intros [[-> Hy] | H].
      * rewrite insert_sorted_perm in Hy.
        apply elem_of_cons in Hy as [-> | Hy].
        -- right. left. split; [done|]. split; [apply list_elem_of_here | done].
        -- right. right. apply appears_before_cons. by left.
      * destruct (IH H) as [[-> Hy] | [(-> & Hx & Hax) | Hb]].
        -- left. split; [done|]. by apply list_elem_of_further.
        -- right. left. split; [done|].
           split; [by apply list_elem_of_further | done].
        -- right. right. apply appears_before_cons. by right.
Qed.

(** The sort is stable: two elements with the same key come out in the
    order they went in. *)
Lemma sorted_stable (x y : A) (l : list A) :
  key x = key y ->
  appears_before x y (sorted key reverse l) -> appears_before x y l.
Proof.
  intros Hk. induction l as [|a l IH]; simpl; [done|].
  intros [[-> Hy] | [(-> & Hx & Hax) | H]]%insert_sorted_before.
  - apply appears_before_cons. left. split; [done|].
    by rewrite sorted_perm in Hy.
  - rewrite goes_before_equal in Hax by done. discriminate.
  - apply appears_before_cons. right. auto.
Qed.

Lemma strongly_sorted_lookup (R : A -> A -> Prop) (l : list A) (i j : nat)
    (x y : A) :
  StronglySorted R l -> (i < j)%nat -> l !! i = Some x -> l !! j = Some y ->
  R x y.
Proof.
  intros Hl. revert i j. induction Hl as [|a l Hl IH Ha]; intros i j Hij Hi Hj.
  - done.
  - destruct j as [|j]; [lia|]. simpl in Hj. destruct i as [|i]; simpl in Hi.
    + injection Hi as ->. rewrite Forall_forall in Ha. apply Ha.
      by eapply list_elem_of_lookup_2.
    + apply (IH i j); [lia | done | done].
Qed.
End SortedFacts.

(** ** Slices *)

Lemma slice_to_take {A : Type} (l : list A) (stop : Z) :
  exists n, slice_to l stop = take n l.
Proof. unfold slice_to. destruct (stop <? 0); eauto. Qed.

Lemma slice_to_length {A : Type} (l : list A) (stop : Z) :
  0 <= stop -> Z.of_nat (length (slice_to l stop)) <= stop.
Proof.
  intros H. unfold slice_to. destruct (Z.ltb_spec stop 0); [lia|].
  rewrite length_take. lia.
Qed.

Lemma appears_before_take {A : Type} (x y : A) (n : nat) (l : list A) :
  appears_before x y (take n l) -> appears_before x y l.
Proof.
  intros (i & j & Hij & Hi & Hj). exists i, j. split; [done|].
  apply lookup_take_Some in Hi as [Hi _].
  apply lookup_take_Some in Hj as [Hj _]. done.
Qed.

(** ** Ranking by popularity *)

(** Reading the books of the registry, in a world where its references are
    valid, gives the objects in the order of the dictionary. *)
Lemma map_m_read_book_entries (w : World) (d : dict loc) :
  Forall (book_entry_valid w) d ->
  exists objs,
    map_m read_book (Dict.values d) w = (Ok objs, w) /\
    Forall2 (fun entry b => book_objs w !! entry.2 = Some b /\
                            Book.book_id b = entry.1) d objs.
Proof.
  induction 1 as [|[k l] d Hkl Hd (objs & Hrun & Hobjs)]; simpl.
  - exists []. split; [done | constructor].
  - unfold book_entry_valid in Hkl. simpl in Hkl.
    destruct (book_objs w !! l) as [b|] eqn:Hb; [|discriminate].
    injection Hkl as Hk. exists (b :: objs). split.
    + rewrite (bind_ok _ _ w w b) by (unfold read_book; by rewrite Hb).
      by rewrite (bind_ok _ _ w w objs).
    + by constructor.
Qed.

Lemma map_m_read_member_entries (w : World) (d : dict loc) :
  Forall (member_entry_valid w) d ->
  exists objs,
    map_m read_member (Dict.values d) w = (Ok objs, w) /\
    Forall2 (fun entry m => member_objs w !! entry.2 = Some m /\
                            Member.member_id m = entry.1) d objs.
Proof.
  induction 1 as [|[k l] d Hkl Hd (objs & Hrun & Hobjs)]; simpl.
  - exists []. split; [done | constructor].
  - unfold member_entry_valid in Hkl. simpl in Hkl.
    destruct (member_objs w !! l) as [m|] eqn:Hm; [|discriminate].
    injection Hkl as Hk. exists (m :: objs). split.
    + rewrite (bind_ok _ _ w w m) by (unfold read_member; by rewrite Hm).
      by rewrite (bind_ok _ _ w w objs).
    + by constructor.
Qed.

Lemma entries_keys (w : World) (d : dict loc) (objs : list Book.t) :
  Forall2 (fun entry b => book_objs w !! entry.2 = Some b /\
                          Book.book_id b = entry.1) d objs ->
  Dict.keys d = map Book.book_id objs.
Proof.
  induction 1 as [|[k l] b d objs [_ Hk] _ IH]; simpl; [done|].
  simpl in Hk. by rewrite Hk, IH.
Qed.

Lemma get_most_popular_books_run (w : World) (limit : Z) :
  valid_world w ->
  exists objs,
    Forall2 (fun entry b => book_objs w !! entry.2 = Some b /\
                            Book.book_id b = entry.1) (books (self w)) objs /\
    LibraryAnalytics.get_most_popular_books limit w
    = (Ok (map Book.to_dict
             (slice_to (sorted Book.total_checkouts true objs) limit)), w).
Proof.
  intros (_ & _ & Hb & _).
  destruct (map_m_read_book_entries w _ Hb) as (objs & Hrun & Hobjs).
  exists objs. split; [done|].
  unfold LibraryAnalytics.get_most_popular_books.
  rewrite (bind_ok _ _ w w (self w)) by done.
  by rewrite (bind_ok _ _ w w objs).
Qed.

(** C2, as the code has it: [get_most_popular_books(limit)] returns the
    serialized entries of the registry ranked by [total_checkouts], highest
    first; two entries with the same count stand in the order of their
    registration.  When [0 <= limit] there are at most [limit] of them. *)
Theorem most_popular_books_ranked (w : World) (limit : Z) :
  valid_world w ->
  exists result,
    LibraryAnalytics.get_most_popular_books limit w = (Ok result, w) /\
    (0 <= limit -> Z.of_nat (length result) <= limit) /\
    (forall x, x ∈ result ->
       exists k l b,
         Dict.get k (books (self w)) = Some l /\
         book_objs w !! l = Some b /\ x = Book.to_dict b) /\
    (forall i j x y,
       (i < j)%nat -> result !! i = Some x -> result !! j = Some y ->
       exists cx cy idx idy,
         field "total_checkouts" x = Some (PyInt cx) /\
         field "total_checkouts" y = Some (PyInt cy) /\
         field "book_id" x = Some (PyStr idx) /\
         field "book_id" y = Some (PyStr idy) /\
         cy <= cx /\
         (cx = cy ->
          appears_before idx idy (Dict.keys (books (self w))))).
Proof.
  intros Hw. destruct (get_most_popular_books_run w limit Hw)
    as (objs & Hobjs & Hrun).
  eexists. split; [exact Hrun|].
  destruct (slice_to_take (sorted Book.total_checkouts true objs) limit)
    as [n Hn].
  split; [|split].
  - intros Hlimit. rewrite length_map. by apply slice_to_length.
  - intros x (b & -> & Hb)%list_elem_of_fmap_1.
    rewrite Hn in Hb. apply elem_of_take in Hb as (p0 & Hp0 & _).
    apply list_elem_of_lookup_2 in Hp0. rewrite sorted_perm in Hp0.
    apply list_elem_of_lookup_1 in Hp0 as [p Hp].
    destruct (Forall2_lookup_r _ _ _ _ _ Hobjs Hp) as ([k l] & Hkl & Hl & Hk).
    simpl in *. exists k, l, b. split; [|done].
    apply elem_of_get; [apply Hw|]. by eapply list_elem_of_lookup_2.
  - intros i j x y Hij Hi Hj. rewrite list_lookup_fmap in Hi, Hj.
    destruct (slice_to _ limit !! i) as [bx|] eqn:Hbx; [|discriminate].
    destruct (slice_to _ limit !! j) as [by_|] eqn:Hby; [|discriminate].
    injection Hi as <-. injection Hj as <-.
    exists (Book.total_checkouts bx), (Book.total_checkouts by_),
      (Book.book_id bx), (Book.book_id by_).
    repeat (split; [done|]).
    assert (appears_before bx by_ (sorted Book.total_checkouts true objs))
      as Hbefore.
    { apply (appears_before_take _ _ n). rewrite <- Hn. by exists i, j. }
    split.
    + destruct Hbefore as (p & q & Hpq & Hp & Hq).
      pose proof (strongly_sorted_lookup _ _ _ _ _ _
                    (sorted_ordered Book.total_checkouts true objs) Hpq Hp Hq)
        as H.
      unfold goes_before in H. lia.
    + intros Heq.
      apply (sorted_stable _ _ _ _ _ Heq) in Hbefore
        as (p & q & Hpq & Hp & Hq).
      exists p, q. split; [done|].
      rewrite (entries_keys _ _ _ Hobjs), !list_lookup_fmap, Hp, Hq. done.
Qed.

Lemma most_popular_books_ranked_witness :
  exists result,
    LibraryAnalytics.get_most_popular_books 2 demo_world
    = (Ok result, demo_world) /\
    Z.of_nat (length result) <= 2 /\
    field "book_id" <$> result = [Some (PyStr "B001"); Some (PyStr "B004")].
Proof.
  destruct (most_popular_books_ranked demo_world 2 demo_world_valid)
    as (result & Hrun & Hlen & _).
  exists result. split; [exact Hrun|]. split; [apply Hlen; lia|].
  assert (Hrun' := Hrun). vm_compute in Hrun'. injection Hrun' as <-.
  reflexivity.
Defined.

(** A negative [limit] does not bound the number of entries returned: the
    slice [[:-1]] drops the last entry of the ranking, and keeps four of the
    five entries of the demonstration. *)
Lemma most_popular_books_negative_limit :
  exists result,
    valid_world demo_world /\
    LibraryAnalytics.get_most_popular_books (-1) demo_world
    = (Ok result, demo_world) /\
    length result = 4%nat /\
    ~ (Z.of_nat (length result) <= -1).
Proof.
  eexists. split; [exact demo_world_valid|]. split; [reflexivity|].
  split; [reflexivity|]. vm_compute. intros H. by apply H.
Qed.

(** ** Usage statistics *)

Lemma sum_of_entries (w : World) (d : dict loc) (objs : list Book.t) :
  Forall2 (fun entry b => book_objs w !! entry.2 = Some b /\
                          Book.book_id b = entry.1) d objs ->
  py_sum (map Book.total_checkouts objs) = py_sum (map (entry_checkouts w) d).
Proof.
  unfold py_sum. induction 1 as [|[k l] b d objs [Hb _] _ IH]; simpl; [done|].
  unfold entry_checkouts at 1. simpl in *. rewrite Hb. simpl. by rewrite IH.
Qed.

(** What [get_usage_statistics] computes in a well-formed world: the
    counts, the sum of the counters, and the quotient when there is an
    entry; it raises when the quotient is too large for a float. *)
Lemma get_usage_statistics_run (w : World) :
  valid_world w ->
  let total_books := Z.of_nat (length (books (self w))) in
  let total_members := Z.of_nat (length (members (self w))) in
  let total_checkouts := checkouts_of_all_entries w in
  LibraryAnalytics.get_usage_statistics w
  = match (if 0 <? total_books
           then match int_truediv total_checkouts total_books with
                | Ok q => Ok (PyFloat q)
                | Raise e => Raise e
                end
           else Ok (PyInt 0)) with
    | Ok avg =>
        (Ok (PyDict [("total_books", PyInt total_books);
                     ("total_members", PyInt total_members);
                     ("total_checkouts", PyInt total_checkouts);
                     ("average_checkouts_per_book", py_round avg 2);
                     ("generated_at", PyStr (isoformat (clock w (ticks w))))]),
         with_ticks w (S (ticks w)))
    | Raise e => (Raise e, w)
    end.
Proof.
  intros Hw. destruct Hw as (_ & _ & Hb & _).
  destruct (map_m_read_book_entries w _ Hb) as (objs & Hrun & Hobjs).
  simpl. unfold LibraryAnalytics.get_usage_statistics.
  rewrite (bind_ok _ _ w w (self w)) by done.
  rewrite (bind_ok _ _ w w objs) by done.
  rewrite (sum_of_entries _ _ _ Hobjs).
  fold (checkouts_of_all_entries w). unfold Dict.len.
  destruct (0 <? Z.of_nat (length (books (self w)))); [|done].
  unfold bind, lift, ret, utcnow.
  by destruct (int_truediv _ _).
Qed.

(** ** The division and the rounding of the average

    [SFdiv] on two positive integers below [2 ^ 53] is followed through its
    steps: the quotient of the shifted mantissas has 53 or 54 bits, is
    shifted by at most one place, rounded to the nearest even mantissa and
    normalised. *)

Lemma digits2_pos_bounds (p : positive) :
  2 ^ (Zpos (digits2_pos p) - 1) <= Zpos p < 2 ^ Zpos (digits2_pos p).
Proof.
  induction p as [p IH|p IH|]; simpl digits2_pos.
  - rewrite Pos2Z.inj_succ, (Pos2Z.inj_xI p).
    replace (Z.succ (Zpos (digits2_pos p)) - 1)
      with (Z.succ (Zpos (digits2_pos p) - 1)) by lia.
    rewrite !Z.pow_succ_r by lia.
    destruct IH as [IH1 IH2]. revert IH1 IH2.
    generalize (2 ^ (Zpos (digits2_pos p) - 1)) (2 ^ Zpos (digits2_pos p)). lia.
  - rewrite Pos2Z.inj_succ, (Pos2Z.inj_xO p).
    replace (Z.succ (Zpos (digits2_pos p)) - 1)
      with (Z.succ (Zpos (digits2_pos p) - 1)) by lia.
    rewrite !Z.pow_succ_r by lia.
    destruct IH as [IH1 IH2]. revert IH1 IH2.
    generalize (2 ^ (Zpos (digits2_pos p) - 1)) (2 ^ Zpos (digits2_pos p)). lia.
  - simpl. lia.
Qed.

Lemma digits2_pos_eq (p : positive) (k : Z) :
  2 ^ (k - 1) <= Zpos p < 2 ^ k -> 0 < k -> Zpos (digits2_pos p) = k.
Proof.
  intros [Hlo Hhi] Hk. pose proof (digits2_pos_bounds p) as [Hlo' Hhi'].
  destruct (Z.lt_trichotomy (Zpos (digits2_pos p)) k) as [Hlt|[Heq|Hgt]]; [|done|].
  - assert (2 ^ Zpos (digits2_pos p) <= 2 ^ (k - 1))
      by (apply Z.pow_le_mono_r; lia). lia.
  - assert (2 ^ k <= 2 ^ (Zpos (digits2_pos p) - 1))
      by (apply Z.pow_le_mono_r; lia). lia.
Qed.

Lemma new_location_located (N D q r : Z) :
  N = D * q + r -> 0 <= r < D -> located N D q (new_location D r).
Proof.
  intros -> Hr. unfold new_location, new_location_even, new_location_odd.
  destruct (Z.even D) eqn:Heven.
  - destruct (Z.eqb_spec r 0) as [->|Hr0]; simpl; [lia|].
    destruct (Z.compare_spec (2 * r) D); simpl; lia.
  - destruct (Z.eqb_spec r 0) as [->|Hr0]; simpl; [lia|].
    destruct (Z.compare_spec (2 * r + 1) D); simpl; try lia.
    rewrite <- Z.negb_odd in Heven.
    apply negb_false_iff, Z.odd_spec in Heven as [k ->]. lia.
Qed.

Lemma round_nearest_even_close (N D m : Z) (l : location) :
  0 < D -> located N D m l ->
  m <= round_nearest_even m l <= m + 1 /\
  2 * Z.abs (N - round_nearest_even m l * D) <= D.
Proof.
  intros HD Hloc. destruct l as [|[]]; simpl in *.
  - lia.
  - destruct (Z.even m); lia.
  - lia.
  - lia.
Qed.

Lemma shr_record_of_loc_m (m : Z) (l : location) :
  shr_m (shr_record_of_loc m l) = m.
Proof. by destruct l as [|[]]. Qed.

Lemma shr_record_of_loc_loc (m : Z) (l : location) :
  loc_of_shr_record (shr_record_of_loc m l) = l.
Proof. by destruct l as [|[]]. Qed.

Lemma shr_1_located (N D m : Z) (l : location) :
  0 <= m -> 0 < D -> located N D m l ->
  2 * shr_m (shr_1 (shr_record_of_loc m l)) <= m
  <= 2 * shr_m (shr_1 (shr_record_of_loc m l)) + 1 /\
  located N (2 * D) (shr_m (shr_1 (shr_record_of_loc m l)))
          (loc_of_shr_record (shr_1 (shr_record_of_loc m l))).
Proof.
  intros Hm HD Hloc.
  destruct m as [|[p|p|]|]; [| | | |lia];
    destruct l as [|[]]; simpl in *;
    rewrite ?(Pos2Z.inj_xI p), ?(Pos2Z.inj_xO p) in *; lia.
Qed.

Lemma binary_round_aux_pack (sx : bool) (mx ex : Z) (lx : location) :
  binary_round_aux 53 1024 sx mx ex lx
  = pack sx (round_nearest_even (shr_m (shr_fexp 53 1024 mx ex lx).1)
                                (loc_of_shr_record (shr_fexp 53 1024 mx ex lx).1))
            (shr_fexp 53 1024 mx ex lx).2.
Proof. unfold binary_round_aux, pack. by destruct (shr_fexp 53 1024 mx ex lx). Qed.

Ltac pow_consts :=
  change (2 ^ 52) with 4503599627370496 in *;
  change (2 ^ 53) with 9007199254740992 in *;
  change (2 ^ 54) with 18014398509481984 in *.

Lemma shr_fexp_53 (p : positive) (e : Z) (l : location) :
  2 ^ 52 <= Zpos p < 2 ^ 53 -> -1074 <= e ->
  shr_fexp 53 1024 (Zpos p) e l = (shr_record_of_loc (Zpos p) l, e).
Proof.
  intros Hp He. unfold shr_fexp, fexp, emin, Zdigits2.
  rewrite (digits2_pos_eq p 53) by (change (53 - 1) with 52; lia).
  replace (Z.max (53 + e - 53) (3 - 1024 - 53) - e) with 0 by lia.
  done.
Qed.

Lemma shr_fexp_54 (p : positive) (e : Z) (l : location) :
  2 ^ 53 <= Zpos p < 2 ^ 54 -> -1074 <= e ->
  shr_fexp 53 1024 (Zpos p) e l = (shr_1 (shr_record_of_loc (Zpos p) l), e + 1).
Proof.
  intros Hp He. unfold shr_fexp, fexp, emin, Zdigits2.
  rewrite (digits2_pos_eq p 54) by (change (54 - 1) with 53; lia).
  replace (Z.max (54 + e - 53) (3 - 1024 - 53) - e) with 1 by lia.
  done.
Qed.

Lemma pack_small (m1 e : Z) :
  2 ^ 52 <= m1 <= 2 ^ 53 -> -1074 <= e <= 900 ->
  exists m e',
    pack false m1 e = S754_finite false m e' /\
    2 ^ 52 <= Zpos m < 2 ^ 53 /\
    (e' = e /\ Zpos m = m1 \/ e' = e + 1 /\ m1 = 2 * Zpos m).
Proof.
  intros Hm He. destruct m1 as [|p|p]; [pow_consts; lia| |lia].
  destruct (Z.eq_dec (Zpos p) (2 ^ 53)) as [Heq|Hne].
  - exists 4503599627370496%positive, (e + 1). unfold pack.
    rewrite shr_fexp_54 by (pow_consts; lia).
    assert (p = 9007199254740992%positive) as -> by (pow_consts; lia).
    simpl. destruct (Z.leb_spec (e + 1) (1024 - 53)); [|lia].
    pow_consts. split; [done|]. split; [lia|]. right. lia.
  - exists p, e. unfold pack. rewrite shr_fexp_53 by (pow_consts; lia).
    simpl. destruct (Z.leb_spec e (1024 - 53)); [|lia].
    split; [done|]. split; [lia|]. left. done.
Qed.

Lemma binary_round_aux_small (N D q e : Z) (l : location) :
  0 < D -> 2 ^ 52 <= q < 2 ^ 54 -> -1074 <= e <= 800 -> located N D q l ->
  exists m c,
    binary_round_aux 53 1024 false q e l = S754_finite false m (e + c) /\
    2 ^ 52 <= Zpos m < 2 ^ 53 /\ 0 <= c <= 2 /\
    2 * Z.abs (N - Zpos m * 2 ^ c * D) <= 2 ^ c * D.
Proof.
  intros HD Hq He Hloc. rewrite binary_round_aux_pack.
  destruct q as [|p|p]; [pow_consts; lia| |lia].
  destruct (Z.lt_ge_cases (Zpos p) (2 ^ 53)) as [Hlt|Hge].
  - rewrite shr_fexp_53 by (pow_consts; lia). cbn [fst snd].
    rewrite shr_record_of_loc_m, shr_record_of_loc_loc.
    destruct (round_nearest_even_close N D (Zpos p) l HD Hloc) as [Hm1 Hclose].
    destruct (pack_small (round_nearest_even (Zpos p) l) e)
      as (m & e' & Hpack & Hm & Hcase); [pow_consts; lia | lia |].
    destruct Hcase as [[-> Hmm]|[-> Hmm]].
    + exists m, 0. rewrite Z.add_0_r. split; [exact Hpack|]. split; [done|].
      split; [lia|]. rewrite <- Hmm in Hclose. change (2 ^ 0) with 1. lia.
    + exists m, 1. split; [exact Hpack|]. split; [done|].
      split; [lia|]. rewrite Hmm in Hclose. change (2 ^ 1) with 2. lia.
  - rewrite shr_fexp_54 by (pow_consts; lia). cbn [fst snd].
    destruct (shr_1_located N D (Zpos p) l) as [Hhalf Hloc2]; [lia|done|done|].
    remember (shr_1 (shr_record_of_loc (Zpos p) l)) as mrs eqn:Hmrs.
    destruct (round_nearest_even_close N (2 * D) (shr_m mrs) _ ltac:(lia) Hloc2)
      as [Hm1 Hclose].
    destruct (pack_small (round_nearest_even (shr_m mrs) (loc_of_shr_record mrs))
                (e + 1))
      as (m & e' & Hpack & Hm & Hcase); [pow_consts; lia | lia |].
    destruct Hcase as [[-> Hmm]|[-> Hmm]].
    + exists m, 1. split; [exact Hpack|]. split; [done|].
      split; [lia|]. rewrite <- Hmm in Hclose. change (2 ^ 1) with 2. lia.
    + exists m, 2. replace (e + 2) with (e + 1 + 1) by lia.
      split; [exact Hpack|]. split; [done|].
      split; [lia|]. rewrite Hmm in Hclose. change (2 ^ 2) with 4. lia.
Qed.

Lemma digits2_pos_small (p : positive) :
  Zpos p < 2 ^ 53 -> 1 <= Zpos (digits2_pos p) <= 53.
Proof.
  intros Hp. pose proof (digits2_pos_bounds p) as [Hlo _].
  split; [lia|]. destruct (Z.le_gt_cases (Zpos (digits2_pos p)) 53); [done|].
  assert (2 ^ 53 <= 2 ^ (Zpos (digits2_pos p) - 1))
    by (apply Z.pow_le_mono_r; lia). lia.
Qed.

Lemma SFdiv_core_small (pa pb : positive) :
  Zpos pa < 2 ^ 53 -> Zpos pb < 2 ^ 53 ->
  exists q r s,
    SFdiv_core_binary 53 1024 (Zpos pa) 0 (Zpos pb) 0
    = (q, - s, new_location (Zpos pb) r) /\
    1 <= s <= 105 /\
    Zpos pa * 2 ^ s = Zpos pb * q + r /\ 0 <= r < Zpos pb /\
    2 ^ 52 <= q < 2 ^ 54.
Proof.
  intros Ha Hb.
  pose proof (digits2_pos_bounds pa) as [Ha1 Ha2].
  pose proof (digits2_pos_bounds pb) as [Hb1 Hb2].
  pose proof (digits2_pos_small pa Ha) as Hd1.
  pose proof (digits2_pos_small pb Hb) as Hd2.
  unfold SFdiv_core_binary, fexp, emin, Zdigits2. cbv zeta.
  remember (Zpos (digits2_pos pa)) as d1 eqn:Hd1'.
  remember (Zpos (digits2_pos pb)) as d2 eqn:Hd2'.
  remember (53 - d1 + d2) as s eqn:Hs.
  replace (Z.min (Z.max (d1 + 0 - (d2 + 0) - 53) (3 - 1024 - 53)) (0 - 0))
    with (- s) by lia.
  replace (0 - 0 - - s) with s by lia.
  destruct s as [|ps|ps]; [lia| |lia].
  rewrite Z.shiftl_mul_pow2 by lia.
  pose proof (Z_div_mod (Zpos pa * 2 ^ Zpos ps) (Zpos pb) ltac:(lia)) as Hdiv.
  destruct (Z.div_eucl (Zpos pa * 2 ^ Zpos ps) (Zpos pb)) as [q r].
  destruct Hdiv as [Hdiv Hr].
  exists q, r, (Zpos ps). split; [done|]. split; [lia|].
  split; [exact Hdiv|]. split; [exact Hr|].
  assert (2 ^ (d1 - 1) * 2 ^ Zpos ps = 2 ^ 53 * 2 ^ (d2 - 1)) as E1
    by (rewrite <- !Z.pow_add_r by lia; f_equal; lia).
  assert (2 ^ d1 = 2 * 2 ^ (d1 - 1)) as E2
    by (rewrite <- Z.pow_succ_r by lia; f_equal; lia).
  assert (2 ^ d2 = 2 * 2 ^ (d2 - 1)) as E3
    by (rewrite <- Z.pow_succ_r by lia; f_equal; lia).
  assert (0 < 2 ^ Zpos ps) as HS by (apply Z.pow_pos_nonneg; lia).
  assert (0 < 2 ^ (d2 - 1)) as HB by (apply Z.pow_pos_nonneg; lia).
  revert Ha1 Ha2 Hb1 Hb2 E1 E2 E3 HS HB Hdiv Hr.
  generalize (2 ^ (d1 - 1)) (2 ^ d1) (2 ^ (d2 - 1)) (2 ^ d2) (2 ^ Zpos ps).
  pow_consts. intros A A2 B B2 S Ha1 Ha2 Hb1 Hb2 E1 -> -> HS HB Hdiv Hr.
  assert (A * S <= Zpos pa * S) by nia.
  assert (Zpos pa * S < 2 * A * S) by nia.
  split; nia.
Qed.

Lemma SFdiv_small (pa pb : positive) :
  Zpos pa < 2 ^ 53 -> Zpos pb < 2 ^ 53 ->
  exists m e,
    SFdiv 53 1024 (S754_finite false pa 0) (S754_finite false pb 0)
    = S754_finite false m e /\
    within_half_ulp (Zpos pa) (Zpos pb) (S754_finite false m e).
Proof.
  intros Ha Hb.
  destruct (SFdiv_core_small pa pb Ha Hb)
    as (q & r & s & Hcore & Hs & Hdiv & Hr & Hq).
  change (SFdiv 53 1024 (S754_finite false pa 0) (S754_finite false pb 0))
    with (let '(mz, ez, lz) := SFdiv_core_binary 53 1024 (Zpos pa) 0 (Zpos pb) 0
          in binary_round_aux 53 1024 false mz ez lz).
  rewrite Hcore.
  destruct (binary_round_aux_small (Zpos pa * 2 ^ s) (Zpos pb) q (- s)
              (new_location (Zpos pb) r))
    as (m & c & Hround & Hm & Hc & Hclose);
    [lia | done | lia | by apply new_location_located |].
  exists m, (- s + c). split; [exact Hround|].
  unfold within_half_ulp. split; [done|]. split; [lia|].
  assert (2 ^ 1075 = 2 ^ s * 2 ^ (1075 - s)) as E1
    by (rewrite <- Z.pow_add_r by lia; f_equal; lia).
  assert (2 ^ (- s + c + 1075) = 2 ^ c * 2 ^ (1075 - s)) as E2
    by (rewrite <- Z.pow_add_r by lia; f_equal; lia).
  assert (2 * 2 ^ (- s + c + 1074) = 2 ^ c * 2 ^ (1075 - s)) as E3
    by (rewrite <- Z.pow_succ_r, <- Z.pow_add_r by lia; f_equal; lia).
  assert (0 < 2 ^ (1075 - s)) as HU by (apply Z.pow_pos_nonneg; lia).
  rewrite E1, E2.
  revert E3 HU Hclose.
  generalize (2 ^ (- s + c + 1074)) (2 ^ (1075 - s)) (2 ^ c) (2 ^ s).
  intros P U C S E3 HU Hclose.
  replace (Zpos pa * (S * U) - Zpos m * (C * U) * Zpos pb)
    with (U * (Zpos pa * S - Zpos m * C * Zpos pb)) by ring.
  rewrite Z.abs_mul, (Z.abs_eq U) by lia.
  assert (U * (2 * Z.abs (Zpos pa * S - Zpos m * C * Zpos pb))
          <= U * (C * Zpos pb)) by (apply Z.mul_le_mono_nonneg_l; lia).
  nia.
Qed.

Lemma div_nearest_even_close (n d : Z) :
  0 < d ->
  2 * Z.abs (n - div_nearest_even n d * d) <= d /\
  (0 <= n -> 0 <= div_nearest_even n d).
Proof.
  intros Hd. unfold div_nearest_even.
  pose proof (Z.div_mod n d ltac:(lia)) as Hdiv.
  pose proof (Z.mod_pos_bound n d Hd) as Hmod.
  assert (0 <= n -> 0 <= n / d) as Hpos by (intros; apply Z.div_pos; lia).
  revert Hdiv Hmod Hpos. generalize (n / d) (n mod d). intros q r -> Hr Hpos.
  destruct (Z.compare_spec (2 * r) d); [destruct (Z.even q)| |]; split; nia.
Qed.

Lemma two_decimals_exact (a b m h P W : Z) :
  0 < b -> 0 < P -> 0 < W -> 0 <= a -> 200 * a < 2 ^ 53 - 1 -> 2 ^ 52 <= m ->
  Z.abs (a * W - m * (2 * P) * b) <= P * b ->
  2 * Z.abs (m * (2 * P) * 100 - h * W) <= W ->
  2 * Z.abs (100 * a - h * b) <= b.
Proof.
  pow_consts. intros Hb HP HW Ha Hsmall Hm H1 H2.
  apply Z.abs_le in H1.
  assert (- W <= 2 * (m * (2 * P) * 100 - h * W) <= W) as H2' by lia.
  assert (0 < P * b) as HPb by nia.
  assert (9007199254740991 * (P * b) <= a * W) as K1 by nia.
  assert (- (W * b) <= 2 * (200 * (m * (P * b)) - h * (W * b)) <= W * b) as K2
    by nia.
  assert (- (P * b) <= a * W - 2 * (m * (P * b)) <= P * b) as K3 by nia.
  destruct (Z.le_gt_cases (2 * Z.abs (100 * a - h * b)) b) as [|Hgt]; [done|].
  exfalso.
  assert (W * (b + 1) <= W * (2 * Z.abs (100 * a - h * b))) as K4
    by (apply Z.mul_le_mono_nonneg_l; lia).
  assert (W * Z.abs (100 * a - h * b) = Z.abs (100 * (a * W) - h * (W * b)))
    as K5.
  { rewrite <- (Z.abs_eq W) at 1 by lia. rewrite <- Z.abs_mul. f_equal. ring. }
  assert (W <= 200 * (P * b)) as K6 by lia.
  nia.
Qed.

Lemma float_round_two_decimals (a b : Z) (m : positive) (e : Z) :
  0 <= a < 2 ^ 44 -> 0 < b ->
  within_half_ulp a b (S754_finite false m e) ->
  exists h,
    0 <= h < 2 ^ 53 /\
    2 * Z.abs (100 * a - h * b) <= b /\
    float_round (S754_finite false m e) 2
    = match h with
      | Z0 => S754_zero false
      | _ => SFdiv 53 1024 (float_of_int h) (float_of_int 100)
      end.
Proof.
  intros Ha Hb (Hm & He & Hclose).
  exists (if 0 <=? e then Zpos m * 2 ^ e * 100
          else div_nearest_even (Zpos m * 100) (2 ^ (- e))).
  remember (if 0 <=? e then Zpos m * 2 ^ e * 100
            else div_nearest_even (Zpos m * 100) (2 ^ (- e))) as h eqn:Hh.
  assert (2 ^ (e + 1075) = 2 * 2 ^ (e + 1074)) as E1
    by (rewrite <- Z.pow_succ_r by lia; f_equal; lia).
  assert (0 < 2 ^ (e + 1074)) as HP by (apply Z.pow_pos_nonneg; lia).
  assert (0 < 2 ^ 1075) as HW by (apply Z.pow_pos_nonneg; lia).
  assert (0 <= h /\
          2 * Z.abs (Zpos m * (2 * 2 ^ (e + 1074)) * 100 - h * 2 ^ 1075)
          <= 2 ^ 1075) as [Hh0 H2].
  { destruct (Z.leb_spec 0 e) as [He0|He0].
    - assert (2 * 2 ^ (e + 1074) = 2 ^ e * 2 ^ 1075) as E2
        by (rewrite <- E1, <- Z.pow_add_r by lia; f_equal; lia).
      assert (0 < 2 ^ e) by (apply Z.pow_pos_nonneg; lia).
      split; [subst h; nia|]. rewrite E2, Hh.
      replace (Zpos m * (2 ^ e * 2 ^ 1075) * 100
               - Zpos m * 2 ^ e * 100 * 2 ^ 1075) with 0 by ring.
      simpl Z.abs. lia.
    - assert (2 ^ 1075 = 2 ^ (- e) * (2 * 2 ^ (e + 1074))) as E2
        by (rewrite <- E1, <- Z.pow_add_r by lia; f_equal; lia).
      assert (0 < 2 ^ (- e)) as HG by (apply Z.pow_pos_nonneg; lia).
      destruct (div_nearest_even_close (Zpos m * 100) (2 ^ (- e)) HG)
        as [Hdne Hpos].
      rewrite <- Hh in Hdne, Hpos. split; [apply Hpos; lia|].
      rewrite E2 at 1. rewrite E2 at 1.
      revert Hdne HP HG. generalize (2 ^ (- e)) (2 ^ (e + 1074)).
      intros G P Hdne HP HG.
      replace (Zpos m * (2 * P) * 100 - h * (G * (2 * P)))
        with (2 * P * (Zpos m * 100 - h * G)) by ring.
      rewrite Z.abs_mul, (Z.abs_eq (2 * P)) by lia.
      assert (2 * P * (2 * Z.abs (Zpos m * 100 - h * G)) <= 2 * P * G)
        by (apply Z.mul_le_mono_nonneg_l; lia).
      lia. }
  rewrite E1 in Hclose.
  assert (2 * Z.abs (100 * a - h * b) <= b) as Hexact.
  { apply (two_decimals_exact a b (Zpos m) h (2 ^ (e + 1074)) (2 ^ 1075));
      try done; lia. }
  split; [|split; [exact Hexact|]].
  - split; [done|]. change (2 ^ 44) with 17592186044416 in Ha. pow_consts. nia.
  - unfold float_round. change (10 ^ 2) with 100. cbv zeta. by rewrite <- Hh.
Qed.

Lemma int_truediv_small (a b : Z) :
  0 < a < 2 ^ 53 -> 0 < b < 2 ^ 53 ->
  exists m e,
    int_truediv a b = Ok (S754_finite false m e) /\
    within_half_ulp a b (S754_finite false m e).
Proof.
  intros Ha Hb. destruct a as [|pa|pa]; [lia| |lia].
  destruct b as [|pb|pb]; [lia| |lia].
  destruct (SFdiv_small pa pb) as (m & e & Hdiv & Hclose); [lia|lia|].
  exists m, e. split; [|exact Hclose].
  unfold int_truediv, float_of_int. by rewrite Hdiv.
Qed.

Lemma average_two_decimals (a b : Z) :
  0 <= a < 2 ^ 44 -> 0 < b < 2 ^ 53 ->
  exists q h,
    int_truediv a b = Ok q /\ within_half_ulp a b q /\
    2 * Z.abs (100 * a - h * b) <= b /\
    within_half_ulp h 100 (float_round q 2).
Proof.
  intros Ha Hb. destruct (Z.eq_dec a 0) as [->|Hne].
  - exists (S754_zero false), 0. destruct b as [|pb|pb]; [lia| |lia].
    split; [done|]. split; [done|]. split; [simpl; lia|done].
  - destruct (int_truediv_small a b) as (m & e & Hdiv & Hclose);
      [change (2 ^ 44) with 17592186044416 in Ha; pow_consts; lia | done |].
    destruct (float_round_two_decimals a b m e Ha ltac:(lia) Hclose)
      as (h & Hh & Hexact & Hround).
    exists (S754_finite false m e), h.
    split; [exact Hdiv|]. split; [exact Hclose|]. split; [exact Hexact|].
    rewrite Hround. destruct h as [|ph|ph]; [done| |lia].
    destruct (SFdiv_small ph 100) as (m' & e' & Hdiv' & Hclose');
      [lia | pow_consts; lia |].
    unfold float_of_int. rewrite Hdiv'. exact Hclose'.
Qed.

(** C6: on a registry without entries [get_usage_statistics] returns
    [total_checkouts] 0 and [average_checkouts_per_book] 0.  With entries,
    [total_checkouts] is the sum of their counters and the average is that
    sum divided by the number of entries, a float, rounded to two decimals
    by [round].  In numbers, for a sum below [2 ^ 44] and fewer than
    [2 ^ 53] entries: the call returns, and the average is a float within
    half a unit in the last place of the decimal [h / 100], where [h / 100]
    is at most [1 / 200] away from the exact quotient of the sum by the
    number of entries. *)
Theorem usage_statistics_average (w : World) :
  valid_world w ->
  let total := checkouts_of_all_entries w in
  let count := Z.of_nat (length (books (self w))) in
  (books (self w) = [] ->
     exists stats,
       LibraryAnalytics.get_usage_statistics w
       = (Ok stats, with_ticks w (S (ticks w))) /\
       field "total_books" stats = Some (PyInt 0) /\
       field "total_checkouts" stats = Some (PyInt 0) /\
       field "average_checkouts_per_book" stats = Some (PyInt 0)) /\
  (books (self w) <> [] ->
     forall q, int_truediv total count = Ok q ->
     exists stats,
       LibraryAnalytics.get_usage_statistics w
       = (Ok stats, with_ticks w (S (ticks w))) /\
       field "total_books" stats = Some (PyInt count) /\
       field "total_checkouts" stats = Some (PyInt total) /\
       field "average_checkouts_per_book" stats
       = Some (PyFloat (float_round q 2))) /\
  (books (self w) <> [] -> 0 <= total < 2 ^ 44 -> count < 2 ^ 53 ->
     exists stats f h,
       LibraryAnalytics.get_usage_statistics w
       = (Ok stats, with_ticks w (S (ticks w))) /\
       field "total_checkouts" stats = Some (PyInt total) /\
       field "average_checkouts_per_book" stats = Some (PyFloat f) /\
       2 * Z.abs (100 * total - h * count) <= count /\
       within_half_ulp h 100 f).
Proof.
  intros Hw total count. pose proof (get_usage_statistics_run w Hw) as Hrun.
  simpl in Hrun. fold total count in Hrun.
  assert (books (self w) <> [] -> (0 <? count) = true) as Hpos.
  { intros Hne. subst count. apply Z.ltb_lt. destruct (books (self w)); [done|].
    rewrite length_cons. lia. }
  split; [|split].
  - intros Hempty. subst total count. unfold checkouts_of_all_entries in *.
    rewrite Hempty in *. simpl in Hrun. eexists. split; [exact Hrun|]. done.
  - intros Hne q Hq. rewrite Hq, (Hpos Hne) in Hrun.
    eexists. split; [exact Hrun|]. done.
  - intros Hne Htotal Hcount. specialize (Hpos Hne).
    destruct (average_two_decimals total count Htotal)
      as (q & h & Hq & _ & Hexact & Hclose); [lia|].
    rewrite Hq, Hpos in Hrun.
    eexists. exists (float_round q 2), h. split; [exact Hrun|]. done.
Qed.

Lemma usage_statistics_average_witness :
  (exists stats,
     LibraryAnalytics.get_usage_statistics (initial_world demo_clock (fun _ => true))
     = (Ok stats, with_ticks (initial_world demo_clock (fun _ => true)) 1) /\
     field "total_checkouts" stats = Some (PyInt 0) /\
     field "average_checkouts_per_book" stats = Some (PyInt 0)) /\
  (exists stats,
     LibraryAnalytics.get_usage_statistics demo_world
     = (Ok stats, with_ticks demo_world (S (ticks demo_world))) /\
     field "total_checkouts" stats = Some (PyInt 6) /\
     field "average_checkouts_per_book" stats
     = Some (PyFloat (S754_finite false 5404319552844595 (-52)))) /\
  (exists stats,
     LibraryAnalytics.get_usage_statistics three_book_world
     = (Ok stats, with_ticks three_book_world (S (ticks three_book_world))) /\
     field "total_checkouts" stats = Some (PyInt 2) /\
     field "average_checkouts_per_book" stats
     = Some (PyFloat (S754_finite false 6034823500676465 (-53))) /\
     within_half_ulp 67 100 (S754_finite false 6034823500676465 (-53))) /\
  (exists stats,
     LibraryAnalytics.get_usage_statistics eight_book_world
     = (Ok stats, with_ticks eight_book_world (S (ticks eight_book_world))) /\
     field "total_checkouts" stats = Some (PyInt 1) /\
     field "average_checkouts_per_book" stats
     = Some (PyFloat (S754_finite false 8646911284551352 (-56))) /\
     within_half_ulp 12 100 (S754_finite false 8646911284551352 (-56))).
Proof.
  split; [|split; [|split]].
  - destruct (usage_statistics_average (initial_world demo_clock (fun _ => true))
                (initial_world_valid _ _)) as [Hempty _].
    destruct (Hempty eq_refl) as (stats & Hrun & _ & Htotal & Havg).
    by exists stats.
  - assert (int_truediv (checkouts_of_all_entries demo_world)
              (Z.of_nat (length (books (self demo_world))))
            = Ok (S754_finite false 5404319552844595 (-52))) as Hq
      by (vm_compute; reflexivity).
    assert (float_round (S754_finite false 5404319552844595 (-52)) 2
            = S754_finite false 5404319552844595 (-52)) as Hround
      by (vm_compute; reflexivity).
    assert (checkouts_of_all_entries demo_world = 6) as Htotal6
      by (vm_compute; reflexivity).
    assert (books (self demo_world) <> []) as Hne
      by (intros H; vm_compute in H; discriminate H).
    destruct (usage_statistics_average demo_world demo_world_valid)
      as (_ & Hsome & _).
    destruct (Hsome Hne _ Hq) as (stats & Hrun & _ & Htotal & Havg).
    rewrite Hround in Havg. rewrite Htotal6 in Htotal.
    exists stats. split; [exact Hrun|]. split; [exact Htotal | exact Havg].
  - assert (int_truediv (checkouts_of_all_entries three_book_world)
              (Z.of_nat (length (books (self three_book_world))))
            = Ok (S754_finite false 6004799503160661 (-53))) as Hq
      by (vm_compute; reflexivity).
    assert (float_round (S754_finite false 6004799503160661 (-53)) 2
            = S754_finite false 6034823500676465 (-53)) as Hround
      by (vm_compute; reflexivity).
    assert (checkouts_of_all_entries three_book_world = 2) as Htotal2
      by (vm_compute; reflexivity).
    assert (Z.of_nat (length (books (self three_book_world))) = 3) as Hcount3
      by (vm_compute; reflexivity).
    assert (books (self three_book_world) <> []) as Hne
      by (intros H; vm_compute in H; discriminate H).
    destruct (usage_statistics_average three_book_world three_book_world_valid)
      as (_ & Hsome & Hnumbers).
    destruct (Hsome Hne _ Hq) as (stats & Hrun & _ & Htotal & Havg).
    destruct Hnumbers as (stats' & f & h & Hrun' & _ & Havg' & Hexact & Hclose);
      [exact Hne | rewrite Htotal2; lia | rewrite Hcount3; lia |].
    assert (Ok stats = Ok stats') as Hsame
      by exact (f_equal fst (eq_trans (eq_sym Hrun) Hrun')).
    injection Hsame as <-.
    rewrite Havg, Hround in Havg'. injection Havg' as <-.
    rewrite Htotal2, Hcount3 in Hexact.
    assert (h = 67) as -> by lia.
    rewrite Hround in Havg. rewrite Htotal2 in Htotal.
    exists stats. split; [exact Hrun|]. split; [exact Htotal|].
    split; [exact Havg | exact Hclose].
  - assert (within_half_ulp 12 100 (S754_finite false 8646911284551352 (-56)))
      as Hclose.
    { unfold within_half_ulp. split; [lia|]. split; [lia|].
      apply Z.leb_le. vm_compute. reflexivity. }
    assert (int_truediv (checkouts_of_all_entries eight_book_world)
              (Z.of_nat (length (books (self eight_book_world))))
            = Ok (S754_finite false 4503599627370496 (-55))) as Hq
      by (vm_compute; reflexivity).
    assert (float_round (S754_finite false 4503599627370496 (-55)) 2
            = S754_finite false 8646911284551352 (-56)) as Hround
      by (vm_compute; reflexivity).
    assert (checkouts_of_all_entries eight_book_world = 1) as Htotal1
      by (vm_compute; reflexivity).
    assert (books (self eight_book_world) <> []) as Hne
      by (intros H; vm_compute in H; discriminate H).
    destruct (usage_statistics_average eight_book_world eight_book_world_valid)
      as (_ & Hsome & _).
    destruct (Hsome Hne _ Hq) as (stats & Hrun & _ & Htotal & Havg).
    rewrite Hround in Havg. rewrite Htotal1 in Htotal.
    exists stats. split; [exact Hrun|]. split; [exact Htotal|].
    split; [exact Havg | exact Hclose].
Defined.

(** * Further properties of the code *)

(** ** Registration *)

Lemma get_app_new {V : Type} (d : dict V) (k : string) (v : V) :
  Dict.get k d = None -> Dict.get k (d ++ [(k, v)]) = Some v.
Proof.
  induction d as [|[k0 v0] d IH]; simpl.
  - by rewrite String.eqb_refl.
  - destruct (String.eqb k k0); [discriminate | exact IH].
Qed.

Lemma get_app_other {V : Type} (d : dict V) (k k' : string) (v : V) :
  k <> k' -> Dict.get k (d ++ [(k', v)]) = Dict.get k d.
Proof.
  intros Hne. induction d as [|[k0 v0] d IH]; simpl.
  - by destruct (String.eqb_spec k k').
  - destruct (String.eqb k k0); [done | exact IH].
Qed.

Lemma add_book_present (w : World) (book : loc) (b : Book.t) :
  book_objs w !! book = Some b ->
  Dict.contains (Book.book_id b) (books (self w)) = true ->
  LibraryAnalytics.add_book book w = (Ok false, w).
Proof.
  intros Hb Hin. unfold LibraryAnalytics.add_book.
  rewrite (bind_ok _ _ w w b) by (unfold read_book; by rewrite Hb).
  rewrite (bind_ok _ _ w w (self w)) by done. by rewrite Hin.
Qed.

Lemma add_member_present (w : World) (member : loc) (m : Member.t) :
  member_objs w !! member = Some m ->
  Dict.contains (Member.member_id m) (members (self w)) = true ->
  LibraryAnalytics.add_member member w = (Ok false, w).
Proof.
  intros Hm Hin. unfold LibraryAnalytics.add_member.
  rewrite (bind_ok _ _ w w m) by (unfold read_member; by rewrite Hm).
  rewrite (bind_ok _ _ w w (self w)) by done. by rewrite Hin.
Qed.

(** X1: [add_book] with a book whose identifier is not yet a key returns
    [True] and files the book under its identifier, after the keys that
    were there; the other keys keep their references, no object changes,
    and adding the same book again is rejected. *)
Theorem add_book_registers (w : World) (book : loc) (b : Book.t) :
  book_objs w !! book = Some b ->
  Dict.contains (Book.book_id b) (books (self w)) = false ->
  exists w',
    LibraryAnalytics.add_book book w = (Ok true, w') /\
    Dict.get (Book.book_id b) (books (self w')) = Some book /\
    Dict.keys (books (self w')) = Dict.keys (books (self w)) ++ [Book.book_id b] /\
    (forall k, k <> Book.book_id b ->
       Dict.get k (books (self w')) = Dict.get k (books (self w))) /\
    members (self w') = members (self w) /\
    book_objs w' = book_objs w /\ member_objs w' = member_objs w /\
    files w' = files w /\
    LibraryAnalytics.add_book book w' = (Ok false, w').
Proof.
  intros Hb Hnew. pose proof Hnew as Hget. apply contains_false_get in Hget.
  eexists. split.
  { unfold LibraryAnalytics.add_book.
    rewrite (bind_ok _ _ w w b) by (unfold read_book; by rewrite Hb).
    rewrite (bind_ok _ _ w w (self w)) by done.
    rewrite Hnew. simpl. rewrite (set_absent _ _ _ Hget). reflexivity. }
  simpl. split; [by apply get_app_new|]. split; [by apply keys_app|].
  split; [intros k Hk; by apply get_app_other|].
  repeat (split; [done|]).
  apply add_book_present with (b := b); [done|]. simpl.
  apply contains_true_get. exists book. by apply get_app_new.
Qed.

Lemma add_book_registers_witness :
  let w := (new_book "B006" "Emma" "Jane Austen" "978-0-14-143958-7"
              demo_world).2 in
  exists w',
    LibraryAnalytics.add_book 5%nat w = (Ok true, w') /\
    Dict.keys (books (self w'))
    = ["B001"; "B002"; "B003"; "B004"; "B005"; "B006"].
Proof.
  intros w.
  destruct (add_book_registers w 5%nat
              (Book.init "B006" "Emma" "Jane Austen" "978-0-14-143958-7"))
    as (w' & Hrun & _ & Hkeys & _); [by vm_compute | by vm_compute |].
  exists w'. split; [exact Hrun|]. rewrite Hkeys. by vm_compute.
Defined.

(** X2: [add_member] with a member whose identifier is not yet a key returns
    [True] and files the member under its identifier, after the keys that
    were there; the other keys keep their references, no object changes,
    and adding the same member again is rejected. *)
Theorem add_member_registers (w : World) (member : loc) (m : Member.t) :
  member_objs w !! member = Some m ->
  Dict.contains (Member.member_id m) (members (self w)) = false ->
  exists w',
    LibraryAnalytics.add_member member w = (Ok true, w') /\
    Dict.get (Member.member_id m) (members (self w')) = Some member /\
    Dict.keys (members (self w'))
    = Dict.keys (members (self w)) ++ [Member.member_id m] /\
    (forall k, k <> Member.member_id m ->
       Dict.get k (members (self w')) = Dict.get k (members (self w))) /\
    books (self w') = books (self w) /\
    book_objs w' = book_objs w /\ member_objs w' = member_objs w /\
    files w' = files w /\
    LibraryAnalytics.add_member member w' = (Ok false, w').
Proof.
  intros Hm Hnew. pose proof Hnew as Hget. apply contains_false_get in Hget.
  eexists. split.
  { unfold LibraryAnalytics.add_member.
    rewrite (bind_ok _ _ w w m) by (unfold read_member; by rewrite Hm).
    rewrite (bind_ok _ _ w w (self w)) by done.
    rewrite Hnew. simpl. rewrite (set_absent _ _ _ Hget). reflexivity. }
  simpl. split; [by apply get_app_new|]. split; [by apply keys_app|].
  split; [intros k Hk; by apply get_app_other|].
  repeat (split; [done|]).
  apply add_member_present with (m := m); [done|]. simpl.
  apply contains_true_get. exists member. by apply get_app_new.
Qed.

Lemma add_member_registers_witness :
  let w := (new_member "M004" "Dan Brown" "dan@example.com" demo_world).2 in
  exists w',
    LibraryAnalytics.add_member 3%nat w = (Ok true, w') /\
    Dict.keys (members (self w')) = ["M001"; "M002"; "M003"; "M004"].
Proof.
  intros w.
  destruct (add_member_registers w 3%nat
              (Member.init "M004" "Dan Brown" "dan@example.com"))
    as (w' & Hrun & _ & Hkeys & _); [by vm_compute | by vm_compute |].
  exists w'. split; [exact Hrun|]. rewrite Hkeys. by vm_compute.
Defined.

(** ** What a checkout records *)

(** The world a checkout of two registered identifiers leaves. *)
Lemma process_checkout_run (w : World) (member_id book_id : string)
    (d : datetime) (member book : loc) (m : Member.t) (b : Book.t) :
  Dict.get member_id (members (self w)) = Some member ->
  Dict.get book_id (books (self w)) = Some book ->
  member_objs w !! member = Some m ->
  book_objs w !! book = Some b ->
  LibraryAnalytics.process_checkout member_id book_id d w
  = (Ok true,
     with_book_objs
       (with_member_objs w
          (<[member := (Member.checkout_book m b d).1]> (member_objs w)))
       (<[book := (Member.checkout_book m b d).2]> (book_objs w))).
Proof.
  intros Hgm Hgb Hm Hb.
  rewrite (process_checkout_registered _ _ _ _ _ _ Hgm Hgb).
  erewrite bind_ok; [|by apply checkout_book_run]. reflexivity.
Qed.

(** X3: [process_checkout] on two registered identifiers returns [True]; the
    member then holds the book identifier as the last element of
    [books_checked_out] and has one more record, for that book and date;
    the book's counter is one higher, its history has one more record, for
    that member and date, and its [last_checkout] is the date. *)
Theorem process_checkout_records (w : World) (member_id book_id : string)
    (d : datetime) (member book : loc) :
  valid_world w ->
  Dict.get member_id (members (self w)) = Some member ->
  Dict.get book_id (books (self w)) = Some book ->
  exists w' m b m' b',
    LibraryAnalytics.process_checkout member_id book_id d w = (Ok true, w') /\
    member_objs w !! member = Some m /\ book_objs w !! book = Some b /\
    member_objs w' !! member = Some m' /\ book_objs w' !! book = Some b' /\
    Member.books_checked_out m' = Member.books_checked_out m ++ [book_id] /\
    Member.checkout_history m'
    = Member.checkout_history m ++ [member_record book_id d] /\
    Book.total_checkouts b' = Book.total_checkouts b + 1 /\
    Book.checkout_history b'
    = Book.checkout_history b ++ [book_record member_id d] /\
    Book.last_checkout b' = Some d.
Proof.
  intros Hw Hgm Hgb.
  destruct (valid_world_member_ref w _ _ Hw Hgm) as (m & Hm & Hmid).
  destruct (valid_world_book_ref w _ _ Hw Hgb) as (b & Hb & Hbid).
  eexists _, m, b, _, _.
  split; [by apply (process_checkout_run w _ _ d member book m b)|].
  split; [done|]. split; [done|]. simpl.
  split; [apply list_lookup_insert_eq; by eapply lookup_lt_Some|].
  split; [apply list_lookup_insert_eq; by eapply lookup_lt_Some|].
  simpl. unfold member_record, book_record. by rewrite Hmid, Hbid.
Qed.

Lemma process_checkout_records_witness :
  exists w' m' b',
    LibraryAnalytics.process_checkout "M003" "B005" (date 2026 1 7) demo_world
    = (Ok true, w') /\
    member_objs w' !! 2%nat = Some m' /\ book_objs w' !! 4%nat = Some b' /\
    Member.books_checked_out m' = ["B004"; "B005"] /\
    Book.total_checkouts b' = 1 /\
    Book.last_checkout b' = Some (date 2026 1 7).
Proof.
  destruct (process_checkout_records demo_world "M003" "B005" (date 2026 1 7)
              2%nat 4%nat demo_world_valid)
    as (w' & m & b & m' & b' & Hrun & Hm & Hb & Hm' & Hb' & Hheld & _ & Hcount &
        _ & Hlast); [by vm_compute | by vm_compute |].
  exists w', m', b'. split; [exact Hrun|]. split; [exact Hm'|].
  split; [exact Hb'|].
  vm_compute in Hm. injection Hm as <-. vm_compute in Hb. injection Hb as <-.
  split; [exact Hheld|]. split; [exact Hcount | exact Hlast].
Defined.

(** X4: In a well-formed world [process_checkout] never raises, and it returns
    [True] exactly when both identifiers are registered. *)
Theorem process_checkout_decides (w : World) (member_id book_id : string)
    (d : datetime) :
  valid_world w ->
  exists w',
    LibraryAnalytics.process_checkout member_id book_id d w
    = (Ok (Dict.contains member_id (members (self w)) &&
           Dict.contains book_id (books (self w))), w').
Proof.
  intros Hw.
  destruct (Dict.contains member_id (members (self w))) eqn:Hm.
  2:{ exists w. by apply process_checkout_no_member. }
  destruct (Dict.contains book_id (books (self w))) eqn:Hb.
  2:{ exists w. by apply process_checkout_no_book. }
  apply contains_true_get in Hm as [member Hm].
  apply contains_true_get in Hb as [book Hb].
  destruct (valid_world_member_ref w _ _ Hw Hm) as (m & Hmo & _).
  destruct (valid_world_book_ref w _ _ Hw Hb) as (b & Hbo & _).
  eexists. by apply (process_checkout_run w _ _ d member book m b).
Qed.

Lemma process_checkout_decides_witness :
  (LibraryAnalytics.process_checkout "M001" "B404" (date 2026 1 7)
     demo_world).1 = Ok false /\
  (LibraryAnalytics.process_checkout "M001" "B003" (date 2026 1 7)
     demo_world).1 = Ok true.
Proof.
  split.
  - destruct (process_checkout_decides demo_world "M001" "B404"
                (date 2026 1 7) demo_world_valid) as [w' ->]. by vm_compute.
  - destruct (process_checkout_decides demo_world "M001" "B003"
                (date 2026 1 7) demo_world_valid) as [w' ->]. by vm_compute.
Defined.

(** ** A checkout followed by a return *)

Lemma list_remove_app_new (x : string) (l : list string) :
  x ∉ l -> list_remove x (l ++ [x]) = l.
Proof.
  induction l as [|y l IH]; simpl.
  - intros _. by rewrite String.eqb_refl.
  - rewrite not_elem_of_cons. intros [Hne Hl].
    destruct (String.eqb_spec y x) as [->|_]; [done|]. by rewrite IH.
Qed.

Lemma list_contains_app_new (x : string) (l : list string) :
  list_contains x (l ++ [x]) = true.
Proof.
  apply list_contains_elem_of, elem_of_app. right. apply list_elem_of_here.
Qed.

(** X5: Returning a book right after checking it out returns [True] and takes
    one occurrence of the identifier out of [books_checked_out] again (the
    list is as before the checkout when the member did not hold the book),
    but the checkout stays on record: the book's counter is one higher, its
    [last_checkout] is the date, and the member's history has the new
    record. *)
Theorem checkout_then_return (w : World) (member_id book_id : string)
    (d : datetime) (member book : loc) :
  valid_world w ->
  Dict.get member_id (members (self w)) = Some member ->
  Dict.get book_id (books (self w)) = Some book ->
  exists w1 w2 m b m2 b2,
    LibraryAnalytics.process_checkout member_id book_id d w = (Ok true, w1) /\
    return_book member book_id w1 = (Ok true, w2) /\
    member_objs w !! member = Some m /\ book_objs w !! book = Some b /\
    member_objs w2 !! member = Some m2 /\ book_objs w2 !! book = Some b2 /\
    Member.books_checked_out m2
    = list_remove book_id (Member.books_checked_out m ++ [book_id]) /\
    (book_id ∉ Member.books_checked_out m ->
       Member.books_checked_out m2 = Member.books_checked_out m) /\
    Member.checkout_history m2
    = Member.checkout_history m ++ [member_record book_id d] /\
    Book.total_checkouts b2 = Book.total_checkouts b + 1 /\
    Book.last_checkout b2 = Some d.
Proof.
  intros Hw Hgm Hgb.
  destruct (valid_world_member_ref w _ _ Hw Hgm) as (m & Hm & Hmid).
  destruct (valid_world_book_ref w _ _ Hw Hgb) as (b & Hb & Hbid).
  pose proof (lookup_lt_Some _ _ _ Hm) as Hlm.
  pose proof (lookup_lt_Some _ _ _ Hb) as Hlb.
  remember (Member.checkout_book m b d).1 as m1 eqn:Em1.
  remember (Member.checkout_book m b d).2 as b1 eqn:Eb1.
  set (w1 := with_book_objs
               (with_member_objs w (<[member := m1]> (member_objs w)))
               (<[book := b1]> (book_objs w))).
  assert (member_objs w1 !! member = Some m1) as Hm1
    by (by apply list_lookup_insert_eq).
  assert (Member.books_checked_out m1
          = Member.books_checked_out m ++ [book_id]) as Hheld1
    by (subst m1; simpl; by rewrite Hbid).
  assert ((Member.return_book m1 book_id).2 = true) as Hflag.
  { unfold Member.return_book. by rewrite Hheld1, list_contains_app_new. }
  assert (Member.books_checked_out (Member.return_book m1 book_id).1
          = list_remove book_id (Member.books_checked_out m ++ [book_id]))
    as Hheld2.
  { unfold Member.return_book. by rewrite Hheld1, list_contains_app_new. }
  assert (Member.checkout_history (Member.return_book m1 book_id).1
          = Member.checkout_history m ++ [member_record book_id d]) as Hhist2.
  { unfold Member.return_book. rewrite Hheld1, list_contains_app_new.
    subst m1. simpl. unfold member_record. by rewrite Hbid. }
  exists w1,
    (with_member_objs w1
       (<[member := (Member.return_book m1 book_id).1]> (member_objs w1))),
    m, b, (Member.return_book m1 book_id).1, b1.
  split.
  { subst w1 m1 b1. by apply (process_checkout_run w _ _ d member book m b). }
  split; [by rewrite (return_book_run _ _ _ _ Hm1), Hflag|].
  split; [done|]. split; [done|].
  split.
  { simpl. apply list_lookup_insert_eq. by rewrite length_insert. }
  split; [simpl; by apply list_lookup_insert_eq|].
  split; [done|].
  split; [intros Hnot; rewrite Hheld2; by apply list_remove_app_new|].
  split; [done|]. by subst b1.
Qed.

Lemma checkout_then_return_witness :
  exists w1 w2 m2 b2,
    LibraryAnalytics.process_checkout "M003" "B005" (date 2026 1 7) demo_world
    = (Ok true, w1) /\
    return_book 2%nat "B005" w1 = (Ok true, w2) /\
    member_objs w2 !! 2%nat = Some m2 /\ book_objs w2 !! 4%nat = Some b2 /\
    Member.books_checked_out m2 = ["B004"] /\
    Book.total_checkouts b2 = 1.
Proof.
  destruct (checkout_then_return demo_world "M003" "B005" (date 2026 1 7)
              2%nat 4%nat demo_world_valid)
    as (w1 & w2 & m & b & m2 & b2 & Hrun1 & Hrun2 & Hm & Hb & Hm2 & Hb2 & _ &
        Hheld & _ & Hcount & _); [by vm_compute | by vm_compute |].
  exists w1, w2, m2, b2.
  split; [exact Hrun1|]. split; [exact Hrun2|]. split; [exact Hm2|].
  split; [exact Hb2|].
  vm_compute in Hm. injection Hm as <-. vm_compute in Hb. injection Hb as <-.
  split; [|exact Hcount]. apply Hheld. vm_compute.
  intros H. apply list_elem_of_In in H. simpl in H.
  destruct H as [H | []]. discriminate H.
Defined.

(** ** Counters, from the start of a program *)

Lemma successful_checkouts_app (book_id : string)
    (log : list (call * result value)) (entry : call * result value) :
  successful_checkouts book_id (log ++ [entry])
  = successful_checkouts book_id log
    + (if successful_checkout book_id entry then 1 else 0).
Proof.
  unfold successful_checkouts. rewrite List.filter_app, length_app. simpl.
  destruct (successful_checkout book_id entry); simpl; lia.
Qed.

Lemma successful_checkouts_idle (book_id : string)
    (log : list (call * result value)) (c : call) (r : result value) :
  successful_checkout book_id (c, r) = false ->
  successful_checkouts book_id (log ++ [(c, r)])
  = successful_checkouts book_id log.
Proof. intros H. rewrite successful_checkouts_app, H. lia. Qed.

(** A step keeps the books' counters accounted for by the log. *)
Lemma step_counters_explained (w w' : World) (c : call) (r : result value)
    (log : list (call * result value)) :
  valid_world w -> counters_explained w log -> unregistered_unused w log ->
  step w c r w' ->
  counters_explained w' (log ++ [(c, r)]) /\
  unregistered_unused w' (log ++ [(c, r)]).
Proof.
  intros Hw Hc Hu Hstep.
  destruct Hstep as [id t a i | id n e | book b0 Hbo Hget0 | member m Hmo Hget0
                    | mid bid d member book m b0 Hgm Hgb Hmo Hbo
                    | member bid m Hmo | c r w' (Hbs & Hms & Hself) Hidle].
  - split.
    + intros l b Hl. simpl in *. rewrite successful_checkouts_idle by done.
      apply lookup_app_Some in Hl as [Hl | [Hlen Hl]]; [by apply Hc|].
      destruct (l - length (book_objs w))%nat as [|n] eqn:Hn; [|done].
      injection Hl as <-. simpl. case_decide as Hreg; [|done].
      destruct (valid_world_book_ref w _ _ Hw Hreg) as (b' & Hb' & _).
      apply lookup_lt_Some in Hb'. lia.
    + intros k Hk. simpl in *. rewrite successful_checkouts_idle by done.
      by apply Hu.
  - split.
    + intros l b Hl. simpl in *. rewrite successful_checkouts_idle by done.
      by apply Hc.
    + intros k Hk. simpl in *. rewrite successful_checkouts_idle by done.
      by apply Hu.
  - split.
    + intros l b Hl. simpl in *. rewrite successful_checkouts_idle by done.
      rewrite (Hc l b Hl).
      destruct (String.eqb_spec (Book.book_id b) (Book.book_id b0)) as [Hid|Hid].
      * rewrite Hid, (get_app_new _ _ _ Hget0), Hget0.
        rewrite (Hu _ Hget0). by repeat case_decide.
      * by rewrite (get_app_other _ _ _ _ Hid).
    + intros k Hk. simpl in *. rewrite successful_checkouts_idle by done.
      apply Hu. destruct (String.eqb_spec k (Book.book_id b0)) as [->|Hne].
      * by rewrite (get_app_new _ _ _ Hget0) in Hk.
      * by rewrite (get_app_other _ _ _ _ Hne) in Hk.
  - split.
    + intros l b Hl. simpl in *. rewrite successful_checkouts_idle by done.
      by apply Hc.
    + intros k Hk. simpl in *. rewrite successful_checkouts_idle by done.
      by apply Hu.
  - pose proof (valid_world_book_id w _ _ _ Hw Hgb Hbo) as Hbid.
    split.
    + intros l b Hl. simpl in Hl. rewrite successful_checkouts_app.
      cbn [successful_checkout self with_book_objs with_member_objs].
      destruct (decide (book = l)) as [<-|Hne].
      * rewrite list_lookup_insert_eq in Hl by (by eapply lookup_lt_Some).
        injection Hl as <-. simpl. rewrite Hbid, Hgb, String.eqb_refl.
        pose proof (Hc _ _ Hbo) as H0. rewrite Hbid, Hgb in H0.
        case_decide; [lia | done].
      * rewrite list_lookup_insert_ne in Hl by done.
        rewrite (Hc l b Hl). case_decide as Hreg; [|done].
        destruct (String.eqb_spec bid (Book.book_id b)) as [->|_]; [|lia].
        congruence.
    + intros k Hk. simpl in Hk. rewrite successful_checkouts_app.
      cbn [successful_checkout].
      destruct (String.eqb_spec bid k) as [->|_]; [congruence|].
      rewrite (Hu k Hk). lia.
  - split.
    + intros l b Hl. simpl in *. rewrite successful_checkouts_idle by done.
      by apply Hc.
    + intros k Hk. simpl in *. rewrite successful_checkouts_idle by done.
      by apply Hu.
  - split.
    + intros l b Hl. rewrite Hbs in Hl. rewrite Hself.
      rewrite successful_checkouts_idle
        by (by apply successful_checkout_succeeded).
      by apply Hc.
    + intros k Hk. rewrite Hself in Hk.
      rewrite successful_checkouts_idle
        by (by apply successful_checkout_succeeded).
      by apply Hu.
Qed.

Lemma run_counters_explained (calls : list call) (w : World)
    (log : list (call * result value)) :
  valid_world w -> counters_explained w log -> unregistered_unused w log ->
  counters_explained (run calls w).2 (log ++ (run calls w).1) /\
  unregistered_unused (run calls w).2 (log ++ (run calls w).1).
Proof.
  revert w log. induction calls as [|c calls IH]; intros w log Hw Hc Hu.
  - simpl. by rewrite app_nil_r.
  - rewrite run_cons. simpl.
    destruct (step_counters_explained w _ c _ log Hw Hc Hu (perform_step c w))
      as [Hc1 Hu1].
    rewrite (cons_middle _ log), app_assoc.
    apply IH; [by apply perform_valid | done | done].
Qed.

(** X6: After any sequence of calls from the start of a program, the counter of
    every registered book is the number of calls of [process_checkout] for
    its identifier that returned [True]; a book object that is not
    registered has counter 0, and an identifier that is not registered has
    no successful checkout. *)
Theorem counters_from_start (clock : nat -> datetime)
    (writable : string -> bool) (calls : list call) :
  let w := (run calls (initial_world clock writable)).2 in
  let log := (run calls (initial_world clock writable)).1 in
  (forall k l b,
     Dict.get k (books (self w)) = Some l -> book_objs w !! l = Some b ->
     Book.total_checkouts b = successful_checkouts k log) /\
  (forall l b,
     book_objs w !! l = Some b ->
     Dict.get (Book.book_id b) (books (self w)) <> Some l ->
     Book.total_checkouts b = 0) /\
  (forall k,
     Dict.contains k (books (self w)) = false ->
     successful_checkouts k log = 0).
Proof.
  intros w log.
  destruct (run_counters_explained calls (initial_world clock writable) [])
    as [Hc Hu]; [apply initial_world_valid | by intros l b Hl | done |].
  simpl in Hc, Hu. fold w log in Hc, Hu.
  assert (valid_world w) as Hw by apply run_valid, initial_world_valid.
  split; [|split].
  - intros k l b Hk Hl. rewrite (Hc l b Hl).
    rewrite (valid_world_book_id w k l b Hw Hk Hl). by case_decide.
  - intros l b Hl Hk. rewrite (Hc l b Hl). by case_decide.
  - intros k Hk. apply Hu. by apply contains_false_get.
Qed.

Lemma counters_from_start_witness :
  let calls :=
    [NewBook "B001" "The Great Gatsby" "F. Scott Fitzgerald" "978-0-7432-7356-5";
     NewMember "M001" "Alice Johnson" "alice@example.com";
     ProcessCheckout "M001" "B001" (date 2025 12 4);
     AddBook 0%nat; AddMember 0%nat;
     ProcessCheckout "M001" "B001" (date 2025 12 5);
     ProcessCheckout "M002" "B001" (date 2025 12 6);
     ProcessCheckout "M001" "B001" (date 2025 12 7)] in
  Book.total_checkouts <$>
    (book_objs (run calls (initial_world demo_clock (fun _ => true))).2 !! 0%nat)
  = Some 2.
Proof.
  intros calls.
  destruct (counters_from_start demo_clock (fun _ => true) calls) as [H _].
  destruct (book_objs (run calls (initial_world demo_clock (fun _ => true))).2
              !! 0%nat) as [b|] eqn:Hb; [|by vm_compute in Hb].
  simpl. f_equal. rewrite (H "B001" 0%nat b); [by vm_compute | by vm_compute |].
  exact Hb.
Defined.

(** ** The activity of a member *)

Lemma count_entries_cons (p : call * result value -> bool)
    (entry : call * result value) (log : list (call * result value)) :
  count_entries p (entry :: log)
  = (if p entry then 1 else 0) + count_entries p log.
Proof. unfold count_entries. simpl. destruct (p entry); simpl; lia. Qed.

Lemma list_remove_length (x : string) (l : list string) :
  x ∈ l -> S (length (list_remove x l)) = length l.
Proof.
  intros (front & back & -> & _ & ->)%list_remove_first.
  rewrite !length_app. simpl. lia.
Qed.

Lemma successful_checkout_by_idle (member_id : string) (c : call)
    (r : result value) :
  checkout_succeeded c r = false ->
  successful_checkout_by member_id (c, r) = false.
Proof.
  destruct c; try done. destruct r as [[| [|] | | |]|]; simpl; done.
Qed.

(** One call changes the lengths of a registered member's history and of its
    list of held books by what the call did for that member. *)
Lemma perform_member_activity (w : World) (c : call) (member_id : string)
    (member : loc) (m : Member.t) :
  valid_world w ->
  Dict.get member_id (members (self w)) = Some member ->
  member_objs w !! member = Some m ->
  Dict.get member_id (members (self (perform c w).2)) = Some member /\
  exists m',
    member_objs (perform c w).2 !! member = Some m' /\
    Z.of_nat (length (Member.checkout_history m'))
    = Z.of_nat (length (Member.checkout_history m))
      + (if successful_checkout_by member_id (c, (perform c w).1)
         then 1 else 0) /\
    Z.of_nat (length (Member.books_checked_out m'))
    = Z.of_nat (length (Member.books_checked_out m))
      + (if successful_checkout_by member_id (c, (perform c w).1)
         then 1 else 0)
      - (if successful_return member (c, (perform c w).1) then 1 else 0).
Proof.
  intros Hw Hget Hm. pose proof (perform_step c w) as Hstep.
  destruct (perform c w) as [r w'] eqn:Hp. simpl in *.
  destruct c as [id t a i | id n e | book | member0 | mid bid d | member0 bid
                | limit | limit | author | mid | | filename].
  6:{ clear Hstep. unfold perform in Hp. rewrite fmap_m_run in Hp.
    destruct (member_objs w !! member0) as [m0|] eqn:Hm0.
    - rewrite (return_book_run _ _ _ _ Hm0) in Hp. injection Hp as <- <-.
      simpl. split; [done|]. destruct (decide (member0 = member)) as [->|Hne].
      + assert (m0 = m) as -> by congruence.
        eexists. split; [apply list_lookup_insert_eq; by eapply lookup_lt_Some|].
        unfold Member.return_book.
        destruct (list_contains bid (Member.books_checked_out m)) eqn:Hheld;
          simpl.
        * rewrite Nat.eqb_refl. split; [lia|].
          apply list_contains_elem_of, list_remove_length in Hheld. lia.
        * split; lia.
      + exists m. split; [by rewrite list_lookup_insert_ne|].
        destruct (Member.return_book m0 bid).2; simpl; [|lia].
        apply Nat.eqb_neq in Hne. rewrite Hne. lia.
    - unfold return_book in Hp.
      rewrite (bind_raise _ _ w w InvalidReference) in Hp
        by (unfold read_member; by rewrite Hm0).
      injection Hp as <- <-. simpl. split; [done|]. exists m.
      split; [done|]. lia. }
  all: clear Hp.
  all: inversion Hstep as [| | ? b0 Hbo Hget0 | ? m0 Hmo Hget0
                          | ? ? ? member1 book1 m1 b1 Hgm Hgb Hmo Hbo | |
                            ? ? ? (Hbs & Hms & Hself) Hidle]; subst.
  all: try (rewrite Hself, Hms; split; [done|]; exists m; split; [done|];
            try rewrite (successful_checkout_by_idle _ _ _ Hidle); simpl; lia).
  - simpl. split; [done|]. exists m. split; [done | lia].
  - simpl. split; [done|]. exists m. split; [by apply lookup_app_l_Some | lia].
  - simpl. split; [done|]. exists m. split; [done | lia].
  - simpl. split; [by apply get_app_some|]. exists m. split; [done | lia].
  - simpl. split; [done|]. destruct (String.eqb_spec mid member_id) as [->|Hne].
    + assert (member1 = member) as -> by congruence.
      assert (m1 = m) as -> by congruence.
      eexists. split; [apply list_lookup_insert_eq; by eapply lookup_lt_Some|].
      simpl. rewrite !length_app. simpl. lia.
    + assert (member1 <> member) as Hl.
      { intros ->. apply Hne.
        rewrite <- (valid_world_member_id w mid member m Hw Hgm Hm).
        by rewrite <- (valid_world_member_id w member_id member m Hw Hget Hm). }
      exists m. split; [by rewrite list_lookup_insert_ne | lia].
  - pose proof (successful_checkout_by_idle member_id _ _ Hidle) as H0.
    simpl in H0. rewrite H0, Hself, Hms. split; [done|]. exists m.
    split; [done | lia].
Qed.

(** X7: Over a sequence of calls, a registered member's history grows by one
    record per successful checkout in its name, and the number of books it
    holds is the number of those checkouts less the number of its successful
    returns; these are the two counts [Member.to_dict] reports. *)
Theorem member_activity_counts (w : World) (member_id : string) (member : loc)
    (m : Member.t) (calls : list call) :
  valid_world w ->
  Dict.get member_id (members (self w)) = Some member ->
  member_objs w !! member = Some m ->
  exists m',
    Dict.get member_id (members (self (run calls w).2)) = Some member /\
    member_objs (run calls w).2 !! member = Some m' /\
    field "total_checkouts" (Member.to_dict m')
    = Some (PyInt (Z.of_nat (length (Member.checkout_history m))
                   + count_entries (successful_checkout_by member_id)
                       (run calls w).1)) /\
    field "books_currently_checked_out" (Member.to_dict m')
    = Some (PyInt (Z.of_nat (length (Member.books_checked_out m))
                   + count_entries (successful_checkout_by member_id)
                       (run calls w).1
                   - count_entries (successful_return member)
                       (run calls w).1)).
Proof.
  revert w m. induction calls as [|c calls IH]; intros w m Hw Hget Hm.
  - exists m. simpl. unfold count_entries. simpl.
    repeat split; [done | done | |]; do 2 f_equal; lia.
  - rewrite run_cons. cbn [fst snd].
    destruct (perform_member_activity w c member_id member m Hw Hget Hm)
      as (Hget1 & m1 & Hm1 & Hhist1 & Hheld1).
    destruct (IH _ m1 (perform_valid c w Hw) Hget1 Hm1)
      as (m' & Hget' & Hm' & Hhist' & Hheld').
    exists m'. split; [done|]. split; [done|].
    rewrite Hhist', Hheld', !count_entries_cons.
    split; do 2 f_equal; lia.
Qed.

Lemma member_activity_counts_witness :
  exists m',
    member_objs
      (run [ProcessCheckout "M003" "B005" (date 2026 1 7);
            ReturnBook 2%nat "B004";
            ReturnBook 2%nat "B001";
            ProcessCheckout "M003" "B404" (date 2026 1 8)] demo_world).2
      !! 2%nat = Some m' /\
    field "total_checkouts" (Member.to_dict m') = Some (PyInt 2) /\
    field "books_currently_checked_out" (Member.to_dict m') = Some (PyInt 1).
Proof.
  destruct (member_activity_counts demo_world "M003" 2%nat
              (default (Member.init "" "" "") (member_objs demo_world !! 2%nat))
              [ProcessCheckout "M003" "B005" (date 2026 1 7);
               ReturnBook 2%nat "B004";
               ReturnBook 2%nat "B001";
               ProcessCheckout "M003" "B404" (date 2026 1 8)]
              demo_world_valid)
    as (m' & _ & Hm' & Hhist & Hheld); [by vm_compute | by vm_compute |].
  exists m'. split; [exact Hm'|]. rewrite Hhist, Hheld.
  split; by vm_compute.
Defined.

(** ** Ranking by activity *)

Lemma member_entries_keys (w : World) (d : dict loc) (objs : list Member.t) :
  Forall2 (fun entry m => member_objs w !! entry.2 = Some m /\
                          Member.member_id m = entry.1) d objs ->
  Dict.keys d = map Member.member_id objs.
Proof.
  induction 1 as [|[k l] m d objs [_ Hk] _ IH]; simpl; [done|].
  simpl in Hk. by rewrite Hk, IH.
Qed.

Lemma get_most_active_members_run (w : World) (limit : Z) :
  valid_world w ->
  exists objs,
    Forall2 (fun entry m => member_objs w !! entry.2 = Some m /\
                            Member.member_id m = entry.1)
      (members (self w)) objs /\
    LibraryAnalytics.get_most_active_members limit w
    = (Ok (map Member.to_dict
             (slice_to
                (sorted (fun m => Z.of_nat (length (Member.checkout_history m)))
                   true objs) limit)), w).
Proof.
  intros (_ & _ & _ & Hm).
  destruct (map_m_read_member_entries w _ Hm) as (objs & Hrun & Hobjs).
  exists objs. split; [done|].
  unfold LibraryAnalytics.get_most_active_members.
  rewrite (bind_ok _ _ w w (self w)) by done.
  by rewrite (bind_ok _ _ w w objs).
Qed.

(** X8: [get_most_active_members(limit)] returns serialized members of the
    registry, ranked by the length of their history, longest first; members
    with histories of the same length stand in the order of their
    registration.  There are at most [limit] of them when [0 <= limit], and
    the world is not changed. *)
Theorem most_active_members_ranked (w : World) (limit : Z) :
  valid_world w ->
  exists result,
    LibraryAnalytics.get_most_active_members limit w = (Ok result, w) /\
    (0 <= limit -> Z.of_nat (length result) <= limit) /\
    (forall x, x ∈ result ->
       exists k l m,
         Dict.get k (members (self w)) = Some l /\
         member_objs w !! l = Some m /\ x = Member.to_dict m) /\
    (forall i j x y,
       (i < j)%nat -> result !! i = Some x -> result !! j = Some y ->
       exists cx cy idx idy,
         field "total_checkouts" x = Some (PyInt cx) /\
         field "total_checkouts" y = Some (PyInt cy) /\
         field "member_id" x = Some (PyStr idx) /\
         field "member_id" y = Some (PyStr idy) /\
         cy <= cx /\
         (cx = cy ->
          appears_before idx idy (Dict.keys (members (self w))))).
Proof.
  intros Hw. destruct (get_most_active_members_run w limit Hw)
    as (objs & Hobjs & Hrun).
  set (key := fun m => Z.of_nat (length (Member.checkout_history m))) in *.
  eexists. split; [exact Hrun|].
  destruct (slice_to_take (sorted key true objs) limit) as [n Hn].
  split; [|split].
  - intros Hlimit. rewrite length_map. by apply slice_to_length.
  - intros x (m & -> & Hm)%list_elem_of_fmap_1.
    rewrite Hn in Hm. apply elem_of_take in Hm as (p0 & Hp0 & _).
    apply list_elem_of_lookup_2 in Hp0. rewrite sorted_perm in Hp0.
    apply list_elem_of_lookup_1 in Hp0 as [p Hp].
    destruct (Forall2_lookup_r _ _ _ _ _ Hobjs Hp) as ([k l] & Hkl & Hl & Hk).
    simpl in *. exists k, l, m. split; [|done].
    apply elem_of_get; [apply Hw|]. by eapply list_elem_of_lookup_2.
  - intros i j x y Hij Hi Hj. rewrite list_lookup_fmap in Hi, Hj.
    destruct (slice_to _ limit !! i) as [mx|] eqn:Hmx; [|discriminate].
    destruct (slice_to _ limit !! j) as [my|] eqn:Hmy; [|discriminate].
    injection Hi as <-. injection Hj as <-.
    exists (key mx), (key my), (Member.member_id mx), (Member.member_id my).
    repeat (split; [done|]).
    assert (appears_before mx my (sorted key true objs)) as Hbefore.
    { apply (appears_before_take _ _ n). rewrite <- Hn. by exists i, j. }
    split.
    + destruct Hbefore as (p & q & Hpq & Hp & Hq).
      pose proof (strongly_sorted_lookup _ _ _ _ _ _
                    (sorted_ordered key true objs) Hpq Hp Hq) as H.
      unfold goes_before in H. lia.
    + intros Heq.
      apply (sorted_stable _ _ _ _ _ Heq) in Hbefore
        as (p & q & Hpq & Hp & Hq).
      exists p, q. split; [done|].
      rewrite (member_entries_keys _ _ _ Hobjs), !list_lookup_fmap, Hp, Hq.
      done.
Qed.

Lemma most_active_members_ranked_witness :
  exists result,
    LibraryAnalytics.get_most_active_members 2 demo_world
    = (Ok result, demo_world) /\
    Z.of_nat (length result) <= 2 /\
    field "member_id" <$> result = [Some (PyStr "M001"); Some (PyStr "M002")].
Proof.
  destruct (most_active_members_ranked demo_world 2 demo_world_valid)
    as (result & Hrun & Hlen & _).
  exists result. split; [exact Hrun|]. split; [apply Hlen; lia|].
  assert (Hrun' := Hrun). vm_compute in Hrun'. injection Hrun' as <-.
  by vm_compute.
Defined.

(** ** How many entries a ranking returns *)

(** X9: [get_most_popular_books(limit)] returns the first [limit] entries of the
    ranking, all of them when there are fewer; a negative [limit] drops the
    last [-limit] entries instead, and [0] gives the empty list.  When
    [limit] is at least the number of entries, every entry is returned. *)
Theorem most_popular_books_count (w : World) (limit : Z) :
  valid_world w ->
  let n := Z.of_nat (length (books (self w))) in
  exists result,
    LibraryAnalytics.get_most_popular_books limit w = (Ok result, w) /\
    Z.of_nat (length result)
    = (if limit <? 0 then Z.max 0 (n + limit) else Z.min limit n) /\
    (n <= limit ->
     forall k l b,
       Dict.get k (books (self w)) = Some l -> book_objs w !! l = Some b ->
       Book.to_dict b ∈ result).
Proof.
  intros Hw n. destruct (get_most_popular_books_run w limit Hw)
    as (objs & Hobjs & Hrun).
  eexists. split; [exact Hrun|].
  assert (length (sorted Book.total_checkouts true objs)
          = length (books (self w))) as Hlen.
  { rewrite (Permutation_length (sorted_perm _ _ objs)).
    symmetry. by eapply Forall2_length. }
  split.
  - rewrite length_map. unfold slice_to.
    destruct (Z.ltb_spec limit 0); rewrite length_take, Hlen; subst n; lia.
  - intros Hall k l b Hk Hl. apply list_elem_of_fmap_2.
    unfold slice_to. destruct (Z.ltb_spec limit 0); [subst n; lia|].
    rewrite take_ge by (rewrite Hlen; subst n; lia).
    rewrite sorted_perm. apply get_elem_of in Hk.
    apply list_elem_of_lookup_1 in Hk as [p Hp].
    destruct (Forall2_lookup_l _ _ _ _ _ Hobjs Hp) as (b' & Hb' & Hl' & _).
    simpl in Hl'. assert (b' = b) as -> by congruence.
    by eapply list_elem_of_lookup_2.
Qed.

Lemma most_popular_books_count_witness :
  (exists result,
     LibraryAnalytics.get_most_popular_books (-2) demo_world
     = (Ok result, demo_world) /\ length result = 3%nat) /\
  (exists result,
     LibraryAnalytics.get_most_popular_books 0 demo_world
     = (Ok result, demo_world) /\ length result = 0%nat) /\
  (exists result,
     LibraryAnalytics.get_most_popular_books 7 demo_world
     = (Ok result, demo_world) /\ length result = 5%nat).
Proof.
  assert (Z.of_nat (length (books (self demo_world))) = 5) as Hn
    by (by vm_compute).
  split; [|split].
  - destruct (most_popular_books_count demo_world (-2) demo_world_valid)
      as (result & Hrun & Hlen & _).
    exists result. split; [exact Hrun|]. rewrite Hn in Hlen. simpl in Hlen. lia.
  - destruct (most_popular_books_count demo_world 0 demo_world_valid)
      as (result & Hrun & Hlen & _).
    exists result. split; [exact Hrun|]. rewrite Hn in Hlen. simpl in Hlen. lia.
  - destruct (most_popular_books_count demo_world 7 demo_world_valid)
      as (result & Hrun & Hlen & _).
    exists result. split; [exact Hrun|]. rewrite Hn in Hlen. simpl in Hlen. lia.
Defined.

(** ** Books by author *)

Lemma filter_sublist {A : Type} (p : A -> bool) (l : list A) :
  List.filter p l `sublist_of` l.
Proof.
  induction l as [|x l IH]; simpl; [done|].
  destruct (p x); [by apply sublist_skip | by apply sublist_cons].
Qed.

Lemma map_sublist {A B : Type} (f : A -> B) (l1 l2 : list A) :
  l1 `sublist_of` l2 -> map f l1 `sublist_of` map f l2.
Proof. induction 1; simpl; by constructor. Qed.

Lemma get_books_by_author_run (w : World) (author : string) :
  valid_world w ->
  exists objs,
    Forall2 (fun entry b => book_objs w !! entry.2 = Some b /\
                            Book.book_id b = entry.1) (books (self w)) objs /\
    LibraryAnalytics.get_books_by_author author w
    = (Ok (map Book.to_dict
             (List.filter
                (fun book =>
                   String.eqb (str_lower (Book.author book)) (str_lower author))
                objs)), w).
Proof.
  intros (_ & _ & Hb & _).
  destruct (map_m_read_book_entries w _ Hb) as (objs & Hrun & Hobjs).
  exists objs. split; [done|].
  unfold LibraryAnalytics.get_books_by_author.
  rewrite (bind_ok _ _ w w (self w)) by done.
  by rewrite (bind_ok _ _ w w objs).
Qed.

Lemma char_lower_code (c : ascii) :
  is_ascii_char c = true ->
  N_of_ascii (char_lower c)
  = (if (65 <=? N_of_ascii c) && (N_of_ascii c <=? 90)
     then N_of_ascii c + 32 else N_of_ascii c)%N.
Proof.
  unfold is_ascii_char, char_lower. intros Hc%N.ltb_lt.
  assert ((192 <=? N_of_ascii c)%N = false) as -> by (apply N.leb_gt; lia).
  simpl. rewrite orb_false_r.
  destruct ((65 <=? N_of_ascii c)%N && (N_of_ascii c <=? 90)%N); [|done].
  apply N_ascii_embedding. lia.
Qed.

Lemma char_lower_same_letter (c c' : ascii) :
  is_ascii_char c = true -> is_ascii_char c' = true ->
  char_lower c = char_lower c' <-> same_letter c c' = true.
Proof.
  intros Hc Hc'.
  assert (char_lower c = char_lower c'
          <-> N_of_ascii (char_lower c) = N_of_ascii (char_lower c')) as ->.
  { split; [by intros ->|]. intros H.
    by rewrite <- (ascii_N_embedding (char_lower c)), H, ascii_N_embedding. }
  rewrite (char_lower_code c Hc), (char_lower_code c' Hc').
  unfold same_letter, is_ascii_char in *.
  apply N.ltb_lt in Hc, Hc'.
  destruct (N.leb_spec 65 (N_of_ascii c));
    destruct (N.leb_spec (N_of_ascii c) 90);
    destruct (N.leb_spec 65 (N_of_ascii c'));
    destruct (N.leb_spec (N_of_ascii c') 90);
    destruct (N.eqb_spec (N_of_ascii c) (N_of_ascii c'));
    destruct (N.eqb_spec (N_of_ascii c') (N_of_ascii c + 32));
    destruct (N.eqb_spec (N_of_ascii c) (N_of_ascii c' + 32));
    simpl; split; intros; try done; lia.
Qed.

Lemma str_lower_equal_ignoring_case (s t : string) :
  is_ascii s = true -> is_ascii t = true ->
  str_lower s = str_lower t <-> equal_ignoring_case s t = true.
Proof.
  revert t. induction s as [|c s IH]; intros [|c' t]; simpl; try done.
  intros [Hc Hs]%andb_true_iff [Hc' Ht]%andb_true_iff.
  rewrite andb_true_iff, <- (IH t Hs Ht), <- (char_lower_same_letter c c' Hc Hc').
  split; [by intros [= -> ->] | by intros [-> ->]].
Qed.

Lemma authors_ascii_entry (w : World) (k : string) (l : loc) (b : Book.t) :
  authors_ascii w = true -> (k, l) ∈ books (self w) ->
  book_objs w !! l = Some b -> is_ascii (Book.author b) = true.
Proof.
  unfold authors_ascii. rewrite forallb_forall. intros Hall Hin Hb.
  apply list_elem_of_In in Hin. specialize (Hall _ Hin). simpl in Hall.
  by rewrite Hb in Hall.
Qed.

(** X10: For an author name in ASCII and registered books whose authors are
    written in ASCII, [get_books_by_author(author)] returns the
    serializations of exactly the registered books whose author is [author]
    up to the case of the letters, in the order of their registration, and
    changes nothing; no match gives the empty list. *)
Theorem books_by_author_selects (w : World) (author : string) :
  valid_world w -> is_ascii author = true -> authors_ascii w = true ->
  exists selected,
    LibraryAnalytics.get_books_by_author author w
    = (Ok (map Book.to_dict selected), w) /\
    map Book.book_id selected `sublist_of` Dict.keys (books (self w)) /\
    (forall b,
       b ∈ selected <->
       equal_ignoring_case (Book.author b) author = true /\
       exists l, Dict.get (Book.book_id b) (books (self w)) = Some l /\
                 book_objs w !! l = Some b).
Proof.
  intros Hw Hauthor Hbooks. destruct (get_books_by_author_run w author Hw)
    as (objs & Hobjs & Hrun).
  eexists. split; [exact Hrun|]. split.
  - rewrite (entries_keys _ _ _ Hobjs). apply map_sublist, filter_sublist.
  - intros b. rewrite list_elem_of_In, List.filter_In, <- list_elem_of_In.
    rewrite String.eqb_eq. split.
    + intros [Hin Hsame].
      apply list_elem_of_lookup_1 in Hin as [p Hp].
      destruct (Forall2_lookup_r _ _ _ _ _ Hobjs Hp) as ([k l] & Hkl & Hl & Hk).
      simpl in *. apply list_elem_of_lookup_2 in Hkl.
      split.
      * apply str_lower_equal_ignoring_case; [|done|done].
        by apply (authors_ascii_entry w k l).
      * exists l. split; [|done]. rewrite Hk. apply elem_of_get; [apply Hw|done].
    + intros [Hsame (l & Hk & Hl)].
      apply get_elem_of in Hk.
      pose proof (authors_ascii_entry w _ l b Hbooks Hk Hl) as Hb.
      split; [|by apply str_lower_equal_ignoring_case].
      apply list_elem_of_lookup_1 in Hk as [p Hp].
      destruct (Forall2_lookup_l _ _ _ _ _ Hobjs Hp) as (b' & Hb' & Hl' & _).
      simpl in Hl'. assert (b' = b) as -> by congruence.
      by eapply list_elem_of_lookup_2.
Qed.

Lemma books_by_author_selects_witness :
  exists selected,
    LibraryAnalytics.get_books_by_author "JANE AUSTEN" demo_world
    = (Ok (map Book.to_dict selected), demo_world) /\
    map Book.book_id selected
      `sublist_of` ["B001"; "B002"; "B003"; "B004"; "B005"] /\
    (Book.mk "B004" "Pride and Prejudice" "Jane Austen" "978-0-14-143951-8" 2
       [book_record "M003" (date 2025 12 8);
        book_record "M001" (date 2025 12 15)]
       (Some (date 2025 12 15))) ∈ selected /\
    (forall b, b ∈ selected -> Book.author b <> "George Orwell").
Proof.
  assert (is_ascii "JANE AUSTEN" = true) as Hauthor by (by vm_compute).
  assert (authors_ascii demo_world = true) as Hbooks by (by vm_compute).
  destruct (books_by_author_selects demo_world "JANE AUSTEN" demo_world_valid
              Hauthor Hbooks)
    as (selected & Hrun & Hsub & Hsel).
  exists selected. split; [exact Hrun|].
  assert (Dict.keys (books (self demo_world))
          = ["B001"; "B002"; "B003"; "B004"; "B005"]) as Hkeys
    by (by vm_compute).
  rewrite Hkeys in Hsub. split; [exact Hsub|]. split.
  - apply Hsel. split; [by vm_compute|]. exists 3%nat.
    split; by vm_compute.
  - intros b Hb Horwell. apply Hsel in Hb as [Hsame _].
    rewrite Horwell in Hsame. vm_compute in Hsame. discriminate Hsame.
Defined.

(** ** The history of a member *)

Lemma get_member_checkout_history_known (w : World) (member_id : string)
    (member : loc) (m : Member.t) :
  Dict.get member_id (members (self w)) = Some member ->
  member_objs w !! member = Some m ->
  LibraryAnalytics.get_member_checkout_history member_id w
  = (Ok (Member.checkout_history m), w).
Proof.
  intros Hget Hm. unfold LibraryAnalytics.get_member_checkout_history.
  rewrite (bind_ok _ _ w w (self w)) by done.
  unfold Dict.contains. rewrite Hget. simpl.
  rewrite (bind_ok _ _ w w member) by (unfold subscript; by rewrite Hget).
  by rewrite (bind_ok _ _ w w m) by (unfold read_member; by rewrite Hm).
Qed.

(** X11: [get_member_checkout_history] of an identifier that is not registered
    is the empty list, not an error.  For a registered member it is the
    member's history, and a successful checkout in between adds exactly the
    record of that checkout at its end. *)
Theorem member_history_after_checkout (w : World) (member_id book_id : string)
    (d : datetime) :
  valid_world w ->
  (Dict.contains member_id (members (self w)) = false ->
   LibraryAnalytics.get_member_checkout_history member_id w = (Ok [], w)) /\
  (forall w',
     LibraryAnalytics.process_checkout member_id book_id d w = (Ok true, w') ->
     exists history,
       LibraryAnalytics.get_member_checkout_history member_id w
       = (Ok history, w) /\
       LibraryAnalytics.get_member_checkout_history member_id w'
       = (Ok (history ++ [member_record book_id d]), w')).
Proof.
  intros Hw. split.
  - intros Hno. unfold LibraryAnalytics.get_member_checkout_history.
    rewrite (bind_ok _ _ w w (self w)) by done. by rewrite Hno.
  - intros w' Hrun.
    destruct (process_checkout_true _ _ _ _ _ Hrun)
      as (member & book & m & b & Hgm & Hgb & Hmo & Hbo & ->).
    exists (Member.checkout_history m).
    split; [by apply (get_member_checkout_history_known w _ member m)|].
    rewrite (get_member_checkout_history_known _ _ member
               (Member.checkout_book m b d).1);
      [|done | simpl; apply list_lookup_insert_eq; by eapply lookup_lt_Some].
    simpl. unfold member_record.
    by rewrite (valid_world_book_id w book_id book b Hw Hgb Hbo).
Qed.

Lemma member_history_after_checkout_witness :
  LibraryAnalytics.get_member_checkout_history "M404" demo_world
  = (Ok [], demo_world) /\
  (LibraryAnalytics.get_member_checkout_history "M003"
     (LibraryAnalytics.process_checkout "M003" "B005" (date 2026 1 7)
        demo_world).2).1
  = Ok [member_record "B004" (date 2025 12 8);
        member_record "B005" (date 2026 1 7)].
Proof.
  destruct (member_history_after_checkout demo_world "M404" "B005"
              (date 2026 1 7) demo_world_valid) as [Hnone _].
  split; [apply Hnone; by vm_compute|].
  destruct (member_history_after_checkout demo_world "M003" "B005"
              (date 2026 1 7) demo_world_valid) as [_ Hsome].
  destruct (Hsome (LibraryAnalytics.process_checkout "M003" "B005"
                     (date 2026 1 7) demo_world).2)
    as (history & Hbefore & Hafter); [by vm_compute|].
  rewrite Hafter. simpl. f_equal.
  assert (Hbefore' := Hbefore). vm_compute in Hbefore'.
  injection Hbefore' as <-. by vm_compute.
Defined.

(** ** No guard against a second checkout *)

(** X12: Checking the same book out to the same member twice in a row succeeds
    both times: the member then holds the identifier two more times than
    before, and the book's counter is two higher. *)
Theorem double_checkout (w : World) (member_id book_id : string)
    (d1 d2 : datetime) (member book : loc) :
  valid_world w ->
  Dict.get member_id (members (self w)) = Some member ->
  Dict.get book_id (books (self w)) = Some book ->
  exists w1 w2 m b m2 b2,
    LibraryAnalytics.process_checkout member_id book_id d1 w = (Ok true, w1) /\
    LibraryAnalytics.process_checkout member_id book_id d2 w1 = (Ok true, w2) /\
    member_objs w !! member = Some m /\ book_objs w !! book = Some b /\
    member_objs w2 !! member = Some m2 /\ book_objs w2 !! book = Some b2 /\
    Member.books_checked_out m2
    = Member.books_checked_out m ++ [book_id; book_id] /\
    Book.total_checkouts b2 = Book.total_checkouts b + 2 /\
    Book.last_checkout b2 = Some d2.
Proof.
  intros Hw Hgm Hgb.
  destruct (valid_world_member_ref w _ _ Hw Hgm) as (m & Hm & Hmid).
  destruct (valid_world_book_ref w _ _ Hw Hgb) as (b & Hb & Hbid).
  pose proof (lookup_lt_Some _ _ _ Hm) as Hlm.
  pose proof (lookup_lt_Some _ _ _ Hb) as Hlb.
  remember (Member.checkout_book m b d1).1 as m1 eqn:Em1.
  remember (Member.checkout_book m b d1).2 as b1 eqn:Eb1.
  set (w1 := with_book_objs
               (with_member_objs w (<[member := m1]> (member_objs w)))
               (<[book := b1]> (book_objs w))).
  assert (member_objs w1 !! member = Some m1) as Hm1
    by (by apply list_lookup_insert_eq).
  assert (book_objs w1 !! book = Some b1) as Hb1
    by (by apply list_lookup_insert_eq).
  exists w1,
    (with_book_objs
       (with_member_objs w1
          (<[member := (Member.checkout_book m1 b1 d2).1]> (member_objs w1)))
       (<[book := (Member.checkout_book m1 b1 d2).2]> (book_objs w1))),
    m, b, (Member.checkout_book m1 b1 d2).1,
    (Member.checkout_book m1 b1 d2).2.
  split.
  { subst w1 m1 b1. by apply (process_checkout_run w _ _ d1 member book m b). }
  split; [by apply (process_checkout_run w1 _ _ d2 member book m1 b1)|].
  split; [done|]. split; [done|]. simpl.
  split; [apply list_lookup_insert_eq; by rewrite length_insert|].
  split; [apply list_lookup_insert_eq; by rewrite length_insert|].
  subst m1 b1. simpl. rewrite Hbid, <- app_assoc. simpl.
  split; [done|]. split; [lia | done].
Qed.

Lemma double_checkout_witness :
  exists w1 w2 m2 b2,
    LibraryAnalytics.process_checkout "M003" "B004" (date 2026 1 7) demo_world
    = (Ok true, w1) /\
    LibraryAnalytics.process_checkout "M003" "B004" (date 2026 1 8) w1
    = (Ok true, w2) /\
    member_objs w2 !! 2%nat = Some m2 /\ book_objs w2 !! 3%nat = Some b2 /\
    Member.books_checked_out m2 = ["B004"; "B004"; "B004"] /\
    Book.total_checkouts b2 = 4.
Proof.
  destruct (double_checkout demo_world "M003" "B004" (date 2026 1 7)
              (date 2026 1 8) 2%nat 3%nat demo_world_valid)
    as (w1 & w2 & m & b & m2 & b2 & Hrun1 & Hrun2 & Hm & Hb & Hm2 & Hb2 &
        Hheld & Hcount & _); [by vm_compute | by vm_compute |].
  exists w1, w2, m2, b2.
  split; [exact Hrun1|]. split; [exact Hrun2|]. split; [exact Hm2|].
  split; [exact Hb2|].
  vm_compute in Hm. injection Hm as <-. vm_compute in Hb. injection Hb as <-.
  split; [exact Hheld | exact Hcount].
Defined.

(** ** The export *)

Lemma valid_world_with_ticks (w : World) (n : nat) :
  valid_world w -> valid_world (with_ticks w n).
Proof. done. Qed.

Lemma average_defined_statistics (w : World) :
  valid_world w -> average_defined w ->
  exists stats,
    LibraryAnalytics.get_usage_statistics w
    = (Ok stats, with_ticks w (S (ticks w))) /\
    field "total_books" stats
    = Some (PyInt (Z.of_nat (length (books (self w))))) /\
    field "total_members" stats
    = Some (PyInt (Z.of_nat (length (members (self w))))) /\
    field "total_checkouts" stats = Some (PyInt (checkouts_of_all_entries w)) /\
    field "generated_at" stats = Some (PyStr (isoformat (clock w (ticks w)))).
Proof.
  intros Hw Havg. rewrite (get_usage_statistics_run w Hw). simpl.
  destruct Havg as [Hempty | [q Hq]].
  - rewrite Hempty. simpl. eexists. split; [reflexivity|]. done.
  - rewrite Hq. destruct (0 <? _); eexists; (split; [reflexivity|]); done.
Qed.

Lemma book_entries_unique (w : World) (d : dict loc) (l1 l2 : list Book.t) :
  Forall2 (fun entry b => book_objs w !! entry.2 = Some b /\
                          Book.book_id b = entry.1) d l1 ->
  Forall2 (fun entry b => book_objs w !! entry.2 = Some b /\
                          Book.book_id b = entry.1) d l2 ->
  l1 = l2.
Proof.
  intros H1. revert l2. induction H1 as [|e b d l1 [Hb _] _ IH]; intros l2 H2.
  - by inversion H2.
  - inversion H2 as [|? b' ? l2' [Hb' _] H2']; subst.
    f_equal; [congruence | by apply IH].
Qed.

Lemma member_entries_unique (w : World) (d : dict loc)
    (l1 l2 : list Member.t) :
  Forall2 (fun entry m => member_objs w !! entry.2 = Some m /\
                          Member.member_id m = entry.1) d l1 ->
  Forall2 (fun entry m => member_objs w !! entry.2 = Some m /\
                          Member.member_id m = entry.1) d l2 ->
  l1 = l2.
Proof.
  intros H1. revert l2. induction H1 as [|e b d l1 [Hb _] _ IH]; intros l2 H2.
  - by inversion H2.
  - inversion H2 as [|? b' ? l2' [Hb' _] H2']; subst.
    f_equal; [congruence | by apply IH].
Qed.

(** What the export does, by whether [open] succeeds. *)
Lemma export_run (w : World) (filename : string) :
  valid_world w -> average_defined w ->
  exists stats popular active,
    LibraryAnalytics.get_usage_statistics (with_ticks w (S (ticks w)))
    = (Ok stats, with_ticks w (S (S (ticks w)))) /\
    LibraryAnalytics.get_most_popular_books 10 w = (Ok popular, w) /\
    LibraryAnalytics.get_most_active_members 10 w = (Ok active, w) /\
    LibraryAnalytics.export_analytics_to_json filename w
    = if has_nul filename
      then (Raise ValueError, with_ticks w (S (S (ticks w))))
      else if writable w filename
      then (Ok filename,
            with_files (with_ticks w (S (S (ticks w))))
              (Dict.set filename
                 (json_dumps
                    (report_of (isoformat (clock w (ticks w))) stats popular
                       active))
                 (files w)))
      else (Raise OSError, with_ticks w (S (S (ticks w)))).
Proof.
  intros Hw Havg.
  set (w1 := with_ticks w (S (ticks w))).
  set (w2 := with_ticks w (S (S (ticks w)))).
  destruct (average_defined_statistics w1 (valid_world_with_ticks w _ Hw) Havg)
    as (stats & Hstats & _).
  destruct (get_most_popular_books_run w2 10 (valid_world_with_ticks w _ Hw))
    as (bs & Hbs & Hpop).
  destruct (get_most_active_members_run w2 10 (valid_world_with_ticks w _ Hw))
    as (ms & Hms & Hact).
  destruct (get_most_popular_books_run w 10 Hw) as (bs' & Hbs' & Hpop').
  destruct (get_most_active_members_run w 10 Hw) as (ms' & Hms' & Hact').
  assert (bs' = bs) as -> by (by apply (book_entries_unique w (books (self w)))).
  assert (ms' = ms) as ->
    by (by apply (member_entries_unique w (members (self w)))).
  eexists stats, _, _. split; [exact Hstats|].
  split; [exact Hpop'|]. split; [exact Hact'|].
  unfold LibraryAnalytics.export_analytics_to_json.
  rewrite (bind_ok _ _ w w1 (clock w (ticks w))) by done.
  rewrite (bind_ok _ _ w1 w2 stats) by exact Hstats.
  rewrite (bind_ok _ _ w2 w2 _ Hpop).
  rewrite (bind_ok _ _ w2 w2 _ Hact).
  unfold bind, write_file, ret, report_of. simpl.
  destruct (has_nul filename); [done|]. by destruct (writable w filename).
Qed.

(** X14: When [open] fails, because the file name holds a null character or
    because the path cannot be written, [export_analytics_to_json] raises
    and writes nothing; objects and registry are as before.  In a
    well-formed world whose average can be computed, the exception is the
    one of [open]: [ValueError] for the null character, [OSError]
    otherwise. *)
Theorem export_unwritable (w : World) (filename : string) :
  has_nul filename = true \/ writable w filename = false ->
  exists e w',
    LibraryAnalytics.export_analytics_to_json filename w = (Raise e, w') /\
    files w' = files w /\ same_objects w w' /\
    (valid_world w -> average_defined w ->
     e = if has_nul filename then ValueError else OSError).
Proof.
  intros Hopen.
  destruct (LibraryAnalytics.export_analytics_to_json filename w)
    as [[name|e] w'] eqn:Hrun.
  - exfalso. revert Hrun.
    unfold LibraryAnalytics.export_analytics_to_json, bind, utcnow.
    set (w1 := with_ticks w (S (ticks w))).
    pose proof (get_usage_statistics_world w1) as H1.
    destruct (LibraryAnalytics.get_usage_statistics w1) as [[stats|e] w2];
      [|done].
    pose proof (get_most_popular_books_world 10 w2) as H2.
    destruct (LibraryAnalytics.get_most_popular_books 10 w2) as [[pop|e] w3];
      [|done].
    simpl in H2. subst w3.
    pose proof (get_most_active_members_world 10 w2) as H3.
    destruct (LibraryAnalytics.get_most_active_members 10 w2) as [[act|e] w3];
      [|done].
    simpl in H3. subst w3. unfold write_file, ret.
    assert (writable w2 filename = writable w filename) as ->
      by (simpl in H1; by destruct H1 as [-> | ->]).
    destruct Hopen as [-> | ->]; [done|]. by destruct (has_nul filename).
  - exists e, w'. split; [done|].
    pose proof (export_same_objects filename w) as Hsame.
    rewrite Hrun in Hsame. simpl in Hsame. split; [|split; [exact Hsame|]].
    + revert Hrun.
      unfold LibraryAnalytics.export_analytics_to_json, bind, utcnow.
      set (w1 := with_ticks w (S (ticks w))).
      pose proof (get_usage_statistics_world w1) as H1.
      destruct (LibraryAnalytics.get_usage_statistics w1) as [[stats|e1] w2];
        simpl in H1.
      all: assert (files w2 = files w /\
                   writable w2 filename = writable w filename)
             as [Hfiles Hwr] by (by destruct H1 as [-> | ->]).
      2:{ by intros [= _ <-]. }
      pose proof (get_most_popular_books_world 10 w2) as H2.
      destruct (LibraryAnalytics.get_most_popular_books 10 w2)
        as [[pop|e2] w3]; simpl in H2; subst w3.
      2:{ by intros [= _ <-]. }
      pose proof (get_most_active_members_world 10 w2) as H3.
      destruct (LibraryAnalytics.get_most_active_members 10 w2)
        as [[act|e3] w3]; simpl in H3; subst w3.
      2:{ by intros [= _ <-]. }
      unfold write_file, ret. rewrite Hwr.
      destruct Hopen as [-> | ->]; [by intros [= _ <-]|].
      destruct (has_nul filename); by intros [= _ <-].
    + intros Hw Havg.
      destruct (export_run w filename Hw Havg) as (? & ? & ? & _ & _ & _ & Hrun').
      rewrite Hrun in Hrun'.
      destruct (has_nul filename); [by injection Hrun'|].
      destruct Hopen as [|Hwr]; [done|]. rewrite Hwr in Hrun'.
      by injection Hrun'.
Qed.

Lemma export_unwritable_witness :
  (exists w',
     LibraryAnalytics.export_analytics_to_json "/proc/report.json"
       (initial_world demo_clock (fun name => String.eqb name "report.json"))
     = (Raise OSError, w') /\
     files w' = []) /\
  (exists w',
     LibraryAnalytics.export_analytics_to_json (String Ascii.zero "report.json")
       (initial_world demo_clock (fun _ => true))
     = (Raise ValueError, w') /\
     files w' = []).
Proof.
  split.
  - destruct (export_unwritable
                (initial_world demo_clock
                   (fun name => String.eqb name "report.json"))
                "/proc/report.json" (or_intror eq_refl))
      as (e & w' & Hrun & Hfiles & _ & He).
    specialize (He (initial_world_valid _ _) (or_introl eq_refl)).
    vm_compute in He. subst e. exists w'. split; [exact Hrun | exact Hfiles].
  - destruct (export_unwritable (initial_world demo_clock (fun _ => true))
                (String Ascii.zero "report.json") (or_introl eq_refl))
      as (e & w' & Hrun & Hfiles & _ & He).
    specialize (He (initial_world_valid _ _) (or_introl eq_refl)).
    vm_compute in He. subst e. exists w'. split; [exact Hrun | exact Hfiles].
Defined.

(** ** Nothing is ever taken away *)

Lemma book_grows_refl (b : Book.t) : book_grows b b.
Proof. unfold book_grows. repeat split; [lia | done]. Qed.

Lemma member_grows_refl (m : Member.t) : member_grows m m.
Proof. unfold member_grows. by repeat split. Qed.

Lemma world_grows_refl (w : World) : world_grows w w.
Proof.
  repeat split; try done.
  - intros l b Hb. exists b. split; [done | apply book_grows_refl].
  - intros l m Hm. exists m. split; [done | apply member_grows_refl].
Qed.

Lemma world_grows_trans (w1 w2 w3 : World) :
  world_grows w1 w2 -> world_grows w2 w3 -> world_grows w1 w3.
Proof.
  intros (Hkb & Hkm & Hgb & Hgm & Hb & Hm) (Hkb' & Hkm' & Hgb' & Hgm' & Hb' & Hm').
  repeat split.
  - by etrans.
  - by etrans.
  - auto.
  - auto.
  - intros l b Hl. destruct (Hb _ _ Hl) as (b2 & Hl2 & H12).
    destruct (Hb' _ _ Hl2) as (b3 & Hl3 & H23). exists b3. split; [done|].
    destruct H12 as (? & ? & ? & ? & ? & ?), H23 as (? & ? & ? & ? & ? & ?).
    unfold book_grows. repeat split; try congruence; [lia | by etrans].
  - intros l m Hl. destruct (Hm _ _ Hl) as (m2 & Hl2 & H12).
    destruct (Hm' _ _ Hl2) as (m3 & Hl3 & H23). exists m3. split; [done|].
    destruct H12 as (? & ? & ? & ?), H23 as (? & ? & ? & ?).
    unfold member_grows. repeat split; try congruence. by etrans.
Qed.

Lemma same_objects_grows (w w' : World) : same_objects w w' -> world_grows w w'.
Proof.
  intros (Hb & Hm & Hs). unfold world_grows. rewrite Hb, Hm, Hs.
  apply world_grows_refl.
Qed.

Lemma step_grows (w w' : World) (c : call) (r : result value) :
  step w c r w' -> world_grows w w'.
Proof.
  intros Hstep.
  destruct Hstep as [id t a i | id n e | book b0 Hbo Hget0 | member m0 Hmo Hget0
                    | mid bid d member book m0 b0 Hgm Hgb Hmo Hbo
                    | member bid m0 Hmo | c r w' Hsame _].
  - repeat split; simpl; try done.
    + intros l b Hl. exists b.
      split; [by apply lookup_app_l_Some | apply book_grows_refl].
    + intros l m Hl. exists m. split; [done | apply member_grows_refl].
  - repeat split; simpl; try done.
    + intros l b Hl. exists b. split; [done | apply book_grows_refl].
    + intros l m Hl. exists m.
      split; [by apply lookup_app_l_Some | apply member_grows_refl].
  - repeat split; simpl; try done.
    + rewrite keys_app. by apply prefix_app_r.
    + intros k l Hk. by apply get_app_some.
    + intros l b Hl. exists b. split; [done | apply book_grows_refl].
    + intros l m Hl. exists m. split; [done | apply member_grows_refl].
  - repeat split; simpl; try done.
    + rewrite keys_app. by apply prefix_app_r.
    + intros k l Hk. by apply get_app_some.
    + intros l b Hl. exists b. split; [done | apply book_grows_refl].
    + intros l m Hl. exists m. split; [done | apply member_grows_refl].
  - repeat split; simpl; try done.
    + intros l b Hl. destruct (decide (book = l)) as [<-|Hne].
      * eexists. split; [apply list_lookup_insert_eq; by eapply lookup_lt_Some|].
        assert (b = b0) as -> by congruence.
        unfold book_grows. simpl. repeat split; [lia|]. by apply prefix_app_r.
      * exists b. split; [by rewrite list_lookup_insert_ne|].
        apply book_grows_refl.
    + intros l m Hl. destruct (decide (member = l)) as [<-|Hne].
      * eexists. split; [apply list_lookup_insert_eq; by eapply lookup_lt_Some|].
        assert (m = m0) as -> by congruence.
        unfold member_grows. simpl. repeat split. by apply prefix_app_r.
      * exists m. split; [by rewrite list_lookup_insert_ne|].
        apply member_grows_refl.
  - repeat split; simpl; try done.
    + intros l b Hl. exists b. split; [done | apply book_grows_refl].
    + intros l m Hl. destruct (decide (member = l)) as [<-|Hne].
      * eexists. split; [apply list_lookup_insert_eq; by eapply lookup_lt_Some|].
        assert (m = m0) as -> by congruence.
        unfold member_grows, Member.return_book.
        by destruct (list_contains bid (Member.books_checked_out m0)).
      * exists m. split; [by rewrite list_lookup_insert_ne|].
        apply member_grows_refl.
  - by apply same_objects_grows.
Qed.

(** X15: No sequence of calls removes anything: every identifier stays
    registered, at the same reference and at the same place in the order of
    registration; every object keeps its identity fields; a book's counter
    never goes down, and every history keeps the records it had, in front of
    any new ones. *)
Theorem calls_only_add (w : World) (calls : list call) :
  Dict.keys (books (self w))
    `prefix_of` Dict.keys (books (self (run calls w).2)) /\
  Dict.keys (members (self w))
    `prefix_of` Dict.keys (members (self (run calls w).2)) /\
  (forall k l, Dict.get k (books (self w)) = Some l ->
               Dict.get k (books (self (run calls w).2)) = Some l) /\
  (forall k l, Dict.get k (members (self w)) = Some l ->
               Dict.get k (members (self (run calls w).2)) = Some l) /\
  (forall l b, book_objs w !! l = Some b ->
     exists b',
       book_objs (run calls w).2 !! l = Some b' /\
       Book.book_id b' = Book.book_id b /\ Book.title b' = Book.title b /\
       Book.author b' = Book.author b /\ Book.isbn b' = Book.isbn b /\
       Book.total_checkouts b <= Book.total_checkouts b' /\
       Book.checkout_history b `prefix_of` Book.checkout_history b') /\
  (forall l m, member_objs w !! l = Some m ->
     exists m',
       member_objs (run calls w).2 !! l = Some m' /\
       Member.member_id m' = Member.member_id m /\
       Member.name m' = Member.name m /\ Member.email m' = Member.email m /\
       Member.checkout_history m `prefix_of` Member.checkout_history m').
Proof.
  assert (world_grows w (run calls w).2) as H.
  { revert w. induction calls as [|c calls IH]; intros w.
    - apply world_grows_refl.
    - rewrite run_cons. simpl.
      eapply world_grows_trans; [|apply IH]. eapply step_grows, perform_step. }
  exact H.
Qed.

Lemma calls_only_add_witness :
  exists b',
    book_objs
      (run [ProcessCheckout "M003" "B001" (date 2026 1 7);
            ReturnBook 2%nat "B001";
            NewBook "B001" "Another Gatsby" "Nobody" "0";
            AddBook 5%nat] demo_world).2 !! 0%nat = Some b' /\
    Book.title b' = "The Great Gatsby" /\ 2 <= Book.total_checkouts b'.
Proof.
  destruct (calls_only_add demo_world
              [ProcessCheckout "M003" "B001" (date 2026 1 7);
               ReturnBook 2%nat "B001";
               NewBook "B001" "Another Gatsby" "Nobody" "0";
               AddBook 5%nat]) as (_ & _ & _ & _ & Hbooks & _).
  destruct (Hbooks 0%nat
              (Book.mk "B001" "The Great Gatsby" "F. Scott Fitzgerald"
                 "978-0-7432-7356-5" 2
                 [book_record "M001" (date 2025 12 5);
                  book_record "M002" (date 2025 12 6)]
                 (Some (date 2025 12 6))))
    as (b' & Hb' & _ & Htitle & _ & _ & Hcount & _); [by vm_compute|].
  exists b'. split; [exact Hb'|]. split; [exact Htitle | exact Hcount].
Defined.

(** ** The last checkout *)

Lemma step_last_checkout (w w' : World) (c : call) (r : result value) :
  Forall last_checkout_consistent (book_objs w) -> step w c r w' ->
  Forall last_checkout_consistent (book_objs w').
Proof.
  intros H Hstep.
  destruct Hstep as [id t a i | id n e | book b Hbo Hget | member m Hmo Hget
                    | mid bid d member book m b Hgm Hgb Hmo Hbo
                    | member bid m Hmo | c r w' (Hbs & Hms & Hself) _];
    simpl; try done.
  - apply Forall_app. split; [done|]. by apply Forall_singleton.
  - apply Forall_insert; [done|]. unfold last_checkout_consistent. simpl.
    by exists (Book.checkout_history b), (Member.member_id m).
  - by rewrite Hbs.
Qed.

Lemma run_last_checkout (calls : list call) (w : World) :
  Forall last_checkout_consistent (book_objs w) ->
  Forall last_checkout_consistent (book_objs (run calls w).2).
Proof.
  revert w. induction calls as [|c calls IH]; intros w Hw; [done|].
  rewrite run_cons. simpl. apply IH.
  eapply step_last_checkout; [exact Hw | apply perform_step].
Qed.

(** X16: After any sequence of calls from the start of a program, the
    [last_checkout] of every book is the date of the last record of its
    history.  So the snapshot of a book shows [None] as [last_checkout]
    exactly when its [total_checkouts] is 0. *)
Theorem last_checkout_is_latest (clock : nat -> datetime)
    (writable : string -> bool) (calls : list call) (l : loc) (b : Book.t) :
  book_objs (run calls (initial_world clock writable)).2 !! l = Some b ->
  last_checkout_consistent b /\
  (field "last_checkout" (Book.to_dict b) = Some PyNone <->
   field "total_checkouts" (Book.to_dict b) = Some (PyInt 0)).
Proof.
  intros Hb.
  assert (Forall last_checkout_consistent
            (book_objs (run calls (initial_world clock writable)).2)) as Hlast.
  { apply run_last_checkout. constructor. }
  assert (Forall counter_matches_history
            (book_objs (run calls (initial_world clock writable)).2)) as Hcount
    by (apply run_counters_match; constructor).
  pose proof (Forall_lookup_1 _ _ _ _ Hlast Hb) as H1.
  pose proof (Forall_lookup_1 _ _ _ _ Hcount Hb) as H2.
  split; [exact H1|].
  unfold last_checkout_consistent in H1. unfold counter_matches_history in H2.
  simpl. destruct (Book.last_checkout b) as [d|].
  - destruct H1 as (earlier & member_id & Hh). rewrite Hh, length_app in H2.
    simpl in H2. split; [discriminate|]. intros [= H0]. lia.
  - rewrite H1 in H2. simpl in H2. rewrite H2. done.
Qed.

Lemma last_checkout_is_latest_witness :
  last_checkout_consistent
    (Book.mk "B001" "Emma" "Jane Austen" "978-0-14-143958-7" 1
       [book_record "M001" (date 2026 1 7)] (Some (date 2026 1 7))).
Proof.
  apply (last_checkout_is_latest demo_clock (fun _ => true)
           [NewBook "B001" "Emma" "Jane Austen" "978-0-14-143958-7";
            AddBook 0%nat;
            NewMember "M001" "Alice Johnson" "alice@example.com";
            AddMember 0%nat;
            ProcessCheckout "M001" "B001" (date 2026 1 7)] 0%nat).
  by vm_compute.
Defined.

(** ** Identifiers in lists and histories are registered *)

Lemma contains_app {V : Type} (k : string) (d d' : dict V) :
  Dict.contains k d = true -> Dict.contains k (d ++ d') = true.
Proof.
  intros [v Hv]%contains_true_get. apply contains_true_get.
  exists v. by apply get_app_some.
Qed.

Lemma holds_registered_mono (w w' : World) (m : Member.t) :
  (forall k, Dict.contains k (books (self w)) = true ->
             Dict.contains k (books (self w')) = true) ->
  holds_registered w m -> holds_registered w' m.
Proof.
  intros Hmono [Hheld Hhist]. split.
  - eapply Forall_impl; [exact Hheld|]. auto.
  - eapply Forall_impl; [exact Hhist|].
    intros record (k & date & -> & Hk). exists k, date. auto.
Qed.

Lemma borrowers_registered_mono (w w' : World) (b : Book.t) :
  (forall k, Dict.contains k (members (self w)) = true ->
             Dict.contains k (members (self w')) = true) ->
  borrowers_registered w b -> borrowers_registered w' b.
Proof.
  intros Hmono Hb. eapply Forall_impl; [exact Hb|].
  intros record (k & date & -> & Hk). exists k, date. auto.
Qed.

Lemma list_remove_Forall (P : string -> Prop) (x : string) (l : list string) :
  Forall P l -> Forall P (list_remove x l).
Proof.
  induction 1 as [|y l Hy Hl IH]; simpl; [constructor|].
  destruct (String.eqb y x); [done | by constructor].
Qed.

Lemma step_registered (w w' : World) (c : call) (r : result value) :
  valid_world w ->
  Forall (holds_registered w) (member_objs w) ->
  Forall (borrowers_registered w) (book_objs w) ->
  step w c r w' ->
  Forall (holds_registered w') (member_objs w') /\
  Forall (borrowers_registered w') (book_objs w').
Proof.
  intros Hw Hms Hbs Hstep.
  destruct Hstep as [id t a i | id n e | book b0 Hbo Hget0 | member m0 Hmo Hget0
                    | mid bid d member book m0 b0 Hgm Hgb Hmo Hbo
                    | member bid m0 Hmo | c r w' (Hb & Hm & Hs) _].
  - split; simpl; [done|]. apply Forall_app. split; [done|].
    apply Forall_singleton. constructor.
  - split; simpl; [|done]. apply Forall_app. split; [done|].
    apply Forall_singleton. split; constructor.
  - split; simpl; [|done]. eapply Forall_impl; [exact Hms|].
    intros m. apply holds_registered_mono. intros k. apply contains_app.
  - split; simpl; [done|]. eapply Forall_impl; [exact Hbs|].
    intros b. apply borrowers_registered_mono. intros k. apply contains_app.
  - pose proof (valid_world_book_id w _ _ _ Hw Hgb Hbo) as Hbid.
    pose proof (valid_world_member_id w _ _ _ Hw Hgm Hmo) as Hmid.
    assert (Dict.contains bid (books (self w)) = true) as Hcb
      by (apply contains_true_get; eauto).
    assert (Dict.contains mid (members (self w)) = true) as Hcm
      by (apply contains_true_get; eauto).
    split; simpl.
    + apply Forall_insert; [done|].
      destruct (Forall_lookup_1 _ _ _ _ Hms Hmo) as [Hheld Hhist].
      split; simpl.
      * apply Forall_app. split; [done|]. apply Forall_singleton.
        by rewrite Hbid.
      * apply Forall_app. split; [done|]. apply Forall_singleton.
        exists bid, (isoformat d). by rewrite Hbid.
    + apply Forall_insert; [done|].
      pose proof (Forall_lookup_1 _ _ _ _ Hbs Hbo) as Hhist.
      unfold borrowers_registered. simpl.
      apply Forall_app. split; [done|]. apply Forall_singleton.
      exists mid, (isoformat d). by rewrite Hmid.
  - split; simpl; [|done]. apply Forall_insert; [done|].
    destruct (Forall_lookup_1 _ _ _ _ Hms Hmo) as [Hheld Hhist].
    unfold Member.return_book.
    destruct (list_contains bid (Member.books_checked_out m0)); [|done].
    split; simpl; [by apply list_remove_Forall | done].
  - rewrite Hb, Hm. split.
    + eapply Forall_impl; [exact Hms|]. intros m.
      apply holds_registered_mono. by rewrite Hs.
    + eapply Forall_impl; [exact Hbs|]. intros b.
      apply borrowers_registered_mono. by rewrite Hs.
Qed.

Lemma run_registered (calls : list call) (w : World) :
  valid_world w ->
  Forall (holds_registered w) (member_objs w) ->
  Forall (borrowers_registered w) (book_objs w) ->
  Forall (holds_registered (run calls w).2) (member_objs (run calls w).2) /\
  Forall (borrowers_registered (run calls w).2) (book_objs (run calls w).2).
Proof.
  revert w. induction calls as [|c calls IH]; intros w Hw Hms Hbs; [done|].
  rewrite run_cons. simpl.
  destruct (step_registered w _ c _ Hw Hms Hbs (perform_step c w)) as [H1 H2].
  apply IH; [by apply perform_valid | done | done].
Qed.

(** X17: After any sequence of calls from the start of a program, every
    identifier in a member's [books_checked_out] and in a record of its
    history is a registered book, and every record in a book's history
    names a registered member. *)
Theorem references_stay_registered (clock : nat -> datetime)
    (writable : string -> bool) (calls : list call) :
  let w := (run calls (initial_world clock writable)).2 in
  (forall l m book_id,
     member_objs w !! l = Some m -> book_id ∈ Member.books_checked_out m ->
     Dict.contains book_id (books (self w)) = true) /\
  (forall l m record,
     member_objs w !! l = Some m -> record ∈ Member.checkout_history m ->
     exists book_id date,
       record = PyDict [("book_id", PyStr book_id);
                        ("checkout_date", PyStr date)] /\
       Dict.contains book_id (books (self w)) = true) /\
  (forall l b record,
     book_objs w !! l = Some b -> record ∈ Book.checkout_history b ->
     exists member_id date,
       record = PyDict [("member_id", PyStr member_id);
                        ("checkout_date", PyStr date)] /\
       Dict.contains member_id (members (self w)) = true).
Proof.
  intros w.
  destruct (run_registered calls (initial_world clock writable))
    as [Hms Hbs]; [apply initial_world_valid | constructor | constructor |].
  fold w in Hms, Hbs. split; [|split].
  - intros l m book_id Hm Hin.
    destruct (Forall_lookup_1 _ _ _ _ Hms Hm) as [Hheld _].
    rewrite Forall_forall in Hheld. by apply Hheld.
  - intros l m record Hm Hin.
    destruct (Forall_lookup_1 _ _ _ _ Hms Hm) as [_ Hhist].
    rewrite Forall_forall in Hhist. by apply Hhist.
  - intros l b record Hb Hin.
    pose proof (Forall_lookup_1 _ _ _ _ Hbs Hb) as Hhist.
    unfold borrowers_registered in Hhist.
    rewrite Forall_forall in Hhist. by apply Hhist.
Qed.

Lemma references_stay_registered_witness :
  let calls :=
    [NewBook "B001" "Emma" "Jane Austen" "978-0-14-143958-7";
     AddBook 0%nat;
     NewMember "M001" "Alice Johnson" "alice@example.com";
     AddMember 0%nat;
     ProcessCheckout "M001" "B001" (date 2026 1 7)] in
  Dict.contains "B001"
    (books (self (run calls (initial_world demo_clock (fun _ => true))).2))
  = true.
Proof.
  intros calls.
  destruct (references_stay_registered demo_clock (fun _ => true) calls)
    as [Hheld _].
  apply (Hheld 0%nat
           (Member.mk "M001" "Alice Johnson" "alice@example.com" ["B001"]
              [member_record "B001" (date 2026 1 7)])).
  - by vm_compute.
  - apply list_elem_of_here.
Defined.

(** ** The registry is well formed *)

(** X18: After any sequence of calls from the start of a program, the keys of
    each dictionary are distinct, every key leads to an object that carries
    the key as its identifier, and no object is filed under two keys. *)
Theorem registry_well_formed (clock : nat -> datetime)
    (writable : string -> bool) (calls : list call) :
  let w := (run calls (initial_world clock writable)).2 in
  NoDup (Dict.keys (books (self w))) /\
  NoDup (Dict.keys (members (self w))) /\
  (forall k l, Dict.get k (books (self w)) = Some l ->
     exists b, book_objs w !! l = Some b /\ Book.book_id b = k) /\
  (forall k l, Dict.get k (members (self w)) = Some l ->
     exists m, member_objs w !! l = Some m /\ Member.member_id m = k) /\
  (forall k k' l, Dict.get k (books (self w)) = Some l ->
     Dict.get k' (books (self w)) = Some l -> k = k') /\
  (forall k k' l, Dict.get k (members (self w)) = Some l ->
     Dict.get k' (members (self w)) = Some l -> k = k').
Proof.
  intros w.
  assert (valid_world w) as Hw by apply run_valid, initial_world_valid.
  split; [apply Hw|]. split; [apply Hw|].
  split; [intros k l; by apply valid_world_book_ref|].
  split; [intros k l; by apply valid_world_member_ref|].
  split.
  - intros k k' l Hk Hk'.
    destruct (valid_world_book_ref w k l Hw Hk) as (b & Hb & <-).
    destruct (valid_world_book_ref w k' l Hw Hk') as (b' & Hb' & <-).
    congruence.
  - intros k k' l Hk Hk'.
    destruct (valid_world_member_ref w k l Hw Hk) as (m & Hm & <-).
    destruct (valid_world_member_ref w k' l Hw Hk') as (m' & Hm' & <-).
    congruence.
Qed.

Lemma registry_well_formed_witness :
  let calls :=
    [NewBook "B001" "Emma" "Jane Austen" "978-0-14-143958-7";
     AddBook 0%nat;
     NewBook "B001" "Emma, again" "Jane Austen" "978-0-14-143958-7";
     AddBook 1%nat] in
  exists b,
    book_objs (run calls (initial_world demo_clock (fun _ => true))).2 !! 0%nat
    = Some b /\
    Book.book_id b = "B001".
Proof.
  intros calls.
  destruct (registry_well_formed demo_clock (fun _ => true) calls)
    as (_ & _ & Hbooks & _).
  apply Hbooks. by vm_compute.
Defined.

(** ** Queries do not change anything *)

(** X19: The four queries leave the world exactly as it is; the statistics
    only read the clock, at most once. *)
Theorem queries_read_only (w : World) :
  (forall limit, (LibraryAnalytics.get_most_popular_books limit w).2 = w) /\
  (forall limit, (LibraryAnalytics.get_most_active_members limit w).2 = w) /\
  (forall author, (LibraryAnalytics.get_books_by_author author w).2 = w) /\
  (forall member_id,
     (LibraryAnalytics.get_member_checkout_history member_id w).2 = w) /\
  ((LibraryAnalytics.get_usage_statistics w).2 = w \/
   (LibraryAnalytics.get_usage_statistics w).2 = with_ticks w (S (ticks w))).
Proof.
  split; [intros; apply get_most_popular_books_world|].
  split; [intros; apply get_most_active_members_world|].
  split; [intros; apply get_books_by_author_world|].
  split; [intros; apply get_member_checkout_history_world|].
  apply get_usage_statistics_world.
Qed.

(** ** The statistics count the checkouts *)

Lemma entry_checkouts_insert_other (w : World) (l : loc) (b : Book.t)
    (entry : string * loc) :
  entry.2 <> l ->
  entry_checkouts (with_book_objs w (<[l := b]> (book_objs w))) entry
  = entry_checkouts w entry.
Proof.
  intros Hne. unfold entry_checkouts. simpl.
  by rewrite list_lookup_insert_ne.
Qed.

(** Raising the counter of one registered book by one raises the sum over
    the registry by one. *)
Lemma sum_after_checkout (w : World) (d : dict loc) (book_id : string)
    (book : loc) (b b' : Book.t) :
  NoDup (Dict.keys d) -> Forall (book_entry_valid w) d ->
  Dict.get book_id d = Some book ->
  book_objs w !! book = Some b ->
  Book.total_checkouts b' = Book.total_checkouts b + 1 ->
  py_sum (map (entry_checkouts
                 (with_book_objs w (<[book := b']> (book_objs w)))) d)
  = py_sum (map (entry_checkouts w) d) + 1.
Proof.
  intros Hnd Hvalid Hget Hb Hb'. unfold py_sum.
  induction d as [|[k l] d IH]; simpl in *; [discriminate|].
  apply NoDup_cons in Hnd as [Hk Hnd].
  apply Forall_cons in Hvalid as [Hkl Hvalid].
  unfold book_entry_valid in Hkl. simpl in Hkl.
  destruct (String.eqb_spec book_id k) as [->|Hne].
  - injection Hget as ->.
    assert (map (entry_checkouts
                   (with_book_objs w (<[book := b']> (book_objs w)))) d
            = map (entry_checkouts w) d) as ->.
    { apply map_ext_in. intros [k0 l0] Hin.
      apply entry_checkouts_insert_other. simpl. intros ->.
      rewrite Forall_forall in Hvalid. apply list_elem_of_In in Hin.
      pose proof (Hvalid _ Hin) as H0. unfold book_entry_valid in H0.
      simpl in H0. rewrite Hb in H0, Hkl. simpl in *.
      assert (k0 = k) as -> by congruence.
      apply Hk. apply (list_elem_of_fmap_2 fst) in Hin. exact Hin. }
    unfold entry_checkouts at 1 3. simpl.
    rewrite list_lookup_insert_eq by (by eapply lookup_lt_Some).
    rewrite Hb. simpl. lia.
  - rewrite IH by done.
    rewrite entry_checkouts_insert_other; [lia|]. simpl. intros ->.
    rewrite Hb in Hkl. simpl in Hkl. apply Hne.
    apply get_elem_of in Hget. rewrite Forall_forall in Hvalid.
    pose proof (Hvalid _ Hget) as H0. unfold book_entry_valid in H0.
    simpl in H0. rewrite Hb in H0. simpl in H0. congruence.
Qed.

Lemma entry_checkouts_app (w : World) (x : Book.t) (d : dict loc) :
  Forall (book_entry_valid w) d ->
  map (entry_checkouts (with_book_objs w (book_objs w ++ [x]))) d
  = map (entry_checkouts w) d.
Proof.
  intros Hvalid. apply map_ext_in. intros [k l] Hin.
  rewrite Forall_forall in Hvalid. apply list_elem_of_In in Hin.
  pose proof (Hvalid _ Hin) as H0. unfold book_entry_valid in H0. simpl in H0.
  unfold entry_checkouts. simpl.
  destruct (book_objs w !! l) as [b|] eqn:Hb; [|discriminate].
  by rewrite (lookup_app_l_Some _ _ _ _ Hb).
Qed.

Lemma all_successful_checkouts_app (log : list (call * result value))
    (c : call) (r : result value) :
  all_successful_checkouts (log ++ [(c, r)])
  = all_successful_checkouts log + (if checkout_succeeded c r then 1 else 0).
Proof.
  unfold all_successful_checkouts, count_entries.
  rewrite List.filter_app, length_app. simpl.
  destruct (checkout_succeeded c r); simpl; lia.
Qed.

Lemma py_sum_app (l1 l2 : list Z) : py_sum (l1 ++ l2) = py_sum l1 + py_sum l2.
Proof. unfold py_sum. induction l1 as [|x l1 IH]; simpl; lia. Qed.

Lemma step_sum (w w' : World) (c : call) (r : result value)
    (log : list (call * result value)) :
  valid_world w -> counters_explained w log ->
  checkouts_of_all_entries w = all_successful_checkouts log ->
  step w c r w' ->
  checkouts_of_all_entries w' = all_successful_checkouts (log ++ [(c, r)]).
Proof.
  intros Hw Hc Hsum Hstep. rewrite all_successful_checkouts_app.
  pose proof Hw as (Hnd & _ & Hvalid & _).
  destruct Hstep as [id t a i | id n e | book b0 Hbo Hget0 | member m0 Hmo Hget0
                    | mid bid d member book m0 b0 Hgm Hgb Hmo Hbo
                    | member bid m0 Hmo | c r w' (Hb & Hm & Hs) Hidle];
    unfold checkouts_of_all_entries in *; simpl.
  - rewrite entry_checkouts_app by done. lia.
  - change (map (entry_checkouts (with_member_objs w _)))
      with (map (entry_checkouts w)). lia.
  - change (map (entry_checkouts (with_self w _)))
      with (map (entry_checkouts w)).
    rewrite map_app, py_sum_app. simpl. unfold entry_checkouts at 2. simpl.
    rewrite Hbo. simpl. rewrite (Hc _ _ Hbo), Hget0.
    case_decide; [done|]. unfold py_sum in *. simpl. lia.
  - change (map (entry_checkouts (with_self w _)))
      with (map (entry_checkouts w)). lia.
  - change (map (entry_checkouts (with_book_objs (with_member_objs w ?ms) ?bs)))
      with (map (entry_checkouts (with_book_objs w bs))).
    rewrite (sum_after_checkout w _ bid book b0); [lia | done.. |].
    simpl. lia.
  - change (map (entry_checkouts (with_member_objs w _)))
      with (map (entry_checkouts w)). lia.
  - rewrite Hs, Hidle.
    assert (map (entry_checkouts w') (books (self w))
            = map (entry_checkouts w) (books (self w))) as ->; [|lia].
    apply map_ext. intros entry. unfold entry_checkouts. by rewrite Hb.
Qed.

Lemma run_sum (calls : list call) (w : World)
    (log : list (call * result value)) :
  valid_world w -> counters_explained w log -> unregistered_unused w log ->
  checkouts_of_all_entries w = all_successful_checkouts log ->
  checkouts_of_all_entries (run calls w).2
  = all_successful_checkouts (log ++ (run calls w).1).
Proof.
  revert w log. induction calls as [|c calls IH]; intros w log Hw Hc Hu Hsum.
  - simpl. by rewrite app_nil_r.
  - rewrite run_cons. simpl.
    destruct (step_counters_explained w _ c _ log Hw Hc Hu (perform_step c w))
      as [Hc1 Hu1].
    pose proof (step_sum w _ c _ log Hw Hc Hsum (perform_step c w)) as Hsum1.
    rewrite (cons_middle _ log), app_assoc.
    apply IH; [by apply perform_valid | done | done | done].
Qed.

(** X20: After any sequence of calls from the start of a program, the
    [total_checkouts] that [get_usage_statistics] reports is the number of
    calls of [process_checkout] that returned [True]. *)
Theorem statistics_count_checkouts (clock : nat -> datetime)
    (writable : string -> bool) (calls : list call) :
  let w := (run calls (initial_world clock writable)).2 in
  let log := (run calls (initial_world clock writable)).1 in
  checkouts_of_all_entries w = all_successful_checkouts log /\
  forall stats w',
    LibraryAnalytics.get_usage_statistics w = (Ok stats, w') ->
    field "total_checkouts" stats
    = Some (PyInt (all_successful_checkouts log)).
Proof.
  intros w log.
  assert (checkouts_of_all_entries w = all_successful_checkouts log) as Hsum.
  { apply (run_sum calls (initial_world clock writable) []);
      [apply initial_world_valid | by intros l b Hl | done | done]. }
  split; [exact Hsum|]. intros stats w' Hrun.
  assert (valid_world w) as Hw by apply run_valid, initial_world_valid.
  rewrite (get_usage_statistics_run w Hw) in Hrun. simpl in Hrun.
  rewrite <- Hsum.
  destruct (0 <? _); [destruct (int_truediv _ _)|];
    try discriminate Hrun; by injection Hrun as <- _.
Qed.

Lemma statistics_count_checkouts_witness :
  let calls :=
    [NewBook "B001" "Emma" "Jane Austen" "978-0-14-143958-7";
     AddBook 0%nat;
     NewMember "M001" "Alice Johnson" "alice@example.com";
     AddMember 0%nat;
     ProcessCheckout "M001" "B001" (date 2026 1 7);
     ProcessCheckout "M001" "B404" (date 2026 1 8);
     ReturnBook 0%nat "B001";
     ProcessCheckout "M001" "B001" (date 2026 1 9)] in
  exists stats,
    (LibraryAnalytics.get_usage_statistics
       (run calls (initial_world demo_clock (fun _ => true))).2).1 = Ok stats /\
    field "total_checkouts" stats = Some (PyInt 2).
Proof.
  intros calls.
  destruct (statistics_count_checkouts demo_clock (fun _ => true) calls)
    as [_ Hstats].
  destruct (LibraryAnalytics.get_usage_statistics
              (run calls (initial_world demo_clock (fun _ => true))).2)
    as [[stats|e] w'] eqn:Hrun; [|by vm_compute in Hrun].
  exists stats. split; [done|]. rewrite (Hstats stats w' eq_refl).
  by vm_compute.
Defined.
